(** * peerswap-web: on-chain funding, locking and fee escalation for a peg-in

    A shallow embedding of [cmd/psweb/ln/lnd.go] (module [Lnd]) and of the
    peg-in parts of the web server's main file (module [Psweb]).

    The node backend is external.  It is modelled as an arbitrary
    deterministic responder: every remote call is answered by a function of
    the whole history of calls made so far, and every call is appended to
    that history.  A theorem quantified over the backend therefore holds
    for every way the node may answer. *)

From Stdlib Require Import ZArith List String Ascii Bool Lia.
From Stdlib Require Import Strings.Byte.
Import ListNotations.

Open Scope string_scope.
Open Scope list_scope.
Open Scope Z_scope.

(** ** The parts of the Go runtime and standard library the code relies on *)

Module Go.

(** Go [error] values.  [NumError] is what [strconv] returns ([syntax]
    tells [ErrSyntax] from [ErrRange]); [errorsNew] is [errors.New];
    [rpcError] is an error reported by a remote call; [libError] one
    reported by a library routine. *)
Inductive error : Type :=
| NumError (fn input : string) (syntax : bool)
| errorsNew (msg : string)
| rpcError (msg : string)
| libError (msg : string).

(** The outcome of running a Go function that returns [(T, error)]:
    a value, a non-nil error, or a run-time panic.  [Diverge] is the
    model's own: a loop was cut off before the Go loop had finished. *)
Inductive Res (A : Type) : Type :=
| Ok (a : A)
| Fail (e : error)
| Panic
| Diverge.
Arguments Ok {A} a.
Arguments Fail {A} e.
Arguments Panic {A}.
Arguments Diverge {A}.

(** [strings.Split(s, sep)] for a one-character separator. *)
Fixpoint Split (s : string) (sep : ascii) : list string :=
  match s with
  | EmptyString => [EmptyString]
  | String c s' =>
      if Ascii.eqb c sep then EmptyString :: Split s' sep
      else match Split s' sep with
           | [] => [String c EmptyString]
           | p :: ps => String c p :: ps
           end
  end.

Definition digit_of (c : ascii) : option Z :=
  let n := Z.of_nat (nat_of_ascii c) in
  if (48 <=? n) && (n <=? 57) then Some (n - 48) else None.

Fixpoint parse_digits (s : string) (acc : Z) : option Z :=
  match s with
  | EmptyString => Some acc
  | String c s' =>
      match digit_of c with
      | None => None
      | Some d => parse_digits s' (acc * 10 + d)
      end
  end.

(** [strconv.ParseUint(s, 10, 64)]. *)
Definition ParseUint (s : string) : error + Z :=
  match s with
  | EmptyString => inl (NumError "ParseUint" s true)
  | _ =>
      match parse_digits s 0 with
      | None => inl (NumError "ParseUint" s true)
      | Some n =>
          if n <? 2 ^ 64 then inr n else inl (NumError "ParseUint" s false)
      end
  end.

(** [strconv.Atoi(s)] on a 64-bit platform: an optional sign, then one or
    more decimal digits, the value within the range of [int]. *)
Definition Atoi (s : string) : error + Z :=
  match s with
  | EmptyString => inl (NumError "Atoi" s true)
  | String c rest =>
      let neg := Ascii.eqb c "-"%char in
      let body := if neg || Ascii.eqb c "+"%char then rest else s in
      match body with
      | EmptyString => inl (NumError "Atoi" s true)
      | _ =>
          match parse_digits body 0 with
          | None => inl (NumError "Atoi" s true)
          | Some n =>
              if neg then
                if n <=? 2 ^ 63 then inr (- n)
                else inl (NumError "Atoi" s false)
              else
                if n <? 2 ^ 63 then inr n
                else inl (NumError "Atoi" s false)
          end
      end
  end.

(** Integer conversions wrap around. *)
Definition uint32 (z : Z) : Z := z mod 2 ^ 32.
Definition uint64 (z : Z) : Z := z mod 2 ^ 64.
Definition int64 (z : Z) : Z := (z + 2 ^ 63) mod 2 ^ 64 - 2 ^ 63.

Definition hex_digit (n : N) : ascii :=
  ascii_of_N (if (n <? 10)%N then 48 + n else 87 + n)%N.

(** [hex.EncodeToString]. *)
Fixpoint EncodeToString (b : list byte) : string :=
  match b with
  | [] => EmptyString
  | x :: b' =>
      let n := Byte.to_N x in
      String (hex_digit (n / 16)%N)
        (String (hex_digit (n mod 16)%N) (EncodeToString b'))
  end.

(** A Go [map[string]uint64] assignment [m[k] = v]. *)
Definition map_set (m : list (string * Z)) (k : string) (v : Z)
  : list (string * Z) :=
  (k, v) :: filter (fun p => negb (String.eqb (fst p) k)) m.

(** [err.Error()].  The quoting of [strconv.NumError] is kept simple. *)
Definition Error (e : error) : string :=
  match e with
  | NumError fn input syntax =>
      let quote := String (ascii_of_nat 34) EmptyString in
      ("strconv." ++ fn ++ ": parsing " ++ quote ++ input ++ quote ++ ": "
         ++ (if syntax then "invalid syntax" else "value out of range"))%string
  | errorsNew msg => msg
  | rpcError msg => msg
  | libError msg => msg
  end.

End Go.

(** ** [cmd/psweb/ln/lnd.go] *)

Module Lnd.
Import Go.

(** *** Data, as the RPC messages and [btcd/wire] have it *)

(** [lnrpc.OutPoint]. *)
Record OutPoint : Type := mkOutPoint {
  TxidBytes : list byte;
  TxidStr : string;
  OutputIndex : Z            (* uint32 *)
}.

(** [lnrpc.Utxo], the element of a [ListUnspent] reply. *)
Record Utxo : Type := mkUtxo {
  utxo_Address : string;
  utxo_AmountSat : Z;
  utxo_Outpoint : OutPoint;
  utxo_Confirmations : Z
}.

(** [lnrpc.OutputDetail], [lnrpc.PreviousOutPoint], [lnrpc.Transaction]. *)
Record OutputDetail : Type := mkOutputDetail {
  od_Address : string;
  od_OutputIndex : Z;        (* int64 *)
  od_Amount : Z
}.

Record PreviousOutPoint : Type := mkPreviousOutPoint {
  po_Outpoint : string       (* "txid:index" *)
}.

Record Transaction : Type := mkTransaction {
  TxHash : string;
  NumConfirmations : Z;      (* int32 *)
  OutputDetails : list OutputDetail;
  PreviousOutpoints : list PreviousOutPoint;
  RawTxHex : string
}.

(** [wire.OutPoint], [wire.TxIn], [wire.TxOut], [wire.MsgTx]. *)
Record WireOutPoint : Type := mkWireOutPoint {
  Hash : list byte;
  Index : Z
}.

Record TxIn : Type := mkTxIn {
  PreviousOutPoint_ : WireOutPoint
}.

Record TxOut : Type := mkTxOut {
  PkScript : list byte;
  Value : Z
}.

Record MsgTx : Type := mkMsgTx {
  Version : Z;
  TxIn_ : list TxIn;
  TxOut_ : list TxOut;
  LockTime : Z
}.

(** [wire.NewMsgTx(version)]. *)
Definition NewMsgTx (version : Z) : MsgTx := mkMsgTx version [] [] 0.

(** [chainhash.NewHash]: the bytes themselves, which must be 32. *)
Definition NewHash (b : list byte) : error + list byte :=
  if (List.length b =? 32)%nat then inr b
  else inl (libError "invalid hash length").

(** The result handed back to the caller. *)
Record SentResult : Type := mkSentResult {
  RawHex : string;
  TxId : string;
  AmountSat : Z
}.

(** The [oneof] of [walletrpc.PsbtCoinSelect.change_output]. *)
Inductive ChangeOutput : Type :=
| ExistingOutputIndex (i : Z)
| Add (b : bool).

(** The [oneof] of [walletrpc.FundPsbtRequest.template]. *)
Inductive Template : Type :=
| TemplateRaw (inputs : list OutPoint) (outputs : list (string * Z))
| TemplateCoinSelect (psbt : list byte) (change : ChangeOutput).

Inductive ChangeAddressType : Type :=
| CHANGE_ADDRESS_TYPE_UNSPECIFIED
| CHANGE_ADDRESS_TYPE_P2TR.

Record FundPsbtRequest : Type := mkFundPsbtRequest {
  req_Template : Template;
  req_SatPerVbyte : Z;
  req_MinConfs : Z;
  req_SpendUnconfirmed : bool;
  req_ChangeType : ChangeAddressType
}.

(** The two lock identifiers. *)
Definition internalLockId : list byte :=
  [ xed; xe1; x9a; x92; xed; x32; x1a; x47;
    x05; xf8; xa1; xcc; xcc; x1d; x4f; x61;
    x82; x54; x5d; x4b; xb4; xfa; xe0; x8b;
    xd5; x93; x78; x31; xb7; xe3; x8f; x98 ].

Definition myLockId : list byte :=
  [ x00; xe1; x9a; x92; xed; x32; x1a; x47;
    x05; xf8; xa1; xcc; xcc; x1d; x4f; x61;
    x82; x54; x5d; x4b; xb4; xfa; xe0; x8b;
    xd5; x93; x78; x31; xb7; xe3; x8f; x98 ].

(** The part of [config.Config] that this file reads. *)
Record Config : Type := mkConfig {
  Chain : string;
  PeginTxId : string;
  PeginAddress : string;
  PeginAmount : Z
}.

(** *** The history of remote calls *)

Inductive Call : Type :=
| CallConnect
| CallListUnspent (minConfs : Z)
| CallLeaseOutput (id : list byte) (op : OutPoint) (expirationSeconds : Z)
| CallReleaseOutput (id : list byte) (op : OutPoint)
| CallFundPsbt (req : FundPsbtRequest)
| CallGetFeeFromPsbt (psbt : list byte)
| CallFinalizePsbt (fundedPsbt : list byte)
| CallPublishTransaction (txHex : list byte) (label : string)
| CallGetTransactions
| CallRemoveTransaction (txid : string)
| CallBumpFee (op : OutPoint) (satPerVbyte : Z).

(** A call together with whether the backend accepted it. *)
Record Event : Type := mkEvent {
  ev_call : Call;
  ev_ok : bool
}.

(** Newest event first. *)
Definition Trace : Type := list Event.

(** *** The lock table, as the history determines it

    The code keeps no lock table of its own: the table lives in the
    backend.  It is followed here as a function of the history.  An
    accepted lease puts the outpoint under the given identifier; an
    accepted funding of a raw template puts the inputs it names under
    the internal identifier; an accepted release frees the outpoint when
    it is held under the identifier given.  A rejected call changes
    nothing.  Expiry is not followed: a lock stays until it is
    released. *)

Definition OutKey : Type := (string * Z)%type.

Definition key_of (op : OutPoint) : OutKey := (TxidStr op, OutputIndex op).

Definition key_eqb (a b : OutKey) : bool :=
  String.eqb (fst a) (fst b) && (snd a =? snd b).

Definition bytes_eqb (a b : list byte) : bool :=
  if list_eq_dec Byte.byte_eq_dec a b then true else false.

Fixpoint holder (tr : Trace) (k : OutKey) : option (list byte) :=
  match tr with
  | [] => None
  | ev :: tr' =>
      let h := holder tr' k in
      if ev_ok ev then
        match ev_call ev with
        | CallLeaseOutput id op _ =>
            if key_eqb (key_of op) k then Some id else h
        | CallReleaseOutput id op =>
            if key_eqb (key_of op) k then
              match h with
              | Some id' => if bytes_eqb id id' then None else h
              | None => None
              end
            else h
        | CallFundPsbt req =>
            match req_Template req with
            | TemplateRaw inputs _ =>
                if existsb (fun op => key_eqb (key_of op) k) inputs
                then Some internalLockId else h
            | TemplateCoinSelect _ _ => h
            end
        | _ => h
        end
      else h
  end.

(** *** Computations that talk to the backend *)

Definition M (A : Type) : Type := Trace -> Res A * Trace.

Definition ret {A} (a : A) : M A := fun tr => (Ok a, tr).
Definition fail {A} (e : error) : M A := fun tr => (Fail e, tr).
Definition panic {A} : M A := fun tr => (Panic, tr).
Definition diverge {A} : M A := fun tr => (Diverge, tr).

Definition bind {A B} (m : M A) (f : A -> M B) : M B :=
  fun tr =>
    match m tr with
    | (Ok a, tr') => f a tr'
    | (Fail e, tr') => (Fail e, tr')
    | (Panic, tr') => (Panic, tr')
    | (Diverge, tr') => (Diverge, tr')
    end.

(** A call whose error the caller inspects: [x, err := f()]. *)
Definition catch {A} (m : M A) : M (error + A) :=
  fun tr =>
    match m tr with
    | (Ok a, tr') => (Ok (inr a), tr')
    | (Fail e, tr') => (Ok (inl e), tr')
    | (Panic, tr') => (Panic, tr')
    | (Diverge, tr') => (Diverge, tr')
    end.

(** A call whose error the caller drops: [f()] as a statement. *)
Definition ignore {A} (m : M A) : M unit :=
  bind (catch m) (fun _ => ret tt).

Definition lift {A} (r : Res A) : M A := fun tr => (r, tr).

Declare Scope go_scope.
Delimit Scope go_scope with go.
Notation "x <- m ;; k" := (bind m (fun x => k))
  (at level 100, m at next level, right associativity) : go_scope.
Notation "m ;;; k" := (bind m (fun _ => k))
  (at level 100, right associativity) : go_scope.
Open Scope go_scope.

(** *** What the code takes from outside

    [Libs] gathers the pure routines of [btcd] ([btcutil], [txscript],
    [psbt], [wire]) and of the repository's own [bitcoin] package that
    the file calls and whose sources are elsewhere.  [toSats] turns the
    fee that [bitcoin.GetFeeFromPsbt] reports into satoshis. *)

Inductive NetParams : Type := TestNet3Params | MainNetParams.

Record Libs : Type := mkLibs {
  Fee : Type;
  toSats : Fee -> Z;
  Address : Type;
  DecodeAddress : string -> NetParams -> error + Address;
  PayToAddrScript : Address -> error + list byte;
  Packet : Type;
  NewFromUnsignedTx : MsgTx -> error + Packet;
  Serialize : Packet -> list byte;
  Deserialize : list byte -> error + MsgTx;
  TxHashString : MsgTx -> string
}.

(** The backend: each remote call is answered from the history so far.
    [rpc_CanRBF] stands for the whole of [CanRBF], whose verdict rests on
    a floating-point reading of the node's version string and on a
    process-wide cache; the properties below only use the verdict. *)
Record Backend (L : Libs) : Type := mkBackend {
  rpc_Connect : Trace -> option error;
  rpc_ListUnspent : Trace -> Z -> error + list Utxo;
  rpc_LeaseOutput : Trace -> list byte -> OutPoint -> Z -> option error;
  rpc_ReleaseOutput : Trace -> list byte -> OutPoint -> option error;
  rpc_FundPsbt : Trace -> FundPsbtRequest -> error + list byte;
  rpc_GetFeeFromPsbt : Trace -> list byte -> error + Fee L;
  rpc_FinalizePsbt : Trace -> list byte -> error + list byte;
  rpc_PublishTransaction : Trace -> list byte -> string -> error + string;
  rpc_GetTransactions : Trace -> error + list Transaction;
  rpc_RemoveTransaction : Trace -> string -> error + string;
  rpc_BumpFee : Trace -> OutPoint -> Z -> option error;
  rpc_CanRBF : Trace -> bool
}.
Arguments rpc_Connect {L}.
Arguments rpc_ListUnspent {L}.
Arguments rpc_LeaseOutput {L}.
Arguments rpc_ReleaseOutput {L}.
Arguments rpc_FundPsbt {L}.
Arguments rpc_GetFeeFromPsbt {L}.
Arguments rpc_FinalizePsbt {L}.
Arguments rpc_PublishTransaction {L}.
Arguments rpc_GetTransactions {L}.
Arguments rpc_RemoveTransaction {L}.
Arguments rpc_BumpFee {L}.
Arguments rpc_CanRBF {L}.

Definition is_None {A} (o : option A) : bool :=
  match o with None => true | Some _ => false end.

Definition is_inr {A B} (s : A + B) : bool :=
  match s with inr _ => true | inl _ => false end.

Section Program.

Variable L : Libs.
Variable be : Backend L.
Variable cfg : Config.

(** **** The remote calls: answer from the history, then record *)

Definition lndConnection : M (option error) := fun tr =>
  let r := rpc_Connect be tr in
  (Ok r, mkEvent CallConnect (is_None r) :: tr).

Definition ListUnspent (minConfs : Z) : M (error + list Utxo) := fun tr =>
  let r := rpc_ListUnspent be tr minConfs in
  (Ok r, mkEvent (CallListUnspent minConfs) (is_inr r) :: tr).

Definition LeaseOutput (id : list byte) (op : OutPoint) (secs : Z)
  : M (option error) := fun tr =>
  let r := rpc_LeaseOutput be tr id op secs in
  (Ok r, mkEvent (CallLeaseOutput id op secs) (is_None r) :: tr).

Definition ReleaseOutput (id : list byte) (op : OutPoint)
  : M (option error) := fun tr =>
  let r := rpc_ReleaseOutput be tr id op in
  (Ok r, mkEvent (CallReleaseOutput id op) (is_None r) :: tr).

Definition FundPsbt (req : FundPsbtRequest) : M (error + list byte) :=
  fun tr =>
  let r := rpc_FundPsbt be tr req in
  (Ok r, mkEvent (CallFundPsbt req) (is_inr r) :: tr).

Definition GetFeeFromPsbt (psbt : list byte) : M (error + Fee L) :=
  fun tr =>
  let r := rpc_GetFeeFromPsbt be tr psbt in
  (Ok r, mkEvent (CallGetFeeFromPsbt psbt) (is_inr r) :: tr).

Definition FinalizePsbt (psbt : list byte) : M (error + list byte) :=
  fun tr =>
  let r := rpc_FinalizePsbt be tr psbt in
  (Ok r, mkEvent (CallFinalizePsbt psbt) (is_inr r) :: tr).

Definition PublishTransaction (txHex : list byte) (label : string)
  : M (error + string) := fun tr =>
  let r := rpc_PublishTransaction be tr txHex label in
  (Ok r, mkEvent (CallPublishTransaction txHex label) (is_inr r) :: tr).

Definition GetTransactions : M (error + list Transaction) := fun tr =>
  let r := rpc_GetTransactions be tr in
  (Ok r, mkEvent CallGetTransactions (is_inr r) :: tr).

Definition RemoveTransaction (txid : string) : M (error + string) :=
  fun tr =>
  let r := rpc_RemoveTransaction be tr txid in
  (Ok r, mkEvent (CallRemoveTransaction txid) (is_inr r) :: tr).

Definition BumpFee (op : OutPoint) (satPerVbyte : Z) : M (option error) :=
  fun tr =>
  let r := rpc_BumpFee be tr op satPerVbyte in
  (Ok r, mkEvent (CallBumpFee op satPerVbyte) (is_None r) :: tr).

Definition CanRBF : M bool := fun tr => (Ok (rpc_CanRBF be tr), tr).

(** **** [getTransaction], [GetTxConfirmations] *)

Definition getTransaction (txid : string) : M Transaction :=
  r <- GetTransactions ;;
  match r with
  | inl err => fail err
  | inr txs =>
      match find (fun tx => String.eqb (TxHash tx) txid) txs with
      | Some tx => ret tx
      | None => fail (errorsNew "txid not found")
      end
  end.

Definition GetTxConfirmations (txid : string) : M (Z * bool) :=
  r <- catch (getTransaction txid) ;;
  match r with
  | inr tx =>
      ret (NumConfirmations tx, (1 <? List.length (OutputDetails tx))%nat)
  | inl _ => ret (-1, false)
  end.

(** **** [releaseOutputs] *)

Fixpoint releaseOutputs (utxos : list string) (lockId : list byte)
  : M unit :=
  match utxos with
  | [] => ret tt
  | i :: rest =>
      let parts := Split i ":" in
      match nth_error parts 1 with
      | None => panic
      | Some p1 =>
          match Atoi p1 with
          | inl _ => ret tt
          | inr index =>
              r <- ReleaseOutput lockId
                     (mkOutPoint [] (hd "" parts) (uint32 index)) ;;
              match r with
              | Some err => fail err
              | None => releaseOutputs rest lockId
              end
          end
      end
  end.

(** **** [fundPsbt] *)

Fixpoint collectInputs (utxos : list string) (inputs : list OutPoint)
  : Res (list OutPoint) :=
  match utxos with
  | [] => Ok inputs
  | i :: rest =>
      let parts := Split i ":" in
      match nth_error parts 1 with
      | None => Panic
      | Some p1 =>
          match Atoi p1 with
          | inl err => Fail err
          | inr index =>
              collectInputs rest
                (inputs ++ [mkOutPoint [] (hd "" parts) (uint32 index)])
          end
      end
  end.

Definition fundPsbt (utxos : list string) (outputs : list (string * Z))
    (feeRate : Z) : M (list byte) :=
  inputs <- lift (collectInputs utxos []) ;;
  r <- FundPsbt (mkFundPsbtRequest (TemplateRaw inputs outputs) feeRate
                   1 false CHANGE_ADDRESS_TYPE_P2TR) ;;
  match r with
  | inl err => fail err
  | inr psbt => ret psbt
  end.

(** **** [fundPsbtSpendAll] *)

(** The inner loop over the caller's strings, for one unspent output;
    [txin] is [tx.TxIn] so far. *)
Fixpoint leaseMatching (utxo : Utxo) (utxoStrings : list string)
    (txin : list TxIn) : M (list TxIn) :=
  match utxoStrings with
  | [] => ret txin
  | u :: rest =>
      let parts := Split u ":" in
      match nth_error parts 1 with
      | None => panic
      | Some p1 =>
          match Atoi p1 with
          | inl err => fail err
          | inr index =>
              let op := utxo_Outpoint utxo in
              if String.eqb (TxidStr op) (hd "" parts)
                 && (OutputIndex op =? uint32 index)
              then
                match NewHash (TxidBytes op) with
                | inl err => fail err
                | inr hash =>
                    r <- LeaseOutput myLockId op 10 ;;
                    match r with
                    | Some err => fail err
                    | None =>
                        leaseMatching utxo rest
                          (txin ++ [mkTxIn (mkWireOutPoint hash
                                              (OutputIndex op))])
                    end
                end
              else leaseMatching utxo rest txin
          end
      end
  end.

(** The outer loop over the wallet's unspent outputs. *)
Fixpoint leaseAll (unspent : list Utxo) (utxoStrings : list string)
    (txin : list TxIn) : M (list TxIn) :=
  match unspent with
  | [] => ret txin
  | utxo :: more =>
      txin' <- leaseMatching utxo utxoStrings txin ;;
      leaseAll more utxoStrings txin'
  end.

Definition fundPsbtSpendAll (utxoStrings : list string) (address : string)
    (feeRate : Z) : M (list byte) :=
  r <- ListUnspent 1 ;;
  match r with
  | inl err => fail err
  | inr unspent =>
      let tx := NewMsgTx 2 in
      txin <- leaseAll unspent utxoStrings (TxIn_ tx) ;;
      let harnessNetParams :=
        if String.eqb (Chain cfg) "mainnet" then MainNetParams
        else TestNet3Params in
      match DecodeAddress L address harnessNetParams with
      | inl err => fail err
      | inr parsed =>
          match PayToAddrScript L parsed with
          | inl err => fail err
          | inr pkScript =>
              let tx := mkMsgTx (Version tx) txin
                          (TxOut_ tx ++ [mkTxOut pkScript 1])
                          (LockTime tx) in
              match NewFromUnsignedTx L tx with
              | inl err => fail err
              | inr packet =>
                  r <- FundPsbt
                         (mkFundPsbtRequest
                            (TemplateCoinSelect (Serialize L packet)
                               (ExistingOutputIndex 0))
                            feeRate 0 false
                            CHANGE_ADDRESS_TYPE_UNSPECIFIED) ;;
                  match r with
                  | inl err =>
                      ignore (releaseOutputs utxoStrings myLockId) ;;;
                      fail err
                  | inr fundedPsbt => ret fundedPsbt
                  end
              end
          end
      end
  end.

(** **** [SendCoinsWithUtxos] *)

(** The variables the fee-subtraction loop assigns. *)
Record LoopVars : Type := mkLoopVars {
  lv_finalAmount : Z;
  lv_outputs : list (string * Z);
  lv_psbtBytes : list byte;
  lv_err : option error
}.

(** [for haircut := int64(0); haircut <= 2000; haircut += 5 { ... }].
    A failing [releaseOutputs] leaves the function at once; a funded
    PSBT leaves the loop.  [fuel] bounds the number of times the loop
    condition is tested. *)
Fixpoint haircutLoop (fuel : nat) (utxos : list string) (addr : string)
    (amount : Z) (fee : Fee L) (feeRate : Z) (lockId : list byte)
    (haircut : Z) (v : LoopVars) : M LoopVars :=
  match fuel with
  | O => diverge
  | S fuel' =>
      if haircut <=? 2000 then
        releaseOutputs utxos lockId ;;;
        let finalAmount := int64 (int64 amount - toSats L fee - haircut) in
        let finalAmount := if finalAmount <? 0 then 0 else finalAmount in
        let outputs := map_set (lv_outputs v) addr (uint64 finalAmount) in
        r <- catch (fundPsbt utxos outputs feeRate) ;;
        match r with
        | inr psbtBytes =>
            ret (mkLoopVars finalAmount outputs psbtBytes None)
        | inl err =>
            haircutLoop fuel' utxos addr amount fee feeRate lockId
              (int64 (haircut + 5))
              (mkLoopVars finalAmount outputs [] (Some err))
        end
      else ret v
  end.

(** Lines 284-327: sign, deserialize, publish, report. *)
Definition finalizeAndPublish (utxos : list string) (lockId : list byte)
    (psbtBytes : list byte) (subtractFeeFromAmount : bool)
    (finalAmount : Z) : M SentResult :=
  res2 <- FinalizePsbt psbtBytes ;;
  match res2 with
  | inl err => ignore (releaseOutputs utxos lockId) ;;; fail err
  | inr rawTx =>
      match Deserialize L rawTx with
      | inl err => fail err
      | inr msgTx =>
          r <- PublishTransaction rawTx "Liquid Peg-in" ;;
          match r with
          | inl err => ignore (releaseOutputs utxos lockId) ;;; fail err
          | inr _ =>
              finalAmount <-
                (if subtractFeeFromAmount then
                   match TxOut_ msgTx with
                   | [] => panic
                   | out0 :: _ => ret (Value out0)
                   end
                 else ret finalAmount) ;;
              ret (mkSentResult (EncodeToString rawTx)
                     (TxHashString L msgTx) finalAmount)
          end
      end
  end.

Definition SendCoinsWithUtxos (fuel : nat) (utxos : list string)
    (addr : string) (amount : Z) (feeRate : Z)
    (subtractFeeFromAmount : bool) : M SentResult :=
  c <- lndConnection ;;
  match c with
  | Some err => fail err
  | None =>
      let finalAmount := amount in
      if subtractFeeFromAmount && (List.length utxos =? 0)%nat then
        fail (errorsNew
          "at least one unspent output must be selected to send funds without change")
      else
        let outputs :=
          if subtractFeeFromAmount then []
          else map_set [] addr (uint64 amount) in
        can <- (if subtractFeeFromAmount then CanRBF else ret false) ;;
        if can then
          psbtBytes <- fundPsbtSpendAll utxos addr feeRate ;;
          finalizeAndPublish utxos myLockId psbtBytes
            subtractFeeFromAmount finalAmount
        else
          let lockId := internalLockId in
          psbtBytes <- fundPsbt utxos outputs feeRate ;;
          if subtractFeeFromAmount then
            f <- GetFeeFromPsbt psbtBytes ;;
            match f with
            | inl err => fail err
            | inr fee =>
                v <- haircutLoop fuel utxos addr amount fee feeRate lockId
                       0 (mkLoopVars finalAmount outputs psbtBytes None) ;;
                match lv_err v with
                | Some err =>
                    ignore (releaseOutputs utxos lockId) ;;; fail err
                | None =>
                    finalizeAndPublish utxos lockId (lv_psbtBytes v)
                      subtractFeeFromAmount (lv_finalAmount v)
                end
            end
          else
            finalizeAndPublish utxos lockId psbtBytes
              subtractFeeFromAmount finalAmount
  end.

(** **** [doCPFP], [BumpPeginFee] *)

Definition doCPFP (outputs : list OutputDetail) (newFeeRate : Z)
  : M unit :=
  if (List.length outputs =? 1)%nat then
    fail (errorsNew
      "peg-in transaction has no change output, not possible to CPFP")
  else
    let outputIndex :=
      match find (fun output =>
                    negb (String.eqb (od_Address output)
                            (PeginAddress cfg))) outputs with
      | Some output => uint32 (od_OutputIndex output)
      | None => uint32 999
      end in
    r <- BumpFee (mkOutPoint [] (PeginTxId cfg) outputIndex) newFeeRate ;;
    match r with
    | Some err => fail err
    | None => ret tt
    end.

Definition BumpPeginFee (fuel : nat) (feeRate : Z) : M SentResult :=
  c <- lndConnection ;;
  match c with
  | Some err => fail err
  | None =>
      tx <- getTransaction (PeginTxId cfg) ;;
      c <- lndConnection ;;
      match c with
      | Some err => fail err
      | None =>
          can <- CanRBF ;;
          if negb can then
            doCPFP (OutputDetails tx) feeRate ;;;
            ret (mkSentResult "" (PeginTxId cfg) (PeginAmount cfg))
          else
            res <- RemoveTransaction (PeginTxId cfg) ;;
            match res with
            | inl err => fail err
            | inr status =>
                if negb (String.eqb status
                           "Successfully removed transaction")
                then fail (errorsNew
                       ("cannot remove the previous transaction: "
                          ++ status))
                else
                  let utxos :=
                    map po_Outpoint (PreviousOutpoints tx) in
                  ignore (releaseOutputs utxos internalLockId) ;;;
                  ignore (releaseOutputs utxos myLockId) ;;;
                  SendCoinsWithUtxos fuel utxos (PeginAddress cfg)
                    (PeginAmount cfg) feeRate
                    (List.length (OutputDetails tx) =? 1)%nat
            end
      end
  end.

End Program.

(** *** Vocabulary for the properties *)

(** The outpoint an entry ["txid:index"] names, when its index parses. *)
Definition outpointOf (i : string) : option OutPoint :=
  match nth_error (Split i ":") 1 with
  | Some p1 =>
      match Atoi p1 with
      | inr index => Some (mkOutPoint [] (hd "" (Split i ":")) (uint32 index))
      | inl _ => None
      end
  | None => None
  end.

(** An entry that has an index part which is not an integer. *)
Definition badIndex (i : string) : Prop :=
  exists p1 e, nth_error (Split i ":") 1 = Some p1 /\ Atoi p1 = inl e.


(** [m] only ever appends events that satisfy [P] to the history. *)
Definition emits {A} (P : Event -> Prop) (m : M A) : Prop :=
  forall tr r tr', m tr = (r, tr') ->
    exists evs, tr' = evs ++ tr /\ Forall P evs.

(** An accepted call that puts outpoints under a lock. *)
Definition locking (ev : Event) : bool :=
  ev_ok ev &&
  match ev_call ev with
  | CallLeaseOutput _ _ _ => true
  | CallFundPsbt req =>
      match req_Template req with
      | TemplateRaw _ _ => true
      | TemplateCoinSelect _ _ => false
      end
  | _ => false
  end.

Definition isPublish (ev : Event) : bool :=
  match ev_call ev with
  | CallPublishTransaction _ _ => true
  | _ => false
  end.

Definition isFund (ev : Event) : bool :=
  match ev_call ev with
  | CallFundPsbt _ => true
  | _ => false
  end.


Definition isRelease (ev : Event) : bool :=
  match ev_call ev with
  | CallReleaseOutput _ _ => true
  | _ => false
  end.

(** The raw-template funding requests among [evs], oldest first: the
    outputs each one asked for and whether the backend accepted it. *)
Fixpoint rawFundings (evs : list Event) : list (list (string * Z) * bool) :=
  match evs with
  | [] => []
  | ev :: older =>
      rawFundings older ++
      match ev_call ev with
      | CallFundPsbt req =>
          match req_Template req with
          | TemplateRaw _ outputs => [(outputs, ev_ok ev)]
          | TemplateCoinSelect _ _ => []
          end
      | _ => []
      end
  end.

(** The amount the fee-subtraction loop asks for at a given haircut. *)
Definition attemptAmount (L : Libs) (amount : Z) (fee : Fee L) (haircut : Z)
  : Z :=
  let finalAmount := int64 (int64 amount - toSats L fee - haircut) in
  if finalAmount <? 0 then 0 else finalAmount.

(** The release requests in [tr] that name the outpoint [k]. *)
Definition releasesOf (k : OutKey) (tr : Trace) : list Event :=
  filter (fun ev =>
            match ev_call ev with
            | CallReleaseOutput _ op => key_eqb (key_of op) k
            | _ => false
            end) tr.

End Lnd.

(** ** The peg-in parts of the web server: [startTimer], [liquidBackup],
       [bumpfeeHandler], [redirectWithError] *)

Module Psweb.
Import Go.

(** The part of [config.Config] these functions read and write. *)
Record Config : Type := mkConfig {
  PeginTxId : string;
  PeginAmount : Z;               (* int64 *)
  PeginFeeRate : Z;              (* uint32 *)
  PeginClaimScript : string;
  ElementsUser : string;
  ElementsPass : string;
  ElementsWallet : string;
  ElementsBackupAmount : Z;      (* uint64 *)
  DataDir : string
}.

Definition set_PeginTxId (c : Config) (v : string) : Config :=
  mkConfig v (PeginAmount c) (PeginFeeRate c) (PeginClaimScript c)
    (ElementsUser c) (ElementsPass c) (ElementsWallet c)
    (ElementsBackupAmount c) (DataDir c).

Definition set_PeginFeeRate (c : Config) (v : Z) : Config :=
  mkConfig (PeginTxId c) (PeginAmount c) v (PeginClaimScript c)
    (ElementsUser c) (ElementsPass c) (ElementsWallet c)
    (ElementsBackupAmount c) (DataDir c).

Definition set_ElementsBackupAmount (c : Config) (v : Z) : Config :=
  mkConfig (PeginTxId c) (PeginAmount c) (PeginFeeRate c)
    (PeginClaimScript c) (ElementsUser c) (ElementsPass c)
    (ElementsWallet c) v (DataDir c).

(** What the functions do to the outside world, with the outcome where
    one is reported. *)
Inductive Event : Type :=
| EvGetTxConfirmations (txid : string) (confs : Z)
| EvGetRawTransaction (txid : string) (ok : bool)
| EvGetTxOutProof (txid : string)
| EvClaimPegin (rawTx proof claimScript : string) (ok : bool)
| EvTelegramSendMessage (msg : string)
| EvSave (saved : Config)
| EvListActiveSwaps (ok : bool)
| EvLiquidGetBalance (ok : bool)
| EvBackupAndZip (wallet : string) (ok : bool)
| EvTelegramSendFile (dir file caption : string) (ok : bool)
| EvRemoveFile (path : string)
| EvGetTransaction (txid : string) (ok : bool)
| EvBumpFee (txid : string) (index : Z) (feeRate : Z) (ok : bool).

(** Newest first. *)
Definition History : Type := list Event.

(** The collaborators, each answering from the history so far.  They are
    functions of other packages of the repository ([ln], [ps], the
    bitcoin and liquid RPC wrappers, the Telegram bot) and of the
    operating system. *)
Record Env : Type := mkEnv {
  env_GetTxConfirmations : History -> string -> Z;
  env_getRawTransaction : History -> string -> error + string;
  env_getTxOutProof : History -> string -> string;
  env_claimPegin : History -> string -> string -> string -> error + string;
  env_ListActiveSwaps : History -> error + nat;
  env_LiquidGetBalance : History -> error + Z;
  env_backupAndZip : History -> string -> error + string;
  env_telegramSendFile : History -> string -> string -> string -> option error;
  env_formatWithThousandSeparators : Z -> string;
  env_GetTransaction : History -> string -> error + Lnd.Transaction;
  env_BumpFee : History -> string -> Z -> Z -> option error
}.

(** The process state: the configuration in memory, the Telegram chat id
    and the history. *)
Record State : Type := mkState {
  config : Config;
  chatId : Z;
  history : History
}.

Definition M (A : Type) : Type := State -> Res A * State.

Definition ret {A} (a : A) : M A := fun s => (Ok a, s).
Definition panic {A} : M A := fun s => (Panic, s).

Definition bind {A B} (m : M A) (f : A -> M B) : M B :=
  fun s =>
    match m s with
    | (Ok a, s') => f a s'
    | (Fail e, s') => (Fail e, s')
    | (Panic, s') => (Panic, s')
    | (Diverge, s') => (Diverge, s')
    end.

Declare Scope web_scope.
Delimit Scope web_scope with web.
Notation "x <- m ;; k" := (bind m (fun x => k))
  (at level 100, m at next level, right associativity) : web_scope.
Notation "m ;;; k" := (bind m (fun _ => k))
  (at level 100, right associativity) : web_scope.
Open Scope web_scope.

Definition getConfig : M Config := fun s => (Ok (config s), s).

Definition setConfig (c : Config) : M unit :=
  fun s => (Ok tt, mkState c (chatId s) (history s)).

Definition getChatId : M Z := fun s => (Ok (chatId s), s).

(** Ask a collaborator and record the event. *)
Definition ask {A} (answer : History -> A) (ev : A -> Event) : M A :=
  fun s =>
    let a := answer (history s) in
    (Ok a, mkState (config s) (chatId s) (ev a :: history s)).

Definition is_None {A} (o : option A) : bool :=
  match o with None => true | Some _ => false end.

Definition is_inr {A B} (x : A + B) : bool :=
  match x with inr _ => true | inl _ => false end.

Section Program.

Variable env : Env.

(** [config.Save()]. *)
Definition Save : M unit :=
  fun s =>
    (Ok tt, mkState (config s) (chatId s) (EvSave (config s) :: history s)).

Definition telegramSendMessage (msg : string) : M unit :=
  fun s =>
    (Ok tt,
     mkState (config s) (chatId s) (EvTelegramSendMessage msg :: history s)).

(** **** [liquidBackup] *)

Definition liquidBackup (force : bool) : M unit :=
  cfg <- getConfig ;;
  chat <- getChatId ;;
  if String.eqb (ElementsPass cfg) "" || String.eqb (ElementsUser cfg) ""
     || (chat =? 0)
  then ret tt
  else
    res <- ask (env_ListActiveSwaps env) (fun r => EvListActiveSwaps (is_inr r)) ;;
    match res with
    | inl _ => ret tt
    | inr swaps =>
        if (0 <? swaps)%nat && negb force then ret tt
        else
          res2 <- ask (env_LiquidGetBalance env)
                    (fun r => EvLiquidGetBalance (is_inr r)) ;;
          match res2 with
          | inl _ => ret tt
          | inr satAmount =>
              if (satAmount =? ElementsBackupAmount cfg) && negb force
              then ret tt
              else
                let wallet := ElementsWallet cfg in
                z <- ask (fun h => env_backupAndZip env h wallet)
                       (fun r => EvBackupAndZip wallet (is_inr r)) ;;
                match z with
                | inl _ => ret tt
                | inr destinationZip =>
                    let caption :=
                      env_formatWithThousandSeparators env satAmount in
                    e <- ask (fun h => env_telegramSendFile env h
                                         (DataDir cfg) destinationZip caption)
                           (fun r => EvTelegramSendFile (DataDir cfg)
                                       destinationZip caption (is_None r)) ;;
                    match e with
                    | Some _ => ret tt
                    | None =>
                        ask (fun _ => tt)
                          (fun _ => EvRemoveFile
                                      (DataDir cfg ++ "/" ++ destinationZip)) ;;;
                        cfg' <- getConfig ;;
                        setConfig (set_ElementsBackupAmount cfg' satAmount) ;;;
                        Save
                    end
                end
          end
    end.

(** **** [startTimer]

    The block ["Check Peg-in status"] of the loop body. *)
Definition checkPegin : M unit :=
  cfg <- getConfig ;;
  if negb (String.eqb (PeginTxId cfg) "") then
    confs <- ask (fun h => env_GetTxConfirmations env h (PeginTxId cfg))
               (EvGetTxConfirmations (PeginTxId cfg)) ;;
    if 102 <=? confs then
      r <- ask (fun h => env_getRawTransaction env h (PeginTxId cfg))
             (fun r => EvGetRawTransaction (PeginTxId cfg) (is_inr r)) ;;
      (match r with
       | inr rawTx =>
           proof <- ask (fun h => env_getTxOutProof env h (PeginTxId cfg))
                      (fun _ => EvGetTxOutProof (PeginTxId cfg)) ;;
           c <- ask (fun h => env_claimPegin env h rawTx proof
                                (PeginClaimScript cfg))
                  (fun c => EvClaimPegin rawTx proof (PeginClaimScript cfg)
                              (is_inr c)) ;;
           match c with
           | inl err =>
               if negb (String.eqb (Error err)
                          "timeout reading data from server")
               then telegramSendMessage
                      "❗ Peg-in claim FAILED! See log for details."
               else telegramSendMessage "💸 Peg-in success!"
           | inr _ => telegramSendMessage "💸 Peg-in success!"
           end
       | inl _ =>
           telegramSendMessage
             "❗ Peg-In getrawtx FAILED! See log for details."
       end) ;;;
      cfg <- getConfig ;;
      setConfig (set_PeginTxId cfg "") ;;;
      Save
    else ret tt
  else ret tt.

(** One pass through the body of the loop.  The Telegram bot that the body
    starts in a goroutine of its own is outside this model. *)
Definition timerTick : M unit :=
  liquidBackup false ;;;
  checkPegin.

(** [for range time.Tick(60 * time.Second) { ... }], cut after [n] ticks.
    A panic in the body ends the process. *)
Fixpoint startTimer (n : nat) : M unit :=
  match n with
  | O => ret tt
  | S n' => timerTick ;;; startTimer n'
  end.

(** **** [redirectWithError], [bumpfeeHandler] *)

(** What a handler writes to the response. *)
Inductive Response : Type :=
| HttpError (msg : string) (code : Z)
| Redirect (url : string) (code : Z)
| RedirectWithError (redirectUrl : string) (text : string).

(** The text [redirectWithError] puts, query-escaped, after ["err="]. *)
Definition redirectWithError (redirectUrl : string) (err : error) : Response :=
  let t := (Error err ++ String (ascii_of_nat 10) EmptyString)%string in
  let t :=
    if String.prefix
         "rpc error: code = Unavailable desc = connection error" t
    then "Cannot connect to peerswapd. It either failed to start, awaits LND or has wrong configuration. Check log and peerswap.conf."
    else t in
  RedirectWithError redirectUrl t.

(** The part of the request the handler looks at. *)
Record Request : Type := mkRequest {
  Method : string;
  ParseForm : option error;
  FormValue_feeRate : string
}.

(** The index the handler bumps: that of the first output whose amount is
    not the peg-in amount, 0 when there is none. *)
Fixpoint changeIndex (outputs : list Lnd.OutputDetail) (peginAmount : Z)
    (i : Z) : Z :=
  match outputs with
  | [] => uint32 0
  | output :: rest =>
      if negb (Lnd.od_Amount output =? peginAmount) then uint32 i
      else changeIndex rest peginAmount (i + 1)
  end.

Definition bumpfeeHandler (r : Request) : M Response :=
  if String.eqb (Method r) "POST" then
    match ParseForm r with
    | Some _ => ret (HttpError "Error parsing form data" 400)
    | None =>
        match ParseUint (FormValue_feeRate r) with
        | inl err => ret (redirectWithError "/bitcoin?" err)
        | inr fee =>
            cfg <- getConfig ;;
            if String.eqb (PeginTxId cfg) "" then
              ret (redirectWithError "/bitcoin?"
                     (errorsNew "no pending peg-in"))
            else
              t <- ask (fun h => env_GetTransaction env h (PeginTxId cfg))
                     (fun t => EvGetTransaction (PeginTxId cfg) (is_inr t)) ;;
              match t with
              | inl err => ret (redirectWithError "/bitcoin?" err)
              | inr tx =>
                  let index :=
                    changeIndex (Lnd.OutputDetails tx) (PeginAmount cfg) 0 in
                  match nth_error (Lnd.OutputDetails tx) (Z.to_nat index) with
                  | None => panic
                  | Some output =>
                      if Lnd.od_Amount output =? PeginAmount cfg then
                        ret (redirectWithError "/bitcoin?"
                               (errorsNew
                                  "peg-in tx has no change, not possible to bump"))
                      else
                        e <- ask (fun h => env_BumpFee env h (PeginTxId cfg)
                                             (uint32 index) fee)
                               (fun e => EvBumpFee (PeginTxId cfg)
                                           (uint32 index) fee (is_None e)) ;;
                        match e with
                        | Some err => ret (redirectWithError "/bitcoin?" err)
                        | None =>
                            cfg <- getConfig ;;
                            setConfig (set_PeginFeeRate cfg (uint32 fee)) ;;;
                            Save ;;;
                            ret (Redirect "/bitcoin" 303)
                        end
                  end
              end
        end
    end
  else ret (HttpError "Method not allowed" 405).

End Program.

(** *** Vocabulary for the properties *)

(** The number of claim attempts recorded in a stretch of history. *)
Fixpoint claimAttempts (h : History) : nat :=
  match h with
  | [] => 0
  | EvClaimPegin _ _ _ _ :: h' => S (claimAttempts h')
  | _ :: h' => claimAttempts h'
  end.

(** The number of fetches of a raw transaction recorded. *)
Fixpoint rawFetches (h : History) : nat :=
  match h with
  | [] => 0
  | EvGetRawTransaction _ _ :: h' => S (rawFetches h')
  | _ :: h' => rawFetches h'
  end.

(** Some confirmation lookup for [txid] reported at least [depth]. *)
Definition sawDepth (txid : string) (depth : Z) (h : History) : Prop :=
  exists confs, In (EvGetTxConfirmations txid confs) h /\ depth <= confs.

(** The bump requests recorded, newest first. *)
Fixpoint bumpRequests (h : History) : list (string * Z * Z * bool) :=
  match h with
  | [] => []
  | EvBumpFee txid index feeRate ok :: h' =>
      (txid, index, feeRate, ok) :: bumpRequests h'
  | _ :: h' => bumpRequests h'
  end.

End Psweb.

(** ** Concrete libraries and backends, to run the code on *)

Module Examples.
Import Go Lnd.

(** A toy instance of the outside routines: a fee is its amount in
    satoshis, an address is its text and its script the bytes of that
    text, a packet is the transaction it wraps, and a raw transaction is
    read back as one output carrying the raw bytes. *)
Definition libs0 : Libs :=
  mkLibs Z (fun fee => fee)
    string
    (fun address _ =>
       if String.eqb address "" then inl (libError "decode failed")
       else inr address)
    (fun a => inr (list_byte_of_string a))
    MsgTx (fun tx => inr tx)
    (fun p => flat_map PkScript (TxOut_ p))
    (fun raw => inr (mkMsgTx 2 [] [mkTxOut raw 42] 0))
    (fun tx => EncodeToString (rev (flat_map PkScript (TxOut_ tx)))).

Definition is_Some {A} (o : option A) : bool :=
  match o with Some _ => true | None => false end.

(** A backend that accepts everything and owns nothing. *)
Definition okBackend : Backend libs0 :=
  mkBackend libs0
    (fun _ => None)
    (fun _ _ => inr [])
    (fun _ _ _ _ => None)
    (fun _ _ _ => None)
    (fun _ _ => inr [x01])
    (fun _ _ => inr 100)
    (fun _ psbt => inr (x02 :: psbt))
    (fun _ _ _ => inr "")
    (fun _ => inr [])
    (fun _ _ => inr "Successfully removed transaction")
    (fun _ _ _ => None)
    (fun _ => false).

(** The same, except that releasing output [1] of any transaction is
    rejected. *)
Definition noRelease1 : Backend libs0 :=
  mkBackend libs0
    (rpc_Connect okBackend) (rpc_ListUnspent okBackend)
    (rpc_LeaseOutput okBackend)
    (fun _ _ op =>
       if OutputIndex op =? 1 then Some (rpcError "release rejected")
       else None)
    (rpc_FundPsbt okBackend) (rpc_GetFeeFromPsbt okBackend)
    (rpc_FinalizePsbt okBackend) (rpc_PublishTransaction okBackend)
    (rpc_GetTransactions okBackend) (rpc_RemoveTransaction okBackend)
    (rpc_BumpFee okBackend) (rpc_CanRBF okBackend).

Definition cfg0 : Config :=
  mkConfig "mainnet" "pegin" "bc1qpegin" 500000.

(** Two unspent outputs of the wallet. *)
Definition utxoA : Utxo :=
  mkUtxo "addrA" 600000 (mkOutPoint (repeat x00 32) "aa" 0) 6.

Definition utxoB : Utxo :=
  mkUtxo "addrB" 300000 (mkOutPoint (repeat x01 32) "bb" 1) 6.

(** An RBF-capable backend whose wallet holds [utxoA] and [utxoB]. *)
Definition walletBackend : Backend libs0 :=
  mkBackend libs0
    (rpc_Connect okBackend) (fun _ _ => inr [utxoA; utxoB])
    (rpc_LeaseOutput okBackend) (rpc_ReleaseOutput okBackend)
    (rpc_FundPsbt okBackend) (rpc_GetFeeFromPsbt okBackend)
    (rpc_FinalizePsbt okBackend) (rpc_PublishTransaction okBackend)
    (rpc_GetTransactions okBackend) (rpc_RemoveTransaction okBackend)
    (rpc_BumpFee okBackend) (fun _ => true).

(** The same wallet, but only output [0] of a transaction can be leased. *)
Definition leaseOnce : Backend libs0 :=
  mkBackend libs0
    (rpc_Connect okBackend) (fun _ _ => inr [utxoA; utxoB])
    (fun _ _ op _ =>
       if OutputIndex op =? 0 then None
       else Some (rpcError "lease rejected"))
    (rpc_ReleaseOutput okBackend)
    (rpc_FundPsbt okBackend) (rpc_GetFeeFromPsbt okBackend)
    (rpc_FinalizePsbt okBackend) (rpc_PublishTransaction okBackend)
    (rpc_GetTransactions okBackend) (rpc_RemoveTransaction okBackend)
    (rpc_BumpFee okBackend) (fun _ => true).

(** A backend without RBF that funds a template with no outputs and
    rejects every template that names an output. *)
Definition stingy : Backend libs0 :=
  mkBackend libs0
    (rpc_Connect okBackend) (rpc_ListUnspent okBackend)
    (rpc_LeaseOutput okBackend) (rpc_ReleaseOutput okBackend)
    (fun _ req =>
       match req_Template req with
       | TemplateRaw _ [] => inr [x01]
       | _ => inl (rpcError "insufficient funds")
       end)
    (rpc_GetFeeFromPsbt okBackend)
    (rpc_FinalizePsbt okBackend) (rpc_PublishTransaction okBackend)
    (rpc_GetTransactions okBackend) (rpc_RemoveTransaction okBackend)
    (rpc_BumpFee okBackend) (fun _ => false).

(** The pending peg-in of [cfg0]: two inputs, the peg-in output and a
    change output. *)
Definition pendingTx : Transaction :=
  mkTransaction "pegin" 0
    [mkOutputDetail "bc1qpegin" 0 500000; mkOutputDetail "bc1qchange" 1 99000]
    [mkPreviousOutPoint "aa:0"; mkPreviousOutPoint "bb:1"] "".

(** An RBF-capable backend that knows [pendingTx], rejects the release of
    output [0] of any transaction, and, as a node does, refuses to fund a
    raw template that names an input which is locked. *)
Definition rbfBackend : Backend libs0 :=
  mkBackend libs0
    (rpc_Connect okBackend) (rpc_ListUnspent okBackend)
    (rpc_LeaseOutput okBackend)
    (fun _ _ op =>
       if OutputIndex op =? 0 then Some (rpcError "release rejected")
       else None)
    (fun tr req =>
       match req_Template req with
       | TemplateRaw inputs _ =>
           if existsb (fun op => is_Some (holder tr (key_of op))) inputs
           then inl (rpcError "input already locked")
           else inr [x01]
       | TemplateCoinSelect _ _ => inr [x01]
       end)
    (rpc_GetFeeFromPsbt okBackend)
    (rpc_FinalizePsbt okBackend) (rpc_PublishTransaction okBackend)
    (fun _ => inr [pendingTx]) (rpc_RemoveTransaction okBackend)
    (rpc_BumpFee okBackend) (fun _ => true).

(** The history left by the funding of [pendingTx]: its two inputs are
    under the internal lock. *)
Definition fundedHistory : Trace :=
  [mkEvent
     (CallFundPsbt
        (mkFundPsbtRequest
           (TemplateRaw [mkOutPoint [] "aa" 0; mkOutPoint [] "bb" 1]
              [("bc1qpegin", 500000)])
           5 1 false CHANGE_ADDRESS_TYPE_P2TR))
     true].

(** An RBF-capable backend that knows [pendingTx] and accepts everything. *)
Definition rbfFriendly : Backend libs0 :=
  mkBackend libs0
    (rpc_Connect okBackend) (rpc_ListUnspent okBackend)
    (rpc_LeaseOutput okBackend) (rpc_ReleaseOutput okBackend)
    (rpc_FundPsbt okBackend) (rpc_GetFeeFromPsbt okBackend)
    (rpc_FinalizePsbt okBackend) (rpc_PublishTransaction okBackend)
    (fun _ => inr [pendingTx]) (rpc_RemoveTransaction okBackend)
    (rpc_BumpFee okBackend) (fun _ => true).

(** A backend without RBF that knows [pendingTx]. *)
Definition cpfpBackend : Backend libs0 :=
  mkBackend libs0
    (rpc_Connect okBackend) (rpc_ListUnspent okBackend)
    (rpc_LeaseOutput okBackend) (rpc_ReleaseOutput okBackend)
    (rpc_FundPsbt okBackend) (rpc_GetFeeFromPsbt okBackend)
    (rpc_FinalizePsbt okBackend) (rpc_PublishTransaction okBackend)
    (fun _ => inr [pendingTx]) (rpc_RemoveTransaction okBackend)
    (rpc_BumpFee okBackend) (fun _ => false).

(** A peg-in of 500,000 sats is pending, funded at 10 sat/vbyte. *)
Definition webConfig : Psweb.Config :=
  Psweb.mkConfig "pegin" 500000 10 "claimscript" "" "" "wallet" 0 "/data".

Definition webState : Psweb.State := Psweb.mkState webConfig 0 [].

(** Collaborators for which the pending transaction is [confs] deep, the
    raw transaction can be fetched or not, and everything else works. *)
Definition webEnv (confs : Z) (rawAvailable : bool) : Psweb.Env :=
  Psweb.mkEnv
    (fun _ _ => confs)
    (fun _ _ =>
       if rawAvailable then inr "rawtx"
       else inl (rpcError "getrawtransaction failed"))
    (fun _ _ => "proof")
    (fun _ _ _ _ => inr "liquidtxid")
    (fun _ => inr 0%nat)
    (fun _ => inr 0)
    (fun _ _ => inr "backup.zip")
    (fun _ _ _ _ => None)
    (fun _ => "0")
    (fun _ _ => inr pendingTx)
    (fun _ _ _ _ => None).

End Examples.

(** ** More of the code: further vocabulary and further functions *)

Module PswebMore.
Import Go.

(** The Telegram messages recorded, newest first. *)
Fixpoint telegramMessages (h : Psweb.History) : list string :=
  match h with
  | [] => []
  | Psweb.EvTelegramSendMessage msg :: h' => msg :: telegramMessages h'
  | _ :: h' => telegramMessages h'
  end.


End PswebMore.

(** *** More of the Go library *)

Module GoMore.
Import Go.

(** [strconv.ParseInt(s, 10, 64)]: an optional sign, then decimal digits,
    the value within the range of [int64]. *)
Definition ParseInt (s : string) : error + Z :=
  match s with
  | EmptyString => inl (NumError "ParseInt" s true)
  | String c rest =>
      let neg := Ascii.eqb c "-"%char in
      let body := if neg || Ascii.eqb c "+"%char then rest else s in
      match body with
      | EmptyString => inl (NumError "ParseInt" s true)
      | _ =>
          match parse_digits body 0 with
          | None => inl (NumError "ParseInt" s true)
          | Some n =>
              if neg then
                if n <=? 2 ^ 63 then inr (- n)
                else inl (NumError "ParseInt" s false)
              else
                if n <? 2 ^ 63 then inr n
                else inl (NumError "ParseInt" s false)
          end
      end
  end.

(** [int32(z)]. *)
Definition int32 (z : Z) : Z := (z + 2 ^ 31) mod 2 ^ 32 - 2 ^ 31.

End GoMore.

(** *** Routing statistics: [FetchForwardingStats], [GetForwardingStats],
    [GetNetFlow] *)

Module Forwarding.
Import Go.

(** The fields of [lnrpc.ForwardingEvent] that are read, all [uint64]. *)
Record ForwardingEvent : Type := mkForwardingEvent {
  ChanIdIn : Z;
  ChanIdOut : Z;
  AmtIn : Z;
  AmtOut : Z;
  FeeMsat : Z;
  TimestampNs : Z
}.

(** [ForwardingStats].  The struct is declared in another file of the
    package; its fields are the ones assigned here, and each is a
    [uint64] because a [uint64] is added or assigned to it. *)
Record ForwardingStats : Type := mkForwardingStats {
  AmountOut7d : Z;
  AmountOut30d : Z;
  AmountOut6m : Z;
  AmountIn7d : Z;
  AmountIn30d : Z;
  AmountIn6m : Z;
  FeeSat7d : Z;
  AssistedFeeSat7d : Z;
  FeeSat30d : Z;
  AssistedFeeSat30d : Z;
  FeeSat6m : Z;
  AssistedFeeSat6m : Z
}.

(** The variables of the loop of [GetForwardingStats]: the amounts of
    [result] and the six local fee counters. *)
Record Vars : Type := mkVars {
  out7d : Z; out30d : Z; out6m : Z;
  in7d : Z; in30d : Z; in6m : Z;
  feeMsat7d : Z; assistedMsat7d : Z;
  feeMsat30d : Z; assistedMsat30d : Z;
  feeMsat6m : Z; assistedMsat6m : Z
}.

Definition zeroVars : Vars := mkVars 0 0 0 0 0 0 0 0 0 0 0 0.

Section Stats.

(** [time.Now()] shifted by 7 days, 30 days and 6 months, as the Unix
    seconds the library reports. *)
Variables unix7d unix30d unix6m : Z.

Variable channelId : Z.

Definition timestamp7d : Z := uint64 (uint64 unix7d * 1000000000).
Definition timestamp30d : Z := uint64 (uint64 unix30d * 1000000000).
Definition timestamp6m : Z := uint64 (uint64 unix6m * 1000000000).

(** The [if e.ChanIdOut == channelId] block. *)
Definition countOut (e : ForwardingEvent) (v : Vars) : Vars :=
  if ChanIdOut e =? channelId then
    if timestamp6m <? TimestampNs e then
      let v := mkVars (out7d v) (out30d v) (uint64 (out6m v + AmtOut e))
                 (in7d v) (in30d v) (in6m v)
                 (feeMsat7d v) (assistedMsat7d v)
                 (feeMsat30d v) (assistedMsat30d v)
                 (uint64 (feeMsat6m v + FeeMsat e)) (assistedMsat6m v) in
      if timestamp30d <? TimestampNs e then
        let v := mkVars (out7d v) (uint64 (out30d v + AmtOut e)) (out6m v)
                   (in7d v) (in30d v) (in6m v)
                   (feeMsat7d v) (assistedMsat7d v)
                   (uint64 (feeMsat30d v + FeeMsat e)) (assistedMsat30d v)
                   (feeMsat6m v) (assistedMsat6m v) in
        if timestamp7d <? TimestampNs e then
          mkVars (uint64 (out7d v + AmtOut e)) (out30d v) (out6m v)
            (in7d v) (in30d v) (in6m v)
            (uint64 (feeMsat7d v + FeeMsat e)) (assistedMsat7d v)
            (feeMsat30d v) (assistedMsat30d v)
            (feeMsat6m v) (assistedMsat6m v)
        else v
      else v
    else v
  else v.

(** The [if e.ChanIdIn == channelId] block. *)
Definition countIn (e : ForwardingEvent) (v : Vars) : Vars :=
  if ChanIdIn e =? channelId then
    if timestamp6m <? TimestampNs e then
      let v := mkVars (out7d v) (out30d v) (out6m v)
                 (in7d v) (in30d v) (uint64 (in6m v + AmtIn e))
                 (feeMsat7d v) (assistedMsat7d v)
                 (feeMsat30d v) (assistedMsat30d v)
                 (feeMsat6m v) (uint64 (assistedMsat6m v + FeeMsat e)) in
      if timestamp30d <? TimestampNs e then
        let v := mkVars (out7d v) (out30d v) (out6m v)
                   (in7d v) (uint64 (in30d v + AmtIn e)) (in6m v)
                   (feeMsat7d v) (assistedMsat7d v)
                   (feeMsat30d v) (uint64 (assistedMsat30d v + FeeMsat e))
                   (feeMsat6m v) (assistedMsat6m v) in
        if timestamp7d <? TimestampNs e then
          mkVars (out7d v) (out30d v) (out6m v)
            (uint64 (in7d v + AmtIn e)) (in30d v) (in6m v)
            (feeMsat7d v) (uint64 (assistedMsat7d v + FeeMsat e))
            (feeMsat30d v) (assistedMsat30d v)
            (feeMsat6m v) (assistedMsat6m v)
        else v
      else v
    else v
  else v.

(** [for _, e := range forwardingEvents { ... }]. *)
Definition statsLoop (forwardingEvents : list ForwardingEvent) (v : Vars)
  : Vars :=
  fold_left (fun v e => countIn e (countOut e v)) forwardingEvents v.

Definition GetForwardingStats (forwardingEvents : list ForwardingEvent)
  : ForwardingStats :=
  let v := statsLoop forwardingEvents zeroVars in
  mkForwardingStats
    (out7d v) (out30d v) (out6m v) (in7d v) (in30d v) (in6m v)
    (feeMsat7d v / 1000) (assistedMsat7d v / 1000)
    (feeMsat30d v / 1000) (assistedMsat30d v / 1000)
    (feeMsat6m v / 1000) (assistedMsat6m v / 1000).

End Stats.

(** The body of the loop of [GetNetFlow]. *)
Definition netFlowStep (channelId timestampNs : Z) (netFlow : Z)
    (e : ForwardingEvent) : Z :=
  let netFlow :=
    if ChanIdOut e =? channelId then
      if timestampNs <? TimestampNs e
      then int64 (netFlow - int64 (AmtOut e)) else netFlow
    else netFlow in
  if ChanIdIn e =? channelId then
    if timestampNs <? TimestampNs e
    then int64 (netFlow + int64 (AmtIn e)) else netFlow
  else netFlow.

(** [GetNetFlow(channelId, timeStamp)]. *)
Definition GetNetFlow (forwardingEvents : list ForwardingEvent)
    (channelId timeStamp : Z) : Z :=
  let timestampNs := uint64 (timeStamp * 1000000000) in
  fold_left (netFlowStep channelId timestampNs) forwardingEvents 0.

(** [lnrpc.ForwardingHistoryRequest] and the fields of the response that
    are read. *)
Record ForwardingHistoryRequest : Type := mkForwardingHistoryRequest {
  StartTime : Z;
  IndexOffset : Z;
  PeerAliasLookup : bool;
  NumMaxEvents : Z
}.

Record ForwardingHistoryResponse : Type := mkForwardingHistoryResponse {
  ForwardingEvents : list ForwardingEvent;
  LastOffsetIndex : Z
}.

(** The node: whether a client can be had, and the answer to a
    forwarding-history request given the requests made before it (newest
    first). *)
Record Node : Type := mkNode {
  GetClient : option error;
  ForwardingHistory :
    list ForwardingHistoryRequest -> ForwardingHistoryRequest
    -> error + ForwardingHistoryResponse
}.





(** The sum of [f] over the events that satisfy [p]. *)
Fixpoint total (f : ForwardingEvent -> Z) (p : ForwardingEvent -> bool)
    (events : list ForwardingEvent) : Z :=
  match events with
  | [] => 0
  | e :: events' => (if p e then f e else 0) + total f p events'
  end.


End Forwarding.

(** *** The log endpoint: [logApiHandler] *)

Module LogApi.
Import Go GoMore.

(** A log file as the handler meets it: its bytes, and whether [Stat],
    [Seek] or [io.ReadAll] fail on it.  The file does not change while
    one request is served. *)
Record File : Type := mkFile {
  bytes : list byte;
  statFails : bool;
  seekFails : bool;
  readFails : bool
}.

(** The request and its surroundings.  [query k] is the first value of
    the URL parameter [k] when the parameter is present (a parsed query
    has no parameter without a value).  [Join] is [filepath.Join];
    [Open] is [os.Open]. *)
Record World : Type := mkWorld {
  query : string -> option string;
  DataDir : string;
  Join : string -> string -> string;
  Open : string -> option File
}.

(** What the handler writes: a bare status, or the JSON of
    [ResponseData]. *)
Inductive Response : Type :=
| WriteHeader (code : Z)
| ResponseData (NextPosition : Z) (LogText : list byte).

Definition logApiHandler (w : World) : Response :=
  match query w "pos" with
  | None => WriteHeader 200
  | Some key =>
      if (String.length key <? 1)%nat then WriteHeader 200
      else
        match ParseInt key with
        | inl _ => WriteHeader 200
        | inr startPosition =>
            let logFile :=
              match query w "log" with
              | Some key' =>
                  if (0 <? String.length key')%nat then key' else "log"
              | None => "log"
              end in
            let filename := Join w (DataDir w) logFile in
            match Open w filename with
            | None => WriteHeader 200
            | Some file =>
                if statFails file then WriteHeader 200
                else
                  let fileSize := Z.of_nat (List.length (bytes file)) in
                  if (0 <? startPosition) && (startPosition <? fileSize) then
                    if seekFails file then WriteHeader 200
                    else if readFails file then WriteHeader 200
                    else
                      let logText :=
                        skipn (Z.to_nat startPosition) (bytes file) in
                      let length := Z.of_nat (List.length logText) in
                      let logText :=
                        if (startPosition =? 1) && (10000 <? length)
                        then skipn (Z.to_nat (length - 10000)) logText
                        else logText in
                      ResponseData fileSize logText
                  else ResponseData fileSize []
            end
        end
  end.

(** A world in which the log file holds [content] and can be read. *)
Definition readable (w : World) (content : list byte) : Prop :=
  forall name, Open w name = Some (mkFile content false false false).

End LogApi.

(** *** Starting a peg-in: [peginHandler] *)

Module Pegin.
Import Go GoMore.

(** [config.Config]: the peg-in fields of [Psweb.Config] and the Bitcoin
    RPC fields the handler also writes. *)
Record Config : Type := mkConfig {
  web : Psweb.Config;
  BitcoinHost : string;
  BitcoinUser : string;
  BitcoinPass : string
}.

Definition set_PeginClaimScript (c : Psweb.Config) (v : string)
  : Psweb.Config :=
  Psweb.mkConfig (Psweb.PeginTxId c) (Psweb.PeginAmount c)
    (Psweb.PeginFeeRate c) v (Psweb.ElementsUser c) (Psweb.ElementsPass c)
    (Psweb.ElementsWallet c) (Psweb.ElementsBackupAmount c) (Psweb.DataDir c).

Definition set_PeginAmount (c : Psweb.Config) (v : Z) : Psweb.Config :=
  Psweb.mkConfig (Psweb.PeginTxId c) v
    (Psweb.PeginFeeRate c) (Psweb.PeginClaimScript c) (Psweb.ElementsUser c)
    (Psweb.ElementsPass c) (Psweb.ElementsWallet c)
    (Psweb.ElementsBackupAmount c) (Psweb.DataDir c).

(** [PeginAddress], as [getPeginAddress] fills it. *)
Record PeginAddress : Type := mkPeginAddress {
  MainChainAddress : string;
  ClaimScript : string
}.

(** What the handler does to the outside world.  A probe of the Bitcoin
    RPC is recorded with the host and credentials in force. *)
Inductive Event : Type :=
| EvConfirmedWalletBalance
| EvGetRawTransaction (host user pass txid : string) (ok : bool)
| EvGetPeginAddress (ok : bool)
| EvTelegramSendMessage (msg : string)
| EvSave (cfg : Config)
| EvSendCoins (addr : string) (amount fee : Z) (sweepall : bool)
    (label : string) (ok : bool).

Definition History : Type := list Event.

(** The collaborators, each answering from the history so far. *)
Record Env : Type := mkEnv {
  env_ConfirmedWalletBalance : History -> Z;
  env_getRawTransaction :
    History -> string -> string -> string -> string -> error + string;
  env_getPeginAddress : History -> error + PeginAddress;
  env_SendCoins :
    History -> string -> Z -> Z -> bool -> string -> error + string;
  env_Getenv : string -> string;
  env_GetBlockIoHost : string;
  env_formatWithThousandSeparators : Z -> string
}.

Record State : Type := mkState {
  config : Config;
  history : History
}.

Definition M (A : Type) : Type := State -> A * State.

Definition ret {A} (a : A) : M A := fun s => (a, s).

Definition bind {A B} (m : M A) (f : A -> M B) : M B :=
  fun s => let (a, s') := m s in f a s'.

Declare Scope pegin_scope.
Delimit Scope pegin_scope with pegin.
Notation "x <- m ;; k" := (bind m (fun x => k))
  (at level 100, m at next level, right associativity) : pegin_scope.
Notation "m ;;; k" := (bind m (fun _ => k))
  (at level 100, right associativity) : pegin_scope.
Open Scope pegin_scope.

Definition getConfig : M Config := fun s => (config s, s).

Definition setConfig (c : Config) : M unit :=
  fun s => (tt, mkState c (history s)).

Definition ask {A} (answer : History -> A) (ev : A -> Event) : M A :=
  fun s => let a := answer (history s) in (a, mkState (config s) (ev a :: history s)).

(** The part of the request the handler looks at. *)
Record Request : Type := mkRequest {
  Method : string;
  ParseForm : option error;
  FormValue : string -> string
}.

Section Program.

Variable env : Env.

Definition Save : M unit :=
  fun s => (tt, mkState (config s) (EvSave (config s) :: history s)).

Definition telegramSendMessage (msg : string) : M unit :=
  fun s => (tt, mkState (config s) (EvTelegramSendMessage msg :: history s)).

(** [getRawTransaction(tx)], which reads the host and the credentials
    from the configuration. *)
Definition getRawTransaction (tx : string) : M (error + string) :=
  cfg <- getConfig ;;
  ask (fun h => env_getRawTransaction env h (BitcoinHost cfg)
                  (BitcoinUser cfg) (BitcoinPass cfg) tx)
    (fun r => EvGetRawTransaction (BitcoinHost cfg) (BitcoinUser cfg)
                (BitcoinPass cfg) tx (Psweb.is_inr r)).

(** The handler from [getPeginAddress] on. *)
Definition startPegin (amount fee : Z) (sweepall : bool)
  : M Psweb.Response :=
  a <- ask (env_getPeginAddress env)
         (fun a => EvGetPeginAddress (Psweb.is_inr a)) ;;
  match a with
  | inl err => ret (Psweb.redirectWithError "/bitcoin?" err)
  | inr addr =>
      (* time.Time{}.Add(1020 * time.Minute).Format("15h 04m") *)
      let formattedDuration := "17h 00m" in
      telegramSendMessage
        ("⏰ Started peg-in "
           ++ env_formatWithThousandSeparators env (uint64 amount)
           ++ " sats. Time left: " ++ formattedDuration) ;;;
      cfg <- getConfig ;;
      setConfig
        (mkConfig
           (set_PeginAmount (set_PeginClaimScript (web cfg) (ClaimScript addr))
              amount)
           (BitcoinHost cfg) (BitcoinUser cfg) (BitcoinPass cfg)) ;;;
      Save ;;;
      sent <- ask (fun h => env_SendCoins env h (MainChainAddress addr)
                             amount fee sweepall "Liquid pegin")
                (fun r => EvSendCoins (MainChainAddress addr) amount fee
                            sweepall "Liquid pegin" (Psweb.is_inr r)) ;;
      match sent with
      | inl err => ret (Psweb.redirectWithError "/bitcoin?" err)
      | inr txid =>
          cfg <- getConfig ;;
          setConfig
            (mkConfig
               (Psweb.set_PeginFeeRate (Psweb.set_PeginTxId (web cfg) txid)
                  (uint32 fee))
               (BitcoinHost cfg) (BitcoinUser cfg) (BitcoinPass cfg)) ;;;
          Save ;;;
          ret (Psweb.Redirect "/bitcoin" 303)
      end
  end.

Definition peginHandler (r : Request) : M Psweb.Response :=
  if String.eqb (Method r) "POST" then
    match ParseForm r with
    | Some _ => ret (Psweb.HttpError "Error parsing form data" 400)
    | None =>
        match ParseInt (FormValue r "peginAmount") with
        | inl err => ret (Psweb.redirectWithError "/bitcoin?" err)
        | inr amount =>
            match ParseUint (FormValue r "feeRate") with
            | inl err => ret (Psweb.redirectWithError "/bitcoin?" err)
            | inr fee =>
                btcBalance <- ask (env_ConfirmedWalletBalance env)
                                (fun _ => EvConfirmedWalletBalance) ;;
                let sweepall := amount =? btcBalance in
                let tx :=
                  if String.eqb (env_Getenv env "NETWORK") "testnet"
                  then "2c7ec5043fe8ee3cb4ce623212c0e52087d3151c9e882a04073cce1688d6fc1e"
                  else "b61ec844027ce18fd3eb91fa7bed8abaa6809c4d3f6cf4952b8ebaa7cd46583a" in
                probe <- getRawTransaction tx ;;
                match probe with
                | inr _ => startPegin amount fee sweepall
                | inl _ =>
                    cfg <- getConfig ;;
                    setConfig
                      (mkConfig (web cfg) (env_GetBlockIoHost env) "" "") ;;;
                    probe' <- getRawTransaction tx ;;
                    match probe' with
                    | inl _ =>
                        ret (Psweb.redirectWithError "/bitcoin?"
                               (errorsNew "getrawtransaction request failed, check BitcoinHost in Config"))
                    | inr _ => Save ;;; startPegin amount fee sweepall
                    end
                end
            end
        end
    end
  else ret (Psweb.HttpError "Method not allowed" 405).

End Program.

(** The attempts to send coins recorded, newest first. *)
Fixpoint sendAttempts (h : History)
  : list (string * Z * Z * bool * string * bool) :=
  match h with
  | [] => []
  | EvSendCoins addr amount fee sweepall label ok :: h' =>
      (addr, amount, fee, sweepall, label, ok) :: sendAttempts h'
  | _ :: h' => sendAttempts h'
  end.

(** The configurations saved, newest first. *)
Fixpoint saved (h : History) : list Config :=
  match h with
  | [] => []
  | EvSave c :: h' => c :: saved h'
  | _ :: h' => saved h'
  end.

End Pegin.

(** *** [CanRBF] *)

Module Version.
Import Go.

(** How a call of [CanRBF] ends. *)
Inductive Outcome : Type :=
| Returned (answer : bool)
| Panicked.

Section CanRBF.

(** [float64] and what is done with it: the test [LndVerson == 0],
    [strconv.ParseFloat(s, 64)], [a + b / 100] and [v >= 0.18]. *)
Variable float64 : Type.
Variable isZero : float64 -> bool.
Variable ParseFloat : string -> error + float64.
Variable plusHundredths : float64 -> float64 -> float64.
Variable atLeast018 : float64 -> bool.

(** The node: whether a client can be had, and the answer of [GetInfo]
    with the version it reports. *)
Record Node : Type := mkNode {
  GetClient : option error;
  GetInfo : error + string
}.

(** The outcome of a call, the package variable [LndVerson] after it,
    and whether the node was asked for its version. *)
Record Result : Type := mkResult {
  outcome : Outcome;
  LndVerson : float64;
  asked : bool
}.

Definition CanRBF (node : Node) (LndVerson : float64) : Result :=
  if isZero LndVerson then
    match GetClient node with
    | Some _ => mkResult (Returned false) LndVerson false
    | None =>
        match GetInfo node with
        | inl _ => mkResult (Returned false) LndVerson true
        | inr version =>
            let parts := Split version "." in
            match nth_error parts 0 with
            | None => mkResult Panicked LndVerson true
            | Some p0 =>
                match ParseFloat p0 with
                | inl _ => mkResult (Returned false) LndVerson true
                | inr a =>
                    let LndVerson := a in
                    match nth_error parts 1 with
                    | None => mkResult Panicked LndVerson true
                    | Some p1 =>
                        match ParseFloat p1 with
                        | inl _ => mkResult (Returned false) LndVerson true
                        | inr b =>
                            let LndVerson := plusHundredths LndVerson b in
                            mkResult (Returned (atLeast018 LndVerson))
                              LndVerson true
                        end
                    end
                end
            end
        end
    end
  else mkResult (Returned (atLeast018 LndVerson)) LndVerson false.

End CanRBF.

End Version.

(** *** [ListUnspent] *)

Module Wallet.
Import Go.

(** [UTXO], as [ListUnspent] fills it. *)
Record UTXO : Type := mkUTXO {
  Address : string;
  AmountSat : Z;
  Confirmations : Z;
  TxidBytes : list byte;
  TxidStr : string;
  OutputIndex : Z
}.

(** What happens to the connection. *)
Inductive Event : Type :=
| EvDial (ok : bool)
| EvListUnspent (minConfs : Z) (ok : bool)
| EvClose.

Record Node : Type := mkNode {
  lndConnection : option error;
  rpc_ListUnspent : Z -> error + list Lnd.Utxo
}.

Definition toUTXO (i : Lnd.Utxo) : UTXO :=
  mkUTXO (Lnd.utxo_Address i) (Lnd.utxo_AmountSat i)
    (Lnd.utxo_Confirmations i)
    (Lnd.TxidBytes (Lnd.utxo_Outpoint i))
    (Lnd.TxidStr (Lnd.utxo_Outpoint i))
    (Lnd.OutputIndex (Lnd.utxo_Outpoint i)).

(** [ListUnspent(_, list, minConfs)]: the error returned, [*list] after
    the call, and the events, newest first. *)
Definition ListUnspent (node : Node) (list : Datatypes.list UTXO)
    (minConfs : Z)
  : option error * Datatypes.list UTXO * Datatypes.list Event :=
  match lndConnection node with
  | Some err => (Some err, list, [EvDial false])
  | None =>
      match rpc_ListUnspent node minConfs with
      | inl err =>
          (Some err, list, [EvListUnspent minConfs false; EvDial true])
      | inr utxos =>
          let a := fold_left (fun a i => a ++ [toUTXO i]) utxos list in
          (None, a, [EvClose; EvListUnspent minConfs true; EvDial true])
      end
  end.

End Wallet.

(** *** [submitHandler] *)

Module Submit.
Import Go.

(** The calls the handler makes to the swap daemon and to Elements. *)
Inductive Call : Type :=
| LiquidGetAddress
| sendLiquidToAddress (address : string) (amt : Z) (subtractfee : bool)
| AddPeer (nodeId : string)
| RemovePeer (nodeId : string)
| AddSusPeer (nodeId : string)
| RemoveSusPeer (nodeId : string)
| SwapIn (swapAmount channelId : Z) (asset : string) (force : bool)
| SwapOut (swapAmount channelId : Z) (asset : string) (force : bool).

(** The answer to a call: an error, or the one text the handler reads
    from the reply (the address, the transaction id, the swap id). *)
Definition Backend : Type := Call -> error + string.

Section Program.

Variable answer : Backend.

(** A call whose failure goes back to [page] and whose success goes
    to [target]. *)
Definition call (c : Call) (page : string) (target : string -> string)
  : list Call * option Psweb.Response :=
  match answer c with
  | inl err => ([c], Some (Psweb.redirectWithError page err))
  | inr res => ([c], Some (Psweb.Redirect (target res) 303))
  end.

(** The calls made and the response written, if any. *)
Definition submitHandler (r : Pegin.Request)
  : list Call * option Psweb.Response :=
  if String.eqb (Pegin.Method r) "POST" then
    match Pegin.ParseForm r with
    | Some _ => ([], Some (Psweb.HttpError "Error parsing form data" 400))
    | None =>
        let action := Pegin.FormValue r "action" in
        let nodeId := Pegin.FormValue r "nodeId" in
        let quotes := String (ascii_of_nat 34) (String (ascii_of_nat 34) "") in
        let peerPage := ("/peer?id=" ++ nodeId ++ "&")%string in
        if String.eqb action "newAddress" then
          call LiquidGetAddress "/liquid?"
            (fun address => "/liquid?msg=" ++ quotes ++ "&addr=" ++ address)%string
        else if String.eqb action "sendLiquid" then
          match ParseUint (Pegin.FormValue r "sendAmount") with
          | inl err => ([], Some (Psweb.redirectWithError "/liquid?" err))
          | inr amt =>
              call (sendLiquidToAddress (Pegin.FormValue r "sendAddress") amt
                      (String.eqb (Pegin.FormValue r "subtractfee") "on"))
                "/liquid?"
                (fun txid => "/liquid?msg=" ++ quotes ++ "&txid=" ++ txid)%string
          end
        else if String.eqb action "addPeer" then
          call (AddPeer nodeId) peerPage
            (fun _ => "/peer?id=" ++ nodeId)%string
        else if String.eqb action "removePeer" then
          call (RemovePeer nodeId) peerPage
            (fun _ => "/peer?id=" ++ nodeId)%string
        else if String.eqb action "suspectPeer" then
          call (AddSusPeer nodeId) peerPage
            (fun _ => "/peer?id=" ++ nodeId)%string
        else if String.eqb action "unsuspectPeer" then
          call (RemoveSusPeer nodeId) peerPage
            (fun _ => "/peer?id=" ++ nodeId)%string
        else if String.eqb action "doSwap" then
          match ParseUint (Pegin.FormValue r "swapAmount") with
          | inl err => ([], Some (Psweb.redirectWithError peerPage err))
          | inr swapAmount =>
              match ParseUint (Pegin.FormValue r "channelId") with
              | inl err => ([], Some (Psweb.redirectWithError peerPage err))
              | inr channelId =>
                  let direction := Pegin.FormValue r "direction" in
                  let asset := Pegin.FormValue r "asset" in
                  let force := String.eqb (Pegin.FormValue r "force") "on" in
                  if String.eqb direction "swapIn" then
                    call (SwapIn swapAmount channelId asset force) peerPage
                      (fun id => "/swap?id=" ++ id)%string
                  else if String.eqb direction "swapOut" then
                    call (SwapOut swapAmount channelId asset force) peerPage
                      (fun id => "/swap?id=" ++ id)%string
                  else ([], None)
              end
          end
        else ([], Some (Psweb.Redirect "/" 303))
    end
  else ([], Some (Psweb.HttpError "Method not allowed" 405)).

End Program.

(** What the form has to say for a call to be the one it asks for. *)
Definition asksFor (r : Pegin.Request) (c : Call) : Prop :=
  let f := Pegin.FormValue r in
  match c with
  | LiquidGetAddress => f "action" = "newAddress"
  | sendLiquidToAddress address amt subtractfee =>
      f "action" = "sendLiquid" /\ address = f "sendAddress"
      /\ ParseUint (f "sendAmount") = inr amt
      /\ subtractfee = String.eqb (f "subtractfee") "on"
  | AddPeer nodeId => f "action" = "addPeer" /\ nodeId = f "nodeId"
  | RemovePeer nodeId => f "action" = "removePeer" /\ nodeId = f "nodeId"
  | AddSusPeer nodeId => f "action" = "suspectPeer" /\ nodeId = f "nodeId"
  | RemoveSusPeer nodeId =>
      f "action" = "unsuspectPeer" /\ nodeId = f "nodeId"
  | SwapIn swapAmount channelId asset force =>
      f "action" = "doSwap" /\ f "direction" = "swapIn"
      /\ ParseUint (f "swapAmount") = inr swapAmount
      /\ ParseUint (f "channelId") = inr channelId
      /\ asset = f "asset" /\ force = String.eqb (f "force") "on"
  | SwapOut swapAmount channelId asset force =>
      f "action" = "doSwap" /\ f "direction" = "swapOut"
      /\ ParseUint (f "swapAmount") = inr swapAmount
      /\ ParseUint (f "channelId") = inr channelId
      /\ asset = f "asset" /\ force = String.eqb (f "force") "on"
  end.

End Submit.

(** *** The generated reader of the requested-swaps reply *)

Module Swagger.
Import Go.

(** What [consumer.Consume] does with the body: it fills the payload,
    meets the end of the input, or fails otherwise. *)
Inductive Consumed (A : Type) : Type :=
| Filled (payload : A)
| EOF (payload : A)
| Failed (err : error).
Arguments Filled {A} payload.
Arguments EOF {A} payload.
Arguments Failed {A} err.

Section Reader.

(** The payload of a 200 reply and that of any other reply. *)
Variable Swaps : Type.
Variable RPCStatus : Type.

(** [PeerSwapListRequestedSwapsOK] and [PeerSwapListRequestedSwapsDefault]. *)
Inductive Reply : Type :=
| PeerSwapListRequestedSwapsOK (Payload : Swaps)
| PeerSwapListRequestedSwapsDefault (_statusCode : Z) (Payload : RPCStatus).

Definition IsSuccess (o : Reply) : bool :=
  match o with
  | PeerSwapListRequestedSwapsOK _ => true
  | PeerSwapListRequestedSwapsDefault code _ => Z.quot code 100 =? 2
  end.

Definition IsRedirect (o : Reply) : bool :=
  match o with
  | PeerSwapListRequestedSwapsOK _ => false
  | PeerSwapListRequestedSwapsDefault code _ => Z.quot code 100 =? 3
  end.

Definition IsClientError (o : Reply) : bool :=
  match o with
  | PeerSwapListRequestedSwapsOK _ => false
  | PeerSwapListRequestedSwapsDefault code _ => Z.quot code 100 =? 4
  end.

Definition IsServerError (o : Reply) : bool :=
  match o with
  | PeerSwapListRequestedSwapsOK _ => false
  | PeerSwapListRequestedSwapsDefault code _ => Z.quot code 100 =? 5
  end.

Definition Code (o : Reply) : Z :=
  match o with
  | PeerSwapListRequestedSwapsOK _ => 200
  | PeerSwapListRequestedSwapsDefault code _ => code
  end.

(** The two results of [ReadResponse]: the value, and the error.  A
    reply can come back in either place. *)
Inductive Read : Type :=
| Value (result : Reply)
| ErrorReply (result : Reply)
| ErrorOther (err : error).

(** The server response: its code and what consuming its body as
    either payload does. *)
Record ClientResponse : Type := mkClientResponse {
  response_Code : Z;
  consumeSwaps : Consumed Swaps;
  consumeStatus : Consumed RPCStatus
}.

Definition ReadResponse (response : ClientResponse) : Read :=
  if response_Code response =? 200 then
    match consumeSwaps response with
    | Failed err => ErrorOther err
    | Filled p | EOF p => Value (PeerSwapListRequestedSwapsOK p)
    end
  else
    match consumeStatus response with
    | Failed err => ErrorOther err
    | Filled p | EOF p =>
        let result :=
          PeerSwapListRequestedSwapsDefault (response_Code response) p in
        if Z.quot (response_Code response) 100 =? 2 then Value result
        else ErrorReply result
    end.

End Reader.

End Swagger.

(** *** The Bitcoin page: [bitcoinHandler] *)

Module BitcoinPage.
Import Go GoMore.

Section Page.

(** [ln.UTXO]; the handler only passes the list on. *)
Variable UTXO : Type.

(** The data handed to the template. *)
Record Page : Type := mkPage {
  Message : string;
  ColorScheme : string;
  BitcoinBalance : Z;
  Outputs : list UTXO;
  PeginTxId : string;
  PeginAmount : Z;
  BitcoinApi : string;
  Confirmations : Z;
  Progress : Z;
  Duration : string;
  SuggestedFeeRate : Z;
  MinBumpFeeRate : Z
}.

(** What the handler reads: the configuration, the [err] parameter of the
    URL (its first value, when present), the wallet and the mempool, and
    the two library computations [uint32(float32(fee) * 1.5)] and
    [time.Time{}.Add(d).Format("15h 04m")]. *)
Record World : Type := mkWorld {
  cfg : Psweb.Config;
  cfg_ColorScheme : string;
  cfg_BitcoinApi : string;
  query_err : option string;
  ListUnspent : list UTXO;
  ConfirmedWalletBalance : Z;
  GetFee : Z;
  GetTxConfirmations : string -> Z;
  oneAndAHalf : Z -> Z;
  Format : Z -> string
}.

Definition bitcoinHandler (w : World) : Page :=
  let message :=
    match query_err w with
    | Some key => if (0 <? String.length key)%nat then key else ""
    | None => ""
    end in
  let utxos := ListUnspent w in
  let btcBalance := ConfirmedWalletBalance w in
  let fee := GetFee w in
  let pending := negb (String.eqb (Psweb.PeginTxId (cfg w)) "") in
  let confs :=
    if pending then GetTxConfirmations w (Psweb.PeginTxId (cfg w)) else 0 in
  let fee :=
    if pending && (confs =? 0) then
      let fee := oneAndAHalf w fee in
      if fee <? uint32 (Psweb.PeginFeeRate (cfg w) + 1)
      then uint32 (Psweb.PeginFeeRate (cfg w) + 1) else fee
    else fee in
  let duration := int64 (int32 (10 * int32 (102 - confs)) * 60000000000) in
  mkPage message (cfg_ColorScheme w) (uint64 btcBalance) utxos
    (Psweb.PeginTxId (cfg w)) (uint64 (Psweb.PeginAmount (cfg w)))
    (cfg_BitcoinApi w) confs
    (int32 (Z.quot (int32 (confs * 100)) 102))
    (Format w duration) fee
    (uint32 (Psweb.PeginFeeRate (cfg w) + 1)).

End Page.

End BitcoinPage.

(** *** Saving the configuration: [saveConfigHandler] *)

Module SaveConfig.
Import Go.

(** [strconv.ParseBool]. *)
Definition ParseBool (s : string) : error + bool :=
  if String.eqb s "1" || String.eqb s "t" || String.eqb s "T"
     || String.eqb s "TRUE" || String.eqb s "true" || String.eqb s "True"
  then inr true
  else if String.eqb s "0" || String.eqb s "f" || String.eqb s "F"
          || String.eqb s "FALSE" || String.eqb s "false"
          || String.eqb s "False"
  then inr false
  else inl (NumError "ParseBool" s true).

(** [strconv.ParseUint(s, 10, 16)]. *)
Definition ParseUint16 (s : string) : error + Z :=
  match s with
  | EmptyString => inl (NumError "ParseUint" s true)
  | _ =>
      match parse_digits s 0 with
      | None => inl (NumError "ParseUint" s true)
      | Some n =>
          if n <? 2 ^ 16 then inr n else inl (NumError "ParseUint" s false)
      end
  end.

(** The fields of [config.Config] the handler reads or writes. *)
Record Config : Type := mkConfig {
  ColorScheme : string;
  NodeApi : string;
  BitcoinApi : string;
  LiquidApi : string;
  TelegramToken : string;
  LocalMempool : string;
  BitcoinSwaps : bool;
  ElementsUser : string;
  ElementsPass : string;
  ElementsDir : string;
  ElementsDirMapped : string;
  BitcoinHost : string;
  BitcoinUser : string;
  BitcoinPass : string;
  ProxyURL : string;
  MaxHistory : Z;
  RpcHost : string;
  AllowSwapRequests : bool
}.

(** What the handler does besides answering, oldest first. *)
Inductive Event : Type :=
| EvTelegramStart
| EvAllowSwapRequests (host : string) (allow : bool) (ok : bool)
| EvSave (cfg : Config) (ok : bool)
| EvSavePS
| EvStop.

(** The swap daemon and the disk. *)
Record Env : Type := mkEnv {
  env_AllowSwapRequests : string -> bool -> option error;
  env_Save : Config -> option error
}.

(** The response written, the configuration in memory afterwards, and
    the events in the order they happened. *)
Record Outcome : Type := mkOutcome {
  response : Psweb.Response;
  config : Config;
  events : list Event
}.

Definition saveConfigHandler (env : Env) (r : Pegin.Request) (cfg : Config)
  : Outcome :=
  let f := Pegin.FormValue r in
  if String.eqb (Pegin.Method r) "POST" then
    match Pegin.ParseForm r with
    | Some _ =>
        mkOutcome (Psweb.HttpError "Error parsing form data" 400) cfg []
    | None =>
        match ParseBool (f "allowSwapRequests") with
        | inl err =>
            mkOutcome (Psweb.redirectWithError "/config?" err) cfg []
        | inr allowSwapRequests =>
            let tokenChanged :=
              negb (String.eqb (TelegramToken cfg) (f "telegramToken")) in
            let ev1 := if tokenChanged then [EvTelegramStart] else [] in
            let bitcoinApi :=
              if negb (String.eqb (LocalMempool cfg) (f "localMempool"))
                 && negb (String.eqb (f "localMempool") "")
              then f "localMempool" else f "bitcoinApi" in
            let bitcoinSwaps :=
              match ParseBool (f "bitcoinSwaps") with
              | inl _ => false
              | inr b => b
              end in
            let mustRestart :=
              negb (Bool.eqb (BitcoinSwaps cfg) bitcoinSwaps)
              || negb (String.eqb (ElementsUser cfg) (f "elementsUser"))
              || negb (String.eqb (ElementsPass cfg) (f "elementsPass")) in
            let cfg :=
              mkConfig (f "colorScheme") (f "nodeApi") bitcoinApi
                (f "liquidApi") (f "telegramToken") (f "localMempool")
                bitcoinSwaps (f "elementsUser") (f "elementsPass")
                (f "elementsDir") (f "elementsDirMapped") (f "bitcoinHost")
                (f "bitcoinUser") (f "bitcoinPass") (f "proxyURL")
                (MaxHistory cfg) (RpcHost cfg) (AllowSwapRequests cfg) in
            match ParseUint16 (f "maxHistory") with
            | inl err =>
                mkOutcome (Psweb.redirectWithError "/config?" err) cfg ev1
            | inr mh =>
                let host := f "rpcHost" in
                let err := env_AllowSwapRequests env host allowSwapRequests in
                let ev2 :=
                  [EvAllowSwapRequests host allowSwapRequests
                     (Psweb.is_None err)] in
                let cfg :=
                  mkConfig (ColorScheme cfg) (NodeApi cfg) (BitcoinApi cfg)
                    (LiquidApi cfg) (TelegramToken cfg) (LocalMempool cfg)
                    (BitcoinSwaps cfg) (ElementsUser cfg) (ElementsPass cfg)
                    (ElementsDir cfg) (ElementsDirMapped cfg)
                    (BitcoinHost cfg) (BitcoinUser cfg) (BitcoinPass cfg)
                    (ProxyURL cfg) mh
                    (match err with None => host | Some _ => RpcHost cfg end)
                    (match err with
                     | None => allowSwapRequests
                     | Some _ => AllowSwapRequests cfg
                     end) in
                match env_Save env cfg with
                | Some err2 =>
                    mkOutcome (Psweb.redirectWithError "/config?" err2) cfg
                      (ev1 ++ ev2 ++ [EvSave cfg false])
                | None =>
                    let evs := ev1 ++ ev2 ++ [EvSave cfg true] in
                    if mustRestart then
                      (* the redirect is written from a goroutine of its
                         own while the daemon is stopped *)
                      mkOutcome (Psweb.Redirect "/loading" 303) cfg
                        (evs ++ [EvSavePS; EvStop])
                    else
                      match err with
                      | Some e =>
                          mkOutcome (Psweb.redirectWithError "/config?" e)
                            cfg evs
                      | None =>
                          mkOutcome (Psweb.Redirect "/" 303) cfg evs
                      end
                end
            end
        end
    end
  else mkOutcome (Psweb.HttpError "Method not allowed" 405) cfg [].

(** Some configuration was written to disk. *)
Definition wasSaved (evs : list Event) : bool :=
  existsb (fun ev => match ev with EvSave _ true => true | _ => false end) evs.

End SaveConfig.

(** ** Further concrete backends and inputs *)

Module MoreExamples.
Import Go Lnd Examples.

(** A backend that accepts everything except signing. *)
Definition noSign : Backend libs0 :=
  mkBackend libs0
    (rpc_Connect okBackend) (rpc_ListUnspent okBackend)
    (rpc_LeaseOutput okBackend) (rpc_ReleaseOutput okBackend)
    (rpc_FundPsbt okBackend) (rpc_GetFeeFromPsbt okBackend)
    (fun _ _ => inl (rpcError "cannot sign"))
    (rpc_PublishTransaction okBackend)
    (rpc_GetTransactions okBackend) (rpc_RemoveTransaction okBackend)
    (rpc_BumpFee okBackend) (rpc_CanRBF okBackend).

(** The toy routines again, with a [Deserialize] that rejects every raw
    transaction. *)
Definition libsNoParse : Libs :=
  mkLibs Z (fun fee => fee)
    string
    (fun address _ =>
       if String.eqb address "" then inl (libError "decode failed")
       else inr address)
    (fun a => inr (list_byte_of_string a))
    MsgTx (fun tx => inr tx)
    (fun p => flat_map PkScript (TxOut_ p))
    (fun _ => inl (libError "unreadable transaction"))
    (fun tx => EncodeToString (rev (flat_map PkScript (TxOut_ tx)))).

(** A backend over them that accepts everything. *)
Definition okNoParse : Backend libsNoParse :=
  mkBackend libsNoParse
    (fun _ => None)
    (fun _ _ => inr [])
    (fun _ _ _ _ => None)
    (fun _ _ _ => None)
    (fun _ _ => inr [x01])
    (fun _ _ => inr 100)
    (fun _ psbt => inr (x02 :: psbt))
    (fun _ _ _ => inr "")
    (fun _ => inr [])
    (fun _ _ => inr "Successfully removed transaction")
    (fun _ _ _ => None)
    (fun _ => false).

(** A day in seconds, and the present as Unix time. *)
Definition day : Z := 86400.

Definition now : Z := 1700000000.

(** Forwarding events of channel 7: one out 20 days ago, one in a day
    ago, one out a day ago, and an event of other channels. *)
Definition events7 : list Forwarding.ForwardingEvent :=
  [ Forwarding.mkForwardingEvent 3 7 1010 1000 10000
      ((now - 20 * day) * 1000000000);
    Forwarding.mkForwardingEvent 7 4 2020 2000 20500
      ((now - day) * 1000000000);
    Forwarding.mkForwardingEvent 5 7 505 500 5000
      ((now - day) * 1000000000);
    Forwarding.mkForwardingEvent 1 2 99 98 1000
      ((now - day) * 1000000000) ].

(** A log of twelve bytes, and the request for what follows byte 5. *)
Definition logBytes : list byte := list_byte_of_string "hello, world".

Definition logWorld (content : list byte) (pos : string) : LogApi.World :=
  LogApi.mkWorld
    (fun k => if String.eqb k "pos" then Some pos else None)
    "/data"
    (fun dir name => (dir ++ "/" ++ name)%string)
    (fun _ => Some (LogApi.mkFile content false false false)).

(** A peg-in of 250,000 sats at 7 sat/vbyte is requested while the
    peg-in of [Examples.webConfig] is still pending. *)
Definition peginRequest : Pegin.Request :=
  Pegin.mkRequest "POST" None
    (fun k =>
       if String.eqb k "peginAmount" then "250000"
       else if String.eqb k "feeRate" then "7" else "").

Definition peginState : Pegin.State :=
  Pegin.mkState (Pegin.mkConfig webConfig "local:8332" "user" "secret") [].

(** Collaborators for which only the public host answers the probe and
    the wallet refuses to send. *)
Definition peginEnv : Pegin.Env :=
  Pegin.mkEnv
    (fun _ => 1000000)
    (fun _ host _ _ _ =>
       if String.eqb host "public:443" then inr "rawtx"
       else inl (rpcError "connection refused"))
    (fun _ => inr (Pegin.mkPeginAddress "bc1qmainchain" "newscript"))
    (fun _ _ _ _ _ _ => inl (rpcError "insufficient funds"))
    (fun _ => "")
    "public:443"
    (fun _ => "250,000").

(** A toy [float64]: hundredths as integers. *)
Definition toyParseFloat (s : string) : error + Z :=
  match s with
  | EmptyString => inl (NumError "ParseFloat" s true)
  | _ =>
      match parse_digits s 0 with
      | Some n => inr (100 * n)
      | None => inl (NumError "ParseFloat" s true)
      end
  end.

Definition toyCanRBF : Version.Node -> Z -> Version.Result Z :=
  Version.CanRBF Z (Z.eqb 0) toyParseFloat (fun a b => a + b / 100)
    (Z.leb 18).

(** A configuration on record, and a form that changes the Elements
    password and the Telegram token but gives a history length that is
    not a number. *)
Definition savedConfig : SaveConfig.Config :=
  SaveConfig.mkConfig "dark" "nodeapi" "btcapi" "liquidapi" "token1" "" true
    "elements" "oldpass" "/elements" "/mapped" "host" "user" "pass" "" 20
    "localhost:42069" true.

Definition saveRequest : Pegin.Request :=
  Pegin.mkRequest "POST" None
    (fun k =>
       if String.eqb k "allowSwapRequests" then "true"
       else if String.eqb k "bitcoinSwaps" then "true"
       else if String.eqb k "elementsUser" then "elements"
       else if String.eqb k "elementsPass" then "newpass"
       else if String.eqb k "telegramToken" then "token2"
       else if String.eqb k "maxHistory" then "many"
       else if String.eqb k "rpcHost" then "localhost:42069"
       else "").

Definition saveEnv : SaveConfig.Env :=
  SaveConfig.mkEnv (fun _ _ => None) (fun _ => None).

End MoreExamples.

(** * Properties *)

Import Go Lnd.

(** ** Reasoning about computations *)

Section Computations.

Context {A B : Type}.

Lemma bind_Ok_inv (m : M A) (f : A -> M B) tr b tr' :
  bind m f tr = (Ok b, tr') ->
  exists a tr1, m tr = (Ok a, tr1) /\ f a tr1 = (Ok b, tr').
Proof.
  unfold bind. destruct (m tr) as [[a| | |] tr1]; try discriminate.
  intros H. now exists a, tr1.
Qed.

Lemma emits_ret P (a : A) : emits P (ret a).
Proof. intros tr r tr' [= <- <-]. now exists []. Qed.

Lemma emits_fail P e : emits P (@fail A e).
Proof. intros tr r tr' [= <- <-]. now exists []. Qed.

Lemma emits_panic P : emits P (@panic A).
Proof. intros tr r tr' [= <- <-]. now exists []. Qed.

Lemma emits_diverge P : emits P (@diverge A).
Proof. intros tr r tr' [= <- <-]. now exists []. Qed.

Lemma emits_lift P (x : Res A) : emits P (lift x).
Proof. intros tr r tr' [= <- <-]. now exists []. Qed.

Lemma emits_bind P (m : M A) (f : A -> M B) :
  emits P m -> (forall a, emits P (f a)) -> emits P (bind m f).
Proof.
  intros Hm Hf tr r tr' H. unfold bind in H.
  destruct (m tr) as [x tr1] eqn:E.
  destruct (Hm _ _ _ E) as (evs1 & -> & H1).
  destruct x as [a| | |].
  - destruct (Hf a _ _ _ H) as (evs2 & -> & H2).
    exists (evs2 ++ evs1). rewrite app_assoc. split; [reflexivity|].
    apply Forall_app; now split.
  - injection H as <- <-. now exists evs1.
  - injection H as <- <-. now exists evs1.
  - injection H as <- <-. now exists evs1.
Qed.

Lemma emits_catch P (m : M A) : emits P m -> emits P (catch m).
Proof.
  intros Hm tr r tr' H. unfold catch in H.
  destruct (m tr) as [x tr1] eqn:E.
  destruct (Hm _ _ _ E) as (evs1 & -> & H1).
  exists evs1. split; [|assumption].
  destruct x; now injection H as _ <-.
Qed.

End Computations.

Lemma emits_ignore {A} P (m : M A) : emits P m -> emits P (ignore m).
Proof.
  intros Hm. unfold ignore. apply emits_bind.
  - now apply emits_catch.
  - intros _. apply emits_ret.
Qed.

Lemma ignore_run {A} (m : M A) tr :
  ignore m tr =
  match m tr with
  | (Ok _, t) => (Ok tt, t)
  | (Fail _, t) => (Ok tt, t)
  | (Panic, t) => (Panic, t)
  | (Diverge, t) => (Diverge, t)
  end.
Proof.
  unfold ignore, bind, catch, ret. now destruct (m tr) as [[| | |] t].
Qed.

(** One remote call appends exactly its own event. *)
Lemma emits_call {A} (P : Event -> Prop) (m : M A) :
  (forall tr, exists a ev, m tr = (Ok a, ev :: tr) /\ P ev) -> emits P m.
Proof.
  intros Hm tr r tr' H. destruct (Hm tr) as (a & ev & E & HP).
  rewrite E in H. injection H as _ <-.
  exists [ev]. split; [reflexivity|]. now constructor.
Qed.

(** Events that take no lock can only shrink the lock table. *)
Lemma holder_nonlocking evs tr k id :
  Forall (fun ev => locking ev = false) evs ->
  holder (evs ++ tr) k = Some id -> holder tr k = Some id.
Proof.
  induction 1 as [|ev evs Hev _ IH]; [trivial|].
  cbn [app holder]. unfold locking in Hev.
  destruct (ev_ok ev); [|exact IH]. cbn in Hev.
  destruct (ev_call ev) as [| | | id' op |req| | | | | |]; try exact IH;
    try discriminate.
  - destruct (key_eqb (key_of op) k); [|exact IH].
    destruct (holder (evs ++ tr) k) as [id''|]; [|discriminate].
    destruct (bytes_eqb id' id''); [discriminate|exact IH].
  - destruct (req_Template req); [discriminate|exact IH].
Qed.



(** ** [releaseOutputs] *)



Section ReleaseOutputs.

Variable L : Libs.
Variable be : Backend L.

Lemma releaseOutputs_cons (i : string) rest id tr :
  releaseOutputs L be (i :: rest) id tr =
  match nth_error (Split i ":") 1 with
  | None => (Panic, tr)
  | Some p1 =>
      match Atoi p1 with
      | inl _ => (Ok tt, tr)
      | inr index =>
          let op := mkOutPoint [] (hd "" (Split i ":")) (uint32 index) in
          match rpc_ReleaseOutput be tr id op with
          | Some err =>
              (Fail err, mkEvent (CallReleaseOutput id op) false :: tr)
          | None =>
              releaseOutputs L be rest id
                (mkEvent (CallReleaseOutput id op) true :: tr)
          end
      end
  end.
Proof.
  cbn [releaseOutputs].
  destruct (nth_error (Split i ":") 1) as [p1|]; [|reflexivity].
  destruct (Atoi p1) as [e|index]; [reflexivity|].
  unfold bind, ReleaseOutput. cbn.
  destruct (rpc_ReleaseOutput be tr id _); reflexivity.
Qed.

Lemma releaseOutputs_wf_cons (i : string) op rest id tr :
  outpointOf i = Some op ->
  releaseOutputs L be (i :: rest) id tr =
  match rpc_ReleaseOutput be tr id op with
  | Some err => (Fail err, mkEvent (CallReleaseOutput id op) false :: tr)
  | None =>
      releaseOutputs L be rest id
        (mkEvent (CallReleaseOutput id op) true :: tr)
  end.
Proof.
  unfold outpointOf. intros H. rewrite releaseOutputs_cons.
  destruct (nth_error (Split i ":") 1) as [p1|]; [|discriminate].
  destruct (Atoi p1) as [e|index]; [discriminate|].
  injection H as <-. reflexivity.
Qed.

(** Running over a well-formed prefix that the backend accepts, then over
    the rest, is running over the whole list. *)
Lemma releaseOutputs_app pre rest id :
  Forall (fun i => outpointOf i <> None) pre ->
  forall tr tr1,
    releaseOutputs L be pre id tr = (Ok tt, tr1) ->
    releaseOutputs L be (pre ++ rest) id tr = releaseOutputs L be rest id tr1.
Proof.
  induction 1 as [|i pre Hi Hpre IH]; intros tr tr1 Hrun.
  - cbn in Hrun. injection Hrun as <-. reflexivity.
  - destruct (outpointOf i) as [op|] eqn:Hop; [|congruence].
    cbn [app]. rewrite (releaseOutputs_wf_cons i op pre id tr Hop) in Hrun.
    rewrite (releaseOutputs_wf_cons i op (pre ++ rest) id tr Hop).
    destruct (rpc_ReleaseOutput be tr id op); [discriminate|].
    now apply IH.
Qed.

(** A run of [releaseOutputs] leaves the lock of every outpoint that no
    entry of the list names as it was. *)
Lemma releaseOutputs_holder_other l id k :
  (forall i op, In i l -> outpointOf i = Some op -> key_of op <> k) ->
  forall tr r tr',
    releaseOutputs L be l id tr = (r, tr') -> holder tr' k = holder tr k.
Proof.
  induction l as [|i l IH]; intros Hk tr r tr' Hrun.
  - cbn in Hrun. now injection Hrun as _ <-.
  - rewrite releaseOutputs_cons in Hrun.
    pose proof (Hk i) as Hi. unfold outpointOf in Hi.
    destruct (nth_error (Split i ":") 1) as [p1|];
      [|now injection Hrun as _ <-].
    destruct (Atoi p1) as [e|index]; [now injection Hrun as _ <-|].
    cbn zeta in Hrun.
    specialize (Hi _ (or_introl eq_refl) eq_refl).
    destruct (rpc_ReleaseOutput be tr id _).
    + injection Hrun as _ <-. reflexivity.
    + apply IH in Hrun; [|intros; eapply Hk; [right|]; eassumption].
      rewrite Hrun. cbn.
      destruct (key_eqb _ k) eqn:E; [|reflexivity].
      exfalso. apply Hi. unfold key_eqb in E.
      apply andb_true_iff in E as [E1 E2].
      apply String.eqb_eq in E1. apply Z.eqb_eq in E2.
      destruct k; cbn in *. unfold key_of. cbn. congruence.
Qed.

(** C10.  Let the entries before some entry [x] be well formed and
    released without error.  If the index of [x] is not an integer, the
    function returns nil having issued no request for [x] or for any
    later entry.  If instead [x] is well formed and the backend rejects
    its release, that error is returned at once, again with no request
    for any later entry.  Either way the lock table is the one the prefix
    left, and an outpoint that no prefix entry names is locked as it was
    before the call. *)
Theorem releaseOutputs_stops_at_first_failure
    (pre post : list string) (x : string) (id : list byte) (tr tr1 : Trace) :
  Forall (fun i => outpointOf i <> None) pre ->
  releaseOutputs L be pre id tr = (Ok tt, tr1) ->
  (badIndex x ->
     releaseOutputs L be (pre ++ x :: post) id tr = (Ok tt, tr1))
  /\ (forall op err,
        outpointOf x = Some op ->
        rpc_ReleaseOutput be tr1 id op = Some err ->
        releaseOutputs L be (pre ++ x :: post) id tr =
          (Fail err, mkEvent (CallReleaseOutput id op) false :: tr1)
        /\ forall k,
             holder (mkEvent (CallReleaseOutput id op) false :: tr1) k =
             holder tr1 k)
  /\ (forall k,
        (forall i op, In i pre -> outpointOf i = Some op -> key_of op <> k) ->
        holder tr1 k = holder tr k).
Proof.
  intros Hpre Hrun. repeat split.
  - intros (p1 & e & Hp & Ha).
    rewrite (releaseOutputs_app _ _ _ Hpre _ _ Hrun), releaseOutputs_cons.
    now rewrite Hp, Ha.
  - rewrite (releaseOutputs_app _ _ _ Hpre _ _ Hrun).
    rewrite (releaseOutputs_wf_cons _ _ _ _ _ H). now rewrite H0.
  - intros k Hk. eapply releaseOutputs_holder_other; eassumption.
Qed.

End ReleaseOutputs.

Lemma releaseOutputs_stops_at_first_failure_witness :
  releaseOutputs Examples.libs0 Examples.noRelease1
    (["aa:0"] ++ "bb:x" :: ["cc:2"]) internalLockId [] =
    (Ok tt,
     [mkEvent
        (CallReleaseOutput internalLockId (mkOutPoint [] "aa" 0)) true])
  /\ releaseOutputs Examples.libs0 Examples.noRelease1
       (["aa:0"] ++ "bb:1" :: ["cc:2"]) internalLockId [] =
       (Fail (rpcError "release rejected"),
        [mkEvent
           (CallReleaseOutput internalLockId (mkOutPoint [] "bb" 1))
           false;
         mkEvent
           (CallReleaseOutput internalLockId (mkOutPoint [] "aa" 0))
           true]).
Proof.
  assert (Hpre : Forall (fun i => outpointOf i <> None) ["aa:0"]).
  { constructor; [discriminate|constructor]. }
  split.
  - refine (proj1 (releaseOutputs_stops_at_first_failure
                     Examples.libs0 Examples.noRelease1 ["aa:0"] ["cc:2"]
                     "bb:x" internalLockId [] _ Hpre eq_refl) _).
    exists "x", (NumError "Atoi" "x" true). split; reflexivity.
  - refine (proj1 (proj1 (proj2 (releaseOutputs_stops_at_first_failure
                     Examples.libs0 Examples.noRelease1 ["aa:0"] ["cc:2"]
                     "bb:1" internalLockId [] _ Hpre eq_refl))
                     _ (rpcError "release rejected") eq_refl eq_refl)).
Defined.

(** ** [GetTxConfirmations] *)

Section Confirmations.

Variable L : Libs.
Variable be : Backend L.

Lemma find_first {X} (p : X -> bool) pre x post :
  (forall y, In y pre -> p y = false) -> p x = true ->
  find p (pre ++ x :: post) = Some x.
Proof.
  intros Hpre Hx. induction pre as [|y pre IH]; cbn.
  - now rewrite Hx.
  - rewrite (Hpre y (or_introl eq_refl)). apply IH.
    intros z Hz. apply Hpre. now right.
Qed.

Lemma find_absent {X} (p : X -> bool) l :
  (forall y, In y l -> p y = false) -> find p l = None.
Proof.
  intros H. induction l as [|y l IH]; cbn; [reflexivity|].
  rewrite (H y (or_introl eq_refl)). apply IH. intros z Hz. apply H. now right.
Qed.

Lemma find_split {X} (p : X -> bool) l x :
  find p l = Some x ->
  exists pre post, l = pre ++ x :: post
    /\ (forall y, In y pre -> p y = false) /\ p x = true.
Proof.
  induction l as [|y l IH]; [discriminate|]. cbn.
  destruct (p y) eqn:Ey.
  - intros [= ->]. exists [], l. repeat split; [intros ? []|exact Ey].
  - intros H. destruct (IH H) as (pre & post & -> & Hpre & Hx).
    exists (y :: pre), post. repeat split; [|exact Hx].
    intros z [<-|Hz]; [exact Ey|now apply Hpre].
Qed.

(** C7.  When the backend's transaction list holds no transaction with the
    given id, the answer is the confirmation value -1, which is not 0, and
    a false flag.  When it holds one, the answer is the confirmation count
    of the first such transaction, with a flag that is true exactly when
    that transaction has more than one output. *)
Theorem GetTxConfirmations_sentinel_or_record (txid : string) (tr : Trace) :
  ((forall txs, rpc_GetTransactions be tr = inr txs ->
      forall tx, In tx txs -> TxHash tx <> txid) ->
   fst (GetTxConfirmations L be txid tr) = Ok (-1, false) /\ -1 <> 0)
  /\ (forall pre tx post,
        rpc_GetTransactions be tr = inr (pre ++ tx :: post) ->
        (forall t, In t pre -> TxHash t <> txid) ->
        TxHash tx = txid ->
        exists bumpable,
          fst (GetTxConfirmations L be txid tr)
            = Ok (NumConfirmations tx, bumpable)
          /\ (bumpable = true <-> (1 < List.length (OutputDetails tx))%nat)).
Proof.
  split.
  - intros Hno. split; [|discriminate].
    unfold GetTxConfirmations, getTransaction, GetTransactions, catch, bind.
    cbn. destruct (rpc_GetTransactions be tr) as [e|txs] eqn:E; [reflexivity|].
    rewrite find_absent; [reflexivity|].
    intros y Hy. apply String.eqb_neq. now apply (Hno txs).
  - intros pre tx post E Hpre Htx.
    exists (1 <? List.length (OutputDetails tx))%nat. split.
    + unfold GetTxConfirmations, getTransaction, GetTransactions, catch, bind.
      cbn. rewrite E.
      rewrite (find_first _ pre tx post); [reflexivity| |].
      * intros y Hy. apply String.eqb_neq. now apply Hpre.
      * now apply String.eqb_eq.
    + apply Nat.ltb_lt.
Qed.

End Confirmations.

Lemma GetTxConfirmations_sentinel_or_record_witness :
  fst (GetTxConfirmations Examples.libs0 Examples.okBackend "unknown" [])
    = Ok (-1, false).
Proof.
  refine (proj1 (proj1 (GetTxConfirmations_sentinel_or_record
                          Examples.libs0 Examples.okBackend "unknown" []) _)).
  intros txs [= <-] tx [].
Defined.

(** ** [SendCoinsWithUtxos]: what is broadcast is what is reported *)

Section Broadcast.

Variable L : Libs.
Variable be : Backend L.
Variable cfg : Config.

Let quiet (ev : Event) : Prop := isPublish ev = false.

Ltac emits_step :=
  match goal with
  | |- emits _ (bind _ _) => apply emits_bind; [|intros ?]
  | |- emits _ (ret _) => apply emits_ret
  | |- emits _ (fail _) => apply emits_fail
  | |- emits _ panic => apply emits_panic
  | |- emits _ diverge => apply emits_diverge
  | |- emits _ (lift _) => apply emits_lift
  | |- emits _ (ignore _) => apply emits_ignore
  | |- emits _ (catch _) => apply emits_catch
  | |- emits _ (match ?x with _ => _ end) => destruct x
  | |- emits _ (if ?b then _ else _) => destruct b
  | |- emits _ _ =>
      apply emits_call; intros ?; eexists _, _; split; [reflexivity|reflexivity]
  end.

Lemma releaseOutputs_quiet utxos lockId :
  emits quiet (releaseOutputs L be utxos lockId).
Proof.
  induction utxos as [|i rest IH]; cbn [releaseOutputs].
  - apply emits_ret.
  - destruct (nth_error _ 1); [|apply emits_panic].
    destruct (Atoi _); [apply emits_ret|].
    apply emits_bind.
    + emits_step.
    + intros [e|]; [apply emits_fail|exact IH].
Qed.

Lemma fundPsbt_quiet utxos outputs feeRate :
  emits quiet (fundPsbt L be utxos outputs feeRate).
Proof. unfold fundPsbt. repeat emits_step. Qed.

Lemma leaseMatching_quiet utxo strs :
  forall txin, emits quiet (leaseMatching L be utxo strs txin).
Proof.
  induction strs as [|u rest IH]; intros txin; cbn [leaseMatching].
  - apply emits_ret.
  - destruct (nth_error _ 1); [|apply emits_panic].
    destruct (Atoi _); [apply emits_fail|].
    destruct (_ && _); [|apply IH].
    destruct (NewHash _); [apply emits_fail|].
    apply emits_bind; [emits_step|].
    intros [e|]; [apply emits_fail|apply IH].
Qed.

Lemma leaseAll_quiet unspent strs :
  forall txin, emits quiet (leaseAll L be unspent strs txin).
Proof.
  induction unspent as [|utxo more IH]; intros txin; cbn [leaseAll].
  - apply emits_ret.
  - apply emits_bind; [apply leaseMatching_quiet|]. intros txin'. apply IH.
Qed.

Lemma fundPsbtSpendAll_quiet strs address feeRate :
  emits quiet (fundPsbtSpendAll L be cfg strs address feeRate).
Proof.
  unfold fundPsbtSpendAll.
  apply emits_bind; [emits_step|]. intros [e|unspent]; [apply emits_fail|].
  apply emits_bind; [apply leaseAll_quiet|]. intros txin.
  destruct (DecodeAddress _ _ _); [apply emits_fail|].
  destruct (PayToAddrScript _ _); [apply emits_fail|].
  destruct (NewFromUnsignedTx _ _); [apply emits_fail|].
  apply emits_bind; [emits_step|]. intros [e|psbt]; [|apply emits_ret].
  apply emits_bind; [|intros _; apply emits_fail].
  apply emits_ignore, releaseOutputs_quiet.
Qed.

Lemma haircutLoop_quiet fuel utxos addr amount fee feeRate lockId :
  forall haircut v,
    emits quiet
      (haircutLoop L be fuel utxos addr amount fee feeRate lockId haircut v).
Proof.
  induction fuel as [|fuel IH]; intros haircut v; cbn [haircutLoop].
  - apply emits_diverge.
  - destruct (haircut <=? 2000); [|apply emits_ret].
    apply emits_bind; [apply releaseOutputs_quiet|]. intros _.
    apply emits_bind; [apply emits_catch, fundPsbt_quiet|].
    intros [e|psbt]; [apply IH|apply emits_ret].
Qed.

(** A successful run of lines 284-327 made exactly two calls: it had the
    PSBT finalized and it published the bytes it got back. *)
Lemma finalizeAndPublish_Ok utxos lockId psbtBytes sub finalAmount tr res tr' :
  finalizeAndPublish L be utxos lockId psbtBytes sub finalAmount tr
    = (Ok res, tr') ->
  exists rawTx msgTx,
    tr' = mkEvent (CallPublishTransaction rawTx "Liquid Peg-in") true
            :: mkEvent (CallFinalizePsbt psbtBytes) true :: tr
    /\ Deserialize L rawTx = inr msgTx
    /\ TxId res = TxHashString L msgTx
    /\ RawHex res = EncodeToString rawTx.
Proof.
  unfold finalizeAndPublish, bind, FinalizePsbt, PublishTransaction. cbn.
  destruct (rpc_FinalizePsbt be tr psbtBytes) as [e|rawTx] eqn:Efin.
  { cbn. unfold ignore, catch, bind, fail, ret.
    destruct (releaseOutputs _ _ _ _ _) as [[| | |] ?]; discriminate. }
  cbn. destruct (Deserialize L rawTx) as [e|msgTx] eqn:Edes; [discriminate|].
  cbn. destruct (rpc_PublishTransaction be _ rawTx _) as [e|reply] eqn:Epub.
  { cbn. unfold ignore, catch, bind, fail, ret.
    destruct (releaseOutputs _ _ _ _ _) as [[| | |] ?]; discriminate. }
  cbn. intros H. exists rawTx, msgTx.
  destruct sub.
  - destruct (TxOut_ msgTx) as [|out0 outs]; [discriminate|].
    cbn in H. injection H as <- <-. repeat split; (reflexivity || assumption).
  - cbn in H. injection H as <- <-. repeat split; (reflexivity || assumption).
Qed.

(** C1.  Whenever [SendCoinsWithUtxos] succeeds, the call made last is the
    publication of some raw bytes, no other publication was made during the
    run, those bytes deserialize locally to a transaction whose hash is the
    [TxId] returned, and [RawHex] is their hexadecimal encoding.  The
    backend's reply to the publication does not enter the result. *)
Theorem SendCoinsWithUtxos_reports_hash_of_published_bytes
    (fuel : nat) (utxos : list string) (addr : string) (amount feeRate : Z)
    (subtractFeeFromAmount : bool) (tr tr' : Trace) (res : SentResult) :
  SendCoinsWithUtxos L be cfg fuel utxos addr amount feeRate
    subtractFeeFromAmount tr = (Ok res, tr') ->
  exists rawTx msgTx evs,
    tr' = mkEvent (CallPublishTransaction rawTx "Liquid Peg-in") true
            :: evs ++ tr
    /\ Forall (fun ev => isPublish ev = false) evs
    /\ Deserialize L rawTx = inr msgTx
    /\ TxId res = TxHashString L msgTx
    /\ RawHex res = EncodeToString rawTx.
Proof.
  intros Hrun.
  assert (Hfin : exists lockId psbtBytes finalAmount evs0,
             finalizeAndPublish L be utxos lockId psbtBytes
               subtractFeeFromAmount finalAmount (evs0 ++ tr) = (Ok res, tr')
             /\ Forall quiet evs0).
  { unfold SendCoinsWithUtxos in Hrun.
    apply bind_Ok_inv in Hrun as (c & tr1 & Hc & Hrun).
    unfold lndConnection in Hc. injection Hc as <- <-.
    destruct (rpc_Connect be tr); [discriminate|].
    destruct (subtractFeeFromAmount && _)%bool; [discriminate|].
    apply bind_Ok_inv in Hrun as (can & tr2 & Hcan & Hrun).
    assert (tr2 = mkEvent CallConnect (is_None (@None error)) :: tr) as ->.
    { destruct subtractFeeFromAmount; now injection Hcan as _ <-. }
    clear Hcan. destruct can.
    - apply bind_Ok_inv in Hrun as (psbt & tr3 & Hfund & Hrun).
      apply fundPsbtSpendAll_quiet in Hfund as (evs & -> & Hq).
      exists myLockId, psbt, amount, (evs ++ [mkEvent CallConnect true]).
      rewrite <- app_assoc. split; [exact Hrun|].
      apply Forall_app. split; [exact Hq|]. now repeat constructor.
    - apply bind_Ok_inv in Hrun as (psbt & tr3 & Hfund & Hrun).
      apply fundPsbt_quiet in Hfund as (evs & -> & Hq).
      destruct subtractFeeFromAmount.
      + apply bind_Ok_inv in Hrun as (f & tr4 & Hfee & Hrun).
        unfold GetFeeFromPsbt in Hfee. injection Hfee as <- <-.
        destruct (rpc_GetFeeFromPsbt be _ psbt) as [e|fee]; [discriminate|].
        apply bind_Ok_inv in Hrun as (v & tr5 & Hloop & Hrun).
        apply haircutLoop_quiet in Hloop as (evs' & -> & Hq').
        destruct (lv_err v).
        { unfold ignore, catch, bind, fail, ret in Hrun.
          destruct (releaseOutputs _ _ _ _ _) as [[| | |] ?]; discriminate. }
        exists internalLockId, (lv_psbtBytes v), (lv_finalAmount v),
          (evs' ++ mkEvent (CallGetFeeFromPsbt psbt) true
                :: evs ++ [mkEvent CallConnect true]).
        split.
        * rewrite <- app_assoc. cbn. rewrite <- app_assoc. exact Hrun.
        * apply Forall_app. split; [exact Hq'|].
          constructor; [reflexivity|].
          apply Forall_app. split; [exact Hq|]. now repeat constructor.
      + exists internalLockId, psbt, amount,
          (evs ++ [mkEvent CallConnect true]).
        rewrite <- app_assoc. split; [exact Hrun|].
        apply Forall_app. split; [exact Hq|]. now repeat constructor. }
  destruct Hfin as (lockId & psbtBytes & finalAmount & evs0 & Hfin & Hq).
  apply finalizeAndPublish_Ok in Hfin as (rawTx & msgTx & -> & Hd & Hid & Hhex).
  exists rawTx, msgTx, (mkEvent (CallFinalizePsbt psbtBytes) true :: evs0).
  repeat split; try assumption.
  constructor; [reflexivity|exact Hq].
Qed.

End Broadcast.

(** ** [fundPsbtSpendAll]: the funding request *)

Section SpendAll.

Variable L : Libs.
Variable be : Backend L.
Variable cfg : Config.

Let nofund (ev : Event) : Prop := isFund ev = false.



Lemma releaseOutputs_nofund utxos lockId :
  emits nofund (releaseOutputs L be utxos lockId).
Proof.
  induction utxos as [|i rest IH]; cbn [releaseOutputs].
  - apply emits_ret.
  - destruct (nth_error _ 1); [|apply emits_panic].
    destruct (Atoi _); [apply emits_ret|].
    apply emits_bind.
    + apply emits_call. intros tr. eexists _, _. split; reflexivity.
    + intros [e|]; [apply emits_fail|exact IH].
Qed.

(** The inner loop only leases, and when it completes it has leased the
    unspent output once for every caller entry that names it. *)
Lemma leaseMatching_spec utxo strs :
  forall txin tr r tr',
    leaseMatching L be utxo strs txin tr = (r, tr') ->
    exists evs, tr' = evs ++ tr /\ Forall nofund evs
      /\ (forall txin', r = Ok txin' ->
          forall u op, In u strs -> outpointOf u = Some op ->
            key_of op = key_of (utxo_Outpoint utxo) ->
            In (mkEvent (CallLeaseOutput myLockId (utxo_Outpoint utxo) 10) true)
               evs).
Proof.
  induction strs as [|u rest IH]; intros txin tr r tr' Hrun.
  - injection Hrun as <- <-. exists []. repeat split; [constructor|].
    intros _ _ u op [].
  - cbn [leaseMatching] in Hrun.
    assert (Hnone : forall tr0 (x : Res (list TxIn)),
               (forall t, x <> Ok t) ->
               exists evs, tr0 = evs ++ tr0 /\ Forall nofund evs
                 /\ (forall txin', x = Ok txin' ->
                     forall u0 op, In u0 (u :: rest) ->
                       outpointOf u0 = Some op ->
                       key_of op = key_of (utxo_Outpoint utxo) ->
                       In (mkEvent (CallLeaseOutput myLockId
                                      (utxo_Outpoint utxo) 10) true) evs)).
    { intros tr0 x Hx. exists []. repeat split; [constructor|].
      intros t ->. now destruct (Hx t). }
    unfold outpointOf.
    destruct (nth_error (Split u ":") 1) as [p1|] eqn:Ep.
    2:{ injection Hrun as <- <-. now apply Hnone. }
    destruct (Atoi p1) as [e|index] eqn:Ea.
    { injection Hrun as <- <-. now apply Hnone. }
    destruct (String.eqb _ _ && _)%bool eqn:Em.
    + destruct (NewHash _) as [e|hash].
      { injection Hrun as <- <-. now apply Hnone. }
      unfold bind, LeaseOutput in Hrun. cbn in Hrun.
      destruct (rpc_LeaseOutput be tr myLockId _ 10) as [e|] eqn:El.
      { injection Hrun as <- <-.
        exists [mkEvent (CallLeaseOutput myLockId (utxo_Outpoint utxo) 10)
                  false].
        repeat split; [now repeat constructor|discriminate]. }
      cbn in Hrun. apply IH in Hrun as (evs & -> & Hnf & Hin).
      exists (evs ++ [mkEvent (CallLeaseOutput myLockId (utxo_Outpoint utxo) 10)
                        true]).
      rewrite <- app_assoc. repeat split.
      * apply Forall_app. split; [exact Hnf|now repeat constructor].
      * intros txin' -> u0 op [<-|Hu0] Hop Hk; apply in_or_app.
        -- right. now left.
        -- left. eapply Hin; eauto.
    + apply IH in Hrun as (evs & -> & Hnf & Hin).
      exists evs. repeat split; [exact Hnf|].
      intros txin' -> u0 op [<-|Hu0] Hop Hk.
      * exfalso. unfold outpointOf in Hop. rewrite Ep, Ea in Hop.
        injection Hop as <-. unfold key_of in Hk. cbn in Hk.
        injection Hk as Hk1 Hk2. rewrite <- Hk1, <- Hk2 in Em.
        rewrite String.eqb_refl, Z.eqb_refl in Em. discriminate.
      * eapply Hin; eauto.
Qed.

Lemma leaseAll_spec unspent strs :
  forall txin tr r tr',
    leaseAll L be unspent strs txin tr = (r, tr') ->
    exists evs, tr' = evs ++ tr /\ Forall nofund evs
      /\ (forall txin', r = Ok txin' ->
          forall utxo u op, In utxo unspent -> In u strs ->
            outpointOf u = Some op ->
            key_of op = key_of (utxo_Outpoint utxo) ->
            In (mkEvent (CallLeaseOutput myLockId (utxo_Outpoint utxo) 10) true)
               evs).
Proof.
  induction unspent as [|utxo more IH]; intros txin tr r tr' Hrun.
  - injection Hrun as <- <-. exists []. repeat split; [constructor|].
    intros _ _ utxo u op [].
  - cbn [leaseAll] in Hrun. unfold bind in Hrun.
    destruct (leaseMatching L be utxo strs txin tr) as [x tr1] eqn:E1.
    apply leaseMatching_spec in E1 as (evs1 & -> & Hnf1 & Hin1).
    destruct x as [txin1| | |].
    + apply IH in Hrun as (evs2 & -> & Hnf2 & Hin2).
      exists (evs2 ++ evs1). rewrite <- app_assoc. repeat split.
      * apply Forall_app. now split.
      * intros txin' -> utxo0 u op [<-|Hu0] Hu Hop Hk; apply in_or_app.
        -- right. eapply Hin1; eauto.
        -- left. eapply Hin2; eauto.
    + injection Hrun as <- <-. exists evs1. repeat split;
        [exact Hnf1|discriminate].
    + injection Hrun as <- <-. exists evs1. repeat split;
        [exact Hnf1|discriminate].
    + injection Hrun as <- <-. exists evs1. repeat split;
        [exact Hnf1|discriminate].
Qed.


End SpendAll.

(** ** The fee-subtraction loop *)

Section Haircut.

Variable L : Libs.
Variable be : Backend L.
Variable cfg : Config.

Let wf (i : string) : Prop := outpointOf i <> None.

Lemma bytes_eqb_refl b : bytes_eqb b b = true.
Proof. unfold bytes_eqb. destruct (list_eq_dec _ b b); congruence. Qed.

Lemma key_eqb_refl k : key_eqb k k = true.
Proof. unfold key_eqb. now rewrite String.eqb_refl, Z.eqb_refl. Qed.



Lemma release_nonlocking evs :
  Forall (fun ev => isRelease ev = true) evs ->
  Forall (fun ev => locking ev = false) evs.
Proof.
  apply Forall_impl. intros ev H. unfold isRelease in H. unfold locking.
  destruct (ev_call ev); try discriminate. apply andb_false_r.
Qed.

Lemma collectInputs_wf utxos :
  forall acc inputs, collectInputs utxos acc = Ok inputs -> Forall wf utxos.
Proof.
  induction utxos as [|i rest IH]; intros acc inputs H; [constructor|].
  cbn [collectInputs] in H. constructor.
  - unfold wf, outpointOf. destruct (nth_error _ 1); [|discriminate].
    now destruct (Atoi _).
  - destruct (nth_error _ 1); [|discriminate].
    destruct (Atoi _); [discriminate|]. eapply IH, H.
Qed.

(** Over well-formed entries [releaseOutputs] only issues releases, ends
    with nil or with a backend error, and when it ends with nil no entry
    is left under the identifier released. *)
Lemma releaseOutputs_wf_spec utxos id :
  Forall wf utxos ->
  forall tr x tr',
    releaseOutputs L be utxos id tr = (x, tr') ->
    exists rel, tr' = rel ++ tr
      /\ Forall (fun ev => isRelease ev = true) rel
      /\ (x = Ok tt \/ exists e, x = Fail e)
      /\ (x = Ok tt ->
          forall u op, In u utxos -> outpointOf u = Some op ->
            holder tr' (key_of op) <> Some id).
Proof.
  induction 1 as [|i rest Hi Hrest IH]; intros tr x tr' Hrun.
  - injection Hrun as <- <-. exists []. repeat split; auto; intros _ u op [].
  - destruct (outpointOf i) as [op|] eqn:Hop; [|now destruct Hi].
    rewrite (releaseOutputs_wf_cons L be i op rest id tr Hop) in Hrun.
    destruct (rpc_ReleaseOutput be tr id op) as [e|].
    + injection Hrun as <- <-.
      exists [mkEvent (CallReleaseOutput id op) false].
      repeat split; [now repeat constructor|right; now exists e|discriminate].
    + apply IH in Hrun as (rel & -> & Hrel & Hx & Hfree).
      exists (rel ++ [mkEvent (CallReleaseOutput id op) true]).
      rewrite <- app_assoc. repeat split.
      * apply Forall_app. split; [exact Hrel|now repeat constructor].
      * exact Hx.
      * intros -> u op' [<-|Hu] Hop'; [|now apply (Hfree eq_refl u)].
        rewrite Hop in Hop'. injection Hop' as <-.
        intros Hheld.
        apply holder_nonlocking in Hheld; [|now apply release_nonlocking].
        cbn in Hheld. rewrite key_eqb_refl in Hheld.
        destruct (holder tr (key_of op)) as [id'|]; [|discriminate].
        destruct (bytes_eqb id id') eqn:E; [discriminate|].
        injection Hheld as ->. now rewrite bytes_eqb_refl in E.
Qed.

Lemma releaseOutputs_not_Diverge utxos id :
  forall tr tr', releaseOutputs L be utxos id tr <> (Diverge, tr').
Proof.
  induction utxos as [|i rest IH]; intros tr tr'; [discriminate|].
  rewrite releaseOutputs_cons.
  destruct (nth_error _ 1); [|discriminate].
  destruct (Atoi _); [discriminate|]. cbn zeta.
  destruct (rpc_ReleaseOutput _ _ _ _); [discriminate|apply IH].
Qed.



Section Loop.

Variable utxos : list string.
Variable addr : string.
Variable amount : Z.
Variable fee : Fee L.
Variable feeRate : Z.
Variable lockId : list byte.
Variable inputs : list OutPoint.
Hypothesis Hinputs : collectInputs utxos [] = Ok inputs.

Let request (outputs : list (string * Z)) : FundPsbtRequest :=
  mkFundPsbtRequest (TemplateRaw inputs outputs) feeRate 1 false
    CHANGE_ADDRESS_TYPE_P2TR.

Let asked (k : nat) : list (string * Z) :=
  [(addr, uint64 (attemptAmount L amount fee (5 * Z.of_nat k)))].

Lemma fundPsbt_run outputs tr :
  fundPsbt L be utxos outputs feeRate tr =
  match rpc_FundPsbt be tr (request outputs) with
  | inl e => (Fail e, mkEvent (CallFundPsbt (request outputs)) false :: tr)
  | inr p => (Ok p, mkEvent (CallFundPsbt (request outputs)) true :: tr)
  end.
Proof.
  unfold fundPsbt, bind, lift, FundPsbt. rewrite Hinputs. cbn.
  fold (request outputs).
  now destruct (rpc_FundPsbt be tr (request outputs)).
Qed.


End Loop.


Lemma ignore_releaseOutputs utxos id tr :
  exists rel,
    ignore (releaseOutputs L be utxos id) tr
      = (match fst (releaseOutputs L be utxos id tr) with
         | Panic => Panic
         | _ => Ok tt
         end, rel ++ tr)
    /\ Forall (fun ev => isFund ev = false) rel
    /\ (Forall wf utxos ->
        fst (ignore (releaseOutputs L be utxos id) tr) = Ok tt
        /\ Forall (fun ev => isRelease ev = true) rel).
Proof.
  unfold ignore, bind, catch, ret.
  destruct (releaseOutputs L be utxos id tr) as [x tr1] eqn:E.
  pose proof (releaseOutputs_nofund L be utxos id _ _ _ E) as (rel & -> & Hnf).
  exists rel. split; [|split; [exact Hnf|]].
  - destruct x; try reflexivity.
    now destruct (releaseOutputs_not_Diverge utxos id tr (rel ++ tr)).
  - intros Hwf.
    apply (releaseOutputs_wf_spec _ _ Hwf) in E as (rel' & E' & Hrel & Hx & _).
    apply app_inv_tail in E' as ->.
    split; [|exact Hrel]. now destruct Hx as [->|[e ->]].
Qed.

Lemma finalizeAndPublish_spec utxos lockId psbtBytes sub finalAmount tr r tr' :
  finalizeAndPublish L be utxos lockId psbtBytes sub finalAmount tr = (r, tr') ->
  r <> Diverge
  /\ exists evs, tr' = evs ++ tr /\ Forall (fun ev => isFund ev = false) evs.
Proof.
  unfold finalizeAndPublish, bind at 1, FinalizePsbt. cbn zeta.
  set (fev := mkEvent (CallFinalizePsbt psbtBytes) _).
  destruct (rpc_FinalizePsbt be tr psbtBytes) as [e|rawTx].
  { unfold bind.
    destruct (ignore_releaseOutputs utxos lockId (fev :: tr))
      as (rel & -> & Hnf & _).
    intros H.
    split.
    - destruct (fst (releaseOutputs _ _ _ _ _)); injection H as <- _;
        discriminate.
    - exists (rel ++ [fev]). rewrite <- app_assoc. split.
      + destruct (fst (releaseOutputs _ _ _ _ _)); now injection H as _ <-.
      + apply Forall_app. split; [exact Hnf|now repeat constructor]. }
  destruct (Deserialize L rawTx) as [e|msgTx].
  { intros [= <- <-]. split; [discriminate|].
    exists [fev]. split; [reflexivity|now repeat constructor]. }
  unfold bind at 1, PublishTransaction. cbn zeta.
  set (pev := mkEvent (CallPublishTransaction rawTx _) _).
  destruct (rpc_PublishTransaction be (fev :: tr) rawTx _) as [e|reply].
  { unfold bind.
    destruct (ignore_releaseOutputs utxos lockId (pev :: fev :: tr))
      as (rel & -> & Hnf & _).
    intros H. split.
    - destruct (fst (releaseOutputs _ _ _ _ _)); injection H as <- _;
        discriminate.
    - exists (rel ++ [pev; fev]). rewrite <- app_assoc. split.
      + destruct (fst (releaseOutputs _ _ _ _ _)); now injection H as _ <-.
      + apply Forall_app. split; [exact Hnf|now repeat constructor]. }
  intros H.
  assert (r <> Diverge /\ tr' = pev :: fev :: tr) as [Hr ->].
  { destruct sub; [destruct (TxOut_ msgTx)|]; cbn in H;
      injection H as <- <-; split; (discriminate || reflexivity). }
  split; [exact Hr|].
  exists [pev; fev]. split; [reflexivity|now repeat constructor].
Qed.


End Haircut.

(** ** [fundPsbtSpendAll]: what a failure leaves behind *)

(** C4, on two concrete runs.  The wallet holds outputs [aa:0] and [bb:1]
    and the caller names both.  When the lease of [bb:1] is rejected, the
    function returns that error while [aa:0] is still leased under the
    manual lock identifier: no release was requested.  The same happens
    when both leases are accepted and the destination address then fails
    to decode. *)
Theorem fundPsbtSpendAll_failure_keeps_leases :
  (let run := fundPsbtSpendAll Examples.libs0 Examples.leaseOnce Examples.cfg0
                ["aa:0"; "bb:1"] "bc1qdest" 5 [] in
   fst run = Fail (rpcError "lease rejected")
   /\ holder (snd run) ("aa", 0) = Some myLockId
   /\ Forall (fun ev => isRelease ev = false) (snd run))
  /\ (let run := fundPsbtSpendAll Examples.libs0 Examples.walletBackend
                   Examples.cfg0 ["aa:0"; "bb:1"] "" 5 [] in
      fst run = Fail (libError "decode failed")
      /\ holder (snd run) ("aa", 0) = Some myLockId
      /\ holder (snd run) ("bb", 1) = Some myLockId
      /\ Forall (fun ev => isRelease ev = false) (snd run)).
Proof.
  split; vm_compute; repeat split; repeat constructor.
Qed.

(** For comparison, the one path that does release: a rejected funding. *)
Example fundPsbtSpendAll_rejected_funding_releases :
  let be := mkBackend Examples.libs0
              (rpc_Connect Examples.walletBackend)
              (rpc_ListUnspent Examples.walletBackend)
              (rpc_LeaseOutput Examples.walletBackend)
              (rpc_ReleaseOutput Examples.walletBackend)
              (fun _ _ => inl (rpcError "insufficient funds"))
              (rpc_GetFeeFromPsbt Examples.walletBackend)
              (rpc_FinalizePsbt Examples.walletBackend)
              (rpc_PublishTransaction Examples.walletBackend)
              (rpc_GetTransactions Examples.walletBackend)
              (rpc_RemoveTransaction Examples.walletBackend)
              (rpc_BumpFee Examples.walletBackend)
              (rpc_CanRBF Examples.walletBackend) in
  let run := fundPsbtSpendAll Examples.libs0 be Examples.cfg0
               ["aa:0"; "bb:1"] "bc1qdest" 5 [] in
  fst run = Fail (rpcError "insufficient funds")
  /\ holder (snd run) ("aa", 0) = None
  /\ holder (snd run) ("bb", 1) = None.
Proof. vm_compute. repeat split. Qed.

(** ** [BumpPeginFee] *)

Section Bump.

Variable L : Libs.
Variable be : Backend L.
Variable cfg : Config.

Let wf (i : string) : Prop := outpointOf i <> None.

(** The history once [BumpPeginFee] has connected, fetched the pending
    transaction and connected again. *)
Let prepared (tr : Trace) : Trace :=
  mkEvent CallConnect true
    :: mkEvent CallGetTransactions true
    :: mkEvent CallConnect true :: tr.

(** Up to its capability test, [BumpPeginFee] is its two branches run on
    the prepared history. *)
Lemma BumpPeginFee_prepared fuel feeRate tr txs tx :
  rpc_Connect be tr = None ->
  rpc_GetTransactions be (mkEvent CallConnect true :: tr) = inr txs ->
  find (fun t => String.eqb (TxHash t) (PeginTxId cfg)) txs = Some tx ->
  rpc_Connect be
    (mkEvent CallGetTransactions true :: mkEvent CallConnect true :: tr)
    = None ->
  BumpPeginFee L be cfg fuel feeRate tr =
  (if negb (rpc_CanRBF be (prepared tr)) then
     doCPFP L be cfg (OutputDetails tx) feeRate ;;;
     ret (mkSentResult "" (PeginTxId cfg) (PeginAmount cfg))
   else
     res <- RemoveTransaction L be (PeginTxId cfg) ;;
     match res with
     | inl err => fail err
     | inr status =>
         if negb (String.eqb status "Successfully removed transaction")
         then fail (errorsNew
                ("cannot remove the previous transaction: " ++ status))
         else
           let utxos := map po_Outpoint (PreviousOutpoints tx) in
           ignore (releaseOutputs L be utxos internalLockId) ;;;
           ignore (releaseOutputs L be utxos myLockId) ;;;
           SendCoinsWithUtxos L be cfg fuel utxos (PeginAddress cfg)
             (PeginAmount cfg) feeRate
             (List.length (OutputDetails tx) =? 1)%nat
     end) (prepared tr).
Proof.
  intros H1 H2 H3 H4.
  unfold BumpPeginFee. unfold bind at 1, lndConnection. rewrite H1.
  cbn [is_None].
  unfold bind at 1, getTransaction. unfold bind at 1, GetTransactions.
  rewrite H2, H3. cbn [is_None is_inr ret].
  unfold bind at 1. rewrite H4. cbn [is_None].
  unfold bind at 1, CanRBF. fold (prepared tr).
  now destruct (rpc_CanRBF be (prepared tr)).
Qed.

(** C5, as amended.  Let the backend be RBF-capable, know the pending
    peg-in transaction and accept its removal, and let the former inputs
    be well-formed outpoint strings.  After the removal the function makes
    one pass of [releaseOutputs] over the former inputs under the internal
    identifier and one under the manual identifier, dropping their errors,
    and then is [SendCoinsWithUtxos] on those inputs, the peg-in address
    and amount and the new fee rate, with fee subtraction switched on
    exactly when the removed transaction had one output.  When both passes
    end without error, no former input is held under either identifier
    when the funding starts. *)
Theorem BumpPeginFee_rbf_flow
    (fuel : nat) (feeRate : Z) (tr : Trace)
    (txs : list Transaction) (tx : Transaction) :
  let utxos := map po_Outpoint (PreviousOutpoints tx) in
  let tr4 := mkEvent (CallRemoveTransaction (PeginTxId cfg)) true
               :: prepared tr in
  rpc_Connect be tr = None ->
  rpc_GetTransactions be (mkEvent CallConnect true :: tr) = inr txs ->
  find (fun t => String.eqb (TxHash t) (PeginTxId cfg)) txs = Some tx ->
  rpc_Connect be
    (mkEvent CallGetTransactions true :: mkEvent CallConnect true :: tr)
    = None ->
  rpc_CanRBF be (prepared tr) = true ->
  rpc_RemoveTransaction be (prepared tr) (PeginTxId cfg)
    = inr "Successfully removed transaction" ->
  Forall wf utxos ->
  exists rel1 rel2 subtractFee,
    snd (releaseOutputs L be utxos internalLockId tr4) = rel1 ++ tr4
    /\ snd (releaseOutputs L be utxos myLockId (rel1 ++ tr4))
       = rel2 ++ rel1 ++ tr4
    /\ Forall (fun ev => isRelease ev = true) (rel2 ++ rel1)
    /\ BumpPeginFee L be cfg fuel feeRate tr
       = SendCoinsWithUtxos L be cfg fuel utxos (PeginAddress cfg)
           (PeginAmount cfg) feeRate subtractFee (rel2 ++ rel1 ++ tr4)
    /\ (subtractFee = true <-> List.length (OutputDetails tx) = 1%nat)
    /\ (fst (releaseOutputs L be utxos internalLockId tr4) = Ok tt ->
        fst (releaseOutputs L be utxos myLockId (rel1 ++ tr4)) = Ok tt ->
        forall u op, In u utxos -> outpointOf u = Some op ->
          holder (rel2 ++ rel1 ++ tr4) (key_of op) <> Some internalLockId
          /\ holder (rel2 ++ rel1 ++ tr4) (key_of op) <> Some myLockId).
Proof.
  intros utxos tr4 H1 H2 H3 H4 Hcan Hrm Hwf.
  rewrite (BumpPeginFee_prepared fuel feeRate tr txs tx H1 H2 H3 H4).
  rewrite Hcan. cbn [negb].
  unfold bind at 1, RemoveTransaction. rewrite Hrm.
  cbn [is_inr]. rewrite String.eqb_refl. cbn [negb]. cbv zeta.
  fold tr4. fold utxos.
  destruct (releaseOutputs L be utxos internalLockId tr4) as [x1 t1] eqn:E1.
  pose proof (releaseOutputs_wf_spec L be utxos internalLockId Hwf _ _ _ E1)
    as (rel1 & -> & Hrel1 & Hx1 & Hfree1).
  exists rel1.
  destruct (releaseOutputs L be utxos myLockId (rel1 ++ tr4))
    as [x2 t2] eqn:E2.
  pose proof (releaseOutputs_wf_spec L be utxos myLockId Hwf _ _ _ E2)
    as (rel2 & -> & Hrel2 & Hx2 & Hfree2).
  exists rel2, (List.length (OutputDetails tx) =? 1)%nat.
  refine (conj eq_refl (conj eq_refl (conj _ (conj _ (conj _ _))))).
  - apply Forall_app. now split.
  - unfold bind at 1. rewrite ignore_run, E1.
    destruct Hx1 as [->|[e1 ->]];
      (unfold bind at 1; rewrite ignore_run, E2;
       now destruct Hx2 as [->|[e2 ->]]).
  - apply Nat.eqb_eq.
  - cbn [fst]. intros -> -> u op Hu Hop. split.
    + intros H. apply holder_nonlocking in H;
        [|now apply release_nonlocking].
      exact (Hfree1 eq_refl u op Hu Hop H).
    + rewrite app_assoc in *. exact (Hfree2 eq_refl u op Hu Hop).
Qed.

(** C6.  Let the backend not be RBF-capable and know the pending peg-in
    transaction.  If that transaction has exactly one output,
    [BumpPeginFee] fails without asking for a bump.  Otherwise it asks for
    exactly one bump, at the new fee rate, of an outpoint of the pending
    transaction id: the one whose index is that of the first output that
    does not pay the peg-in address (index 999 when every output pays it);
    when the backend accepts, the result carries the pending transaction id
    unchanged, an empty raw transaction and the recorded amount; when it
    refuses, its error is returned. *)
Theorem BumpPeginFee_cpfp_flow
    (fuel : nat) (feeRate : Z) (tr : Trace)
    (txs : list Transaction) (tx : Transaction) :
  let run := BumpPeginFee L be cfg fuel feeRate tr in
  rpc_Connect be tr = None ->
  rpc_GetTransactions be (mkEvent CallConnect true :: tr) = inr txs ->
  find (fun t => String.eqb (TxHash t) (PeginTxId cfg)) txs = Some tx ->
  rpc_Connect be
    (mkEvent CallGetTransactions true :: mkEvent CallConnect true :: tr)
    = None ->
  rpc_CanRBF be (prepared tr) = false ->
  (List.length (OutputDetails tx) = 1%nat ->
     (exists e, fst run = Fail e) /\ snd run = prepared tr)
  /\ (List.length (OutputDetails tx) <> 1%nat ->
      forall index,
        (forall pre o post,
           OutputDetails tx = pre ++ o :: post ->
           (forall x, In x pre -> od_Address x = PeginAddress cfg) ->
           od_Address o <> PeginAddress cfg ->
           index = uint32 (od_OutputIndex o)) ->
        ((forall x, In x (OutputDetails tx) ->
            od_Address x = PeginAddress cfg) -> index = 999) ->
        let op := mkOutPoint [] (PeginTxId cfg) index in
        let reply := rpc_BumpFee be (prepared tr) op feeRate in
        snd run = mkEvent (CallBumpFee op feeRate) (is_None reply)
                    :: prepared tr
        /\ (reply = None ->
            fst run
            = Ok (mkSentResult "" (PeginTxId cfg) (PeginAmount cfg)))
        /\ (forall e, reply = Some e -> fst run = Fail e)).
Proof.
  intros run H1 H2 H3 H4 Hcan. subst run.
  rewrite (BumpPeginFee_prepared fuel feeRate tr txs tx H1 H2 H3 H4).
  rewrite Hcan. cbn [negb]. unfold doCPFP.
  split.
  - intros Hlen. rewrite Hlen. cbn. split; [eexists|]; reflexivity.
  - intros Hlen index Hfirst Hnone.
    apply Nat.eqb_neq in Hlen. rewrite Hlen.
    assert (match find (fun output =>
                          negb (od_Address output =? PeginAddress cfg)%string)
                    (OutputDetails tx) with
            | Some output => uint32 (od_OutputIndex output)
            | None => uint32 999
            end = index) as ->.
    { destruct (find _ (OutputDetails tx)) as [o|] eqn:Ef.
      - destruct (find_split _ _ _ Ef) as (pre & post & Eo & Hpre & Ho).
        symmetry. apply (Hfirst pre o post Eo).
        + intros x Hx. apply String.eqb_eq.
          now apply negb_false_iff, Hpre.
        + apply String.eqb_neq. now apply negb_true_iff.
      - rewrite Hnone; [reflexivity|]. intros x Hx.
        apply String.eqb_eq.
        now apply negb_false_iff, (List.find_none _ _ Ef x Hx). }
    unfold bind, BumpFee.
    destruct (rpc_BumpFee be (prepared tr) _ feeRate) as [e|]; cbn.
    + repeat split; [discriminate|]. now intros e' [= <-].
    + repeat split. discriminate.
Qed.

End Bump.

(** ** [startTimer]: the single claim attempt *)

Section Timer.

Variable env : Psweb.Env.

Ltac run_web :=
  unfold Psweb.bind, Psweb.getConfig, Psweb.getChatId, Psweb.ask, Psweb.ret,
    Psweb.setConfig, Psweb.Save, Psweb.telegramSendMessage;
  cbn [Psweb.config Psweb.chatId Psweb.history fst snd].

Ltac new_events :=
  first
    [ exists []; split; [reflexivity|]
    | eexists [_]; split; [reflexivity|]
    | eexists [_; _]; split; [reflexivity|]
    | eexists [_; _; _]; split; [reflexivity|]
    | eexists [_; _; _; _]; split; [reflexivity|]
    | eexists [_; _; _; _; _]; split; [reflexivity|]
    | eexists [_; _; _; _; _; _]; split; [reflexivity|]
    | eexists [_; _; _; _; _; _; _]; split; [reflexivity|] ].

(** [liquidBackup] returns, neither touches the pending peg-in nor looks
    it up, fetches or claims anything. *)
Lemma liquidBackup_spec force s :
  exists evs,
    Psweb.history (snd (Psweb.liquidBackup env force s))
      = evs ++ Psweb.history s
    /\ fst (Psweb.liquidBackup env force s) = Ok tt
    /\ Psweb.PeginTxId (Psweb.config (snd (Psweb.liquidBackup env force s)))
       = Psweb.PeginTxId (Psweb.config s)
    /\ Psweb.claimAttempts evs = 0%nat
    /\ Psweb.rawFetches evs = 0%nat.
Proof.
  unfold Psweb.liquidBackup. run_web.
  destruct (_ || _ || _)%bool; [new_events; now repeat split|].
  destruct (Psweb.env_ListActiveSwaps env _) as [e|swaps]; cbn;
    [new_events; now repeat split|].
  destruct (_ && _)%bool; cbn; [new_events; now repeat split|].
  destruct (Psweb.env_LiquidGetBalance env _) as [e|sat]; cbn;
    [new_events; now repeat split|].
  destruct (_ && _)%bool; cbn; [new_events; now repeat split|].
  destruct (Psweb.env_backupAndZip env _ _) as [e|zip]; cbn;
    [new_events; now repeat split|].
  destruct (Psweb.env_telegramSendFile env _ _ _ _) as [e|]; cbn;
    new_events; now repeat split.
Qed.

(** What the peg-in block does to a pending peg-in. *)
Lemma checkPegin_spec s :
  let s' := snd (Psweb.checkPegin env s) in
  let t := Psweb.PeginTxId (Psweb.config s) in
  exists evs,
    Psweb.history s' = evs ++ Psweb.history s
    /\ fst (Psweb.checkPegin env s) = Ok tt
    /\ ((Psweb.PeginTxId (Psweb.config s') = t
         /\ Psweb.claimAttempts evs = 0%nat
         /\ Psweb.rawFetches evs = 0%nat)
        \/ (t <> ""
            /\ Psweb.PeginTxId (Psweb.config s') = ""
            /\ Psweb.sawDepth t 102 evs
            /\ exists fetched,
                 In (Psweb.EvGetRawTransaction t fetched) evs
                 /\ Psweb.rawFetches evs = 1%nat
                 /\ Psweb.claimAttempts evs
                    = (if fetched then 1 else 0)%nat)).
Proof.
  destruct s as [cfg chat h]. unfold Psweb.checkPegin.
  run_web.
  destruct (Psweb.PeginTxId cfg =? "")%string eqn:Et; cbn.
  { exists []. repeat split. left. now repeat split. }
  apply String.eqb_neq in Et.
  set (confs := Psweb.env_GetTxConfirmations env _ _).
  destruct (102 <=? confs) eqn:Ec; cbn.
  2:{ exists [Psweb.EvGetTxConfirmations (Psweb.PeginTxId cfg) confs].
      repeat split. left. now repeat split. }
  apply Z.leb_le in Ec.
  assert (Hsaw : forall evs,
             Psweb.sawDepth (Psweb.PeginTxId cfg) 102
               (evs ++ [Psweb.EvGetTxConfirmations (Psweb.PeginTxId cfg)
                          confs])).
  { intros evs. exists confs. split; [|exact Ec].
    apply in_or_app. right. now left. }
  destruct (Psweb.env_getRawTransaction env _ _) as [e|rawTx]; cbn.
  - eexists [_; _; _; _]. split; [reflexivity|].
    split; [reflexivity|]. right.
    refine (conj Et (conj eq_refl (conj _ _))).
    + apply (Hsaw [_; _; _]).
    + exists false. split; [do 2 right; now left|]. now split.
  - destruct (Psweb.env_claimPegin env _ _ _ _) as [err|x];
      [destruct (negb _)|]; cbn;
      (eexists [_; _; _; _; _; _]; split; [reflexivity|];
       split; [reflexivity|]; right;
       refine (conj Et (conj eq_refl (conj _ _)));
       [ apply (Hsaw [_; _; _; _; _])
       | exists true; split; [do 4 right; now left|now split] ]).
Qed.

Lemma claimAttempts_app a b :
  Psweb.claimAttempts (a ++ b)
  = (Psweb.claimAttempts a + Psweb.claimAttempts b)%nat.
Proof.
  induction a as [|e a IH]; [reflexivity|]. destruct e; cbn; now rewrite ?IH.
Qed.

Lemma rawFetches_app a b :
  Psweb.rawFetches (a ++ b) = (Psweb.rawFetches a + Psweb.rawFetches b)%nat.
Proof.
  induction a as [|e a IH]; [reflexivity|]. destruct e; cbn; now rewrite ?IH.
Qed.

(** The outcome of a stretch of the timer's work on a pending peg-in:
    either the id is as it was and nothing was fetched or claimed, or it
    was set and is now cleared, the threshold was seen, the raw
    transaction was fetched once, and one claim was attempted when that
    fetch succeeded and none when it failed. *)
Let outcome (s s' : Psweb.State) (evs : Psweb.History) : Prop :=
  let t := Psweb.PeginTxId (Psweb.config s) in
  (Psweb.PeginTxId (Psweb.config s') = t
   /\ Psweb.claimAttempts evs = 0%nat
   /\ Psweb.rawFetches evs = 0%nat)
  \/ (t <> ""
      /\ Psweb.PeginTxId (Psweb.config s') = ""
      /\ Psweb.sawDepth t 102 evs
      /\ exists fetched,
           In (Psweb.EvGetRawTransaction t fetched) evs
           /\ Psweb.rawFetches evs = 1%nat
           /\ Psweb.claimAttempts evs = (if fetched then 1 else 0)%nat).

(** Two stretches in a row. *)
Lemma outcome_then s s1 s2 evs1 evs2 :
  outcome s s1 evs1 -> outcome s1 s2 evs2 -> outcome s s2 (evs2 ++ evs1).
Proof.
  unfold outcome.
  intros [(Ht1 & Hc1 & Hf1)|(Hne & Ht1 & Hsaw & ok & Hin & Hf1 & Hc1)]
         [(Ht2 & Hc2 & Hf2)|(Hne2 & Ht2 & Hsaw2 & ok2 & Hin2 & Hf2 & Hc2)].
  - left. rewrite claimAttempts_app, rawFetches_app, Hc1, Hc2, Hf1, Hf2.
    repeat split. congruence.
  - right. rewrite Ht1 in *.
    refine (conj Hne2 (conj Ht2 (conj _ _))).
    + destruct Hsaw2 as (c & Hc & Hle). exists c. split; [|exact Hle].
      apply in_or_app. now left.
    + exists ok2. rewrite claimAttempts_app, rawFetches_app, Hc1, Hf1,
        !Nat.add_0_r.
      repeat split; [apply in_or_app; now left|exact Hf2|exact Hc2].
  - right. rewrite Ht1 in Ht2.
    refine (conj Hne (conj Ht2 (conj _ _))).
    + destruct Hsaw as (c & Hc & Hle). exists c. split; [|exact Hle].
      apply in_or_app. now right.
    + exists ok. rewrite claimAttempts_app, rawFetches_app, Hc2, Hf2.
      repeat split; [apply in_or_app; now right|exact Hf1|exact Hc1].
  - now rewrite Ht1 in Hne2.
Qed.

Lemma timerTick_spec s :
  exists evs,
    Psweb.history (snd (Psweb.timerTick env s)) = evs ++ Psweb.history s
    /\ fst (Psweb.timerTick env s) = Ok tt
    /\ outcome s (snd (Psweb.timerTick env s)) evs.
Proof.
  unfold Psweb.timerTick, Psweb.bind.
  destruct (liquidBackup_spec false s) as (ev0 & Hh & Hr & Ht & Hc & Hf).
  destruct (Psweb.liquidBackup env false s) as [r0 s0].
  cbn [fst snd] in *. subst r0.
  destruct (checkPegin_spec s0) as (ev1 & Hh1 & Hr1 & Ho).
  destruct (Psweb.checkPegin env s0) as [r1 s1].
  cbn [fst snd] in *. subst r1.
  exists (ev1 ++ ev0). rewrite Hh1, Hh, app_assoc.
  repeat split. eapply outcome_then; [|exact Ho].
  left. now repeat split.
Qed.

Lemma startTimer_spec n :
  forall s,
  exists evs,
    Psweb.history (snd (Psweb.startTimer env n s)) = evs ++ Psweb.history s
    /\ fst (Psweb.startTimer env n s) = Ok tt
    /\ outcome s (snd (Psweb.startTimer env n s)) evs.
Proof.
  induction n as [|n IH]; intros s.
  - exists []. repeat split. left. now repeat split.
  - cbn [Psweb.startTimer]. unfold Psweb.bind.
    destruct (timerTick_spec s) as (ev1 & Hh1 & Hr1 & Ho1).
    destruct (Psweb.timerTick env s) as [r1 s1].
    cbn [fst snd] in *. subst r1.
    destruct (IH s1) as (ev2 & Hh2 & Hr2 & Ho2).
    exists (ev2 ++ ev1). rewrite Hh2, Hh1, app_assoc.
    repeat split; [exact Hr2|]. eapply outcome_then; eassumption.
Qed.

(** C8, as amended.  Let a peg-in transaction id be pending and the timer
    run for any number of ticks.  Every tick returns.  At the end the id
    is either unchanged, and then nothing was fetched or claimed, or
    cleared, and then: some lookup reported at least 102 confirmations for
    it; its raw transaction was fetched exactly once; and exactly one claim
    was attempted if that fetch succeeded, none if it failed.  In no case
    was a second claim attempted. *)
Theorem startTimer_single_attempt (n : nat) (s : Psweb.State) :
  let t := Psweb.PeginTxId (Psweb.config s) in
  let s' := snd (Psweb.startTimer env n s) in
  t <> "" ->
  exists evs,
    Psweb.history s' = evs ++ Psweb.history s
    /\ fst (Psweb.startTimer env n s) = Ok tt
    /\ (Psweb.claimAttempts evs <= 1)%nat
    /\ ((Psweb.PeginTxId (Psweb.config s') = t
         /\ Psweb.rawFetches evs = 0%nat
         /\ Psweb.claimAttempts evs = 0%nat)
        \/ (Psweb.PeginTxId (Psweb.config s') = ""
            /\ Psweb.sawDepth t 102 evs
            /\ exists fetched,
                 In (Psweb.EvGetRawTransaction t fetched) evs
                 /\ Psweb.rawFetches evs = 1%nat
                 /\ Psweb.claimAttempts evs
                    = (if fetched then 1 else 0)%nat)).
Proof.
  intros t s' Ht.
  destruct (startTimer_spec n s) as (evs & Hh & Hr & Ho).
  exists evs. split; [exact Hh|]. split; [exact Hr|].
  destruct Ho as [(Hid & Hc & Hf)|(_ & Hid & Hsaw & ok & Hin & Hf & Hc)].
  - split; [lia|]. left. now repeat split.
  - split; [rewrite Hc; destruct ok; lia|]. right.
    refine (conj Hid (conj Hsaw _)). now exists ok.
Qed.

End Timer.

Lemma startTimer_single_attempt_witness :
  exists evs,
    Psweb.history
      (snd (Psweb.startTimer (Examples.webEnv 102 true) 3 Examples.webState))
      = evs ++ []
    /\ (Psweb.claimAttempts evs <= 1)%nat.
Proof.
  destruct (startTimer_single_attempt (Examples.webEnv 102 true) 3
              Examples.webState) as (evs & Hh & _ & Hle & _).
  - discriminate.
  - exists evs. split; [exact Hh|exact Hle].
Defined.

(** C8 as stated fails: with 102 confirmations and a raw transaction that
    cannot be fetched, one tick clears the pending id although no claim
    was attempted. *)
Lemma startTimer_clears_without_claim :
  let s' := snd (Psweb.startTimer (Examples.webEnv 102 false) 1
                   Examples.webState) in
  Psweb.PeginTxId (Psweb.config Examples.webState) = "pegin"
  /\ Psweb.PeginTxId (Psweb.config s') = ""
  /\ Psweb.claimAttempts (Psweb.history s') = 0%nat.
Proof. vm_compute. repeat split. Qed.

(** ** [bumpfeeHandler]: the recorded fee rate *)

Section Handler.

Variable env : Psweb.Env.

(** The handler never compares the requested rate with the recorded one:
    whatever rate is on record, the same request gets the same response
    and leads to the same bump requests. *)
Lemma bumpfeeHandler_rate_blind (r : Psweb.Request) (cfg : Psweb.Config)
    (chat : Z) (h : Psweb.History) (rate : Z) :
  let run := Psweb.bumpfeeHandler env r (Psweb.mkState cfg chat h) in
  let run' := Psweb.bumpfeeHandler env r
                (Psweb.mkState (Psweb.set_PeginFeeRate cfg rate) chat h) in
  fst run' = fst run
  /\ Psweb.bumpRequests (Psweb.history (snd run'))
     = Psweb.bumpRequests (Psweb.history (snd run)).
Proof.
  destruct cfg as [txid amount rate0 script user pass wallet backup dir].
  unfold Psweb.bumpfeeHandler.
  destruct (Psweb.Method r =? "POST")%string; [|now split].
  destruct (Psweb.ParseForm r); [now split|].
  destruct (ParseUint _) as [e|fee]; [now split|].
  unfold Psweb.bind, Psweb.getConfig, Psweb.ask, Psweb.ret, Psweb.setConfig,
    Psweb.Save, Psweb.panic, Psweb.set_PeginFeeRate.
  cbv beta iota zeta
    delta [Psweb.config Psweb.chatId Psweb.history Psweb.PeginTxId
           Psweb.PeginAmount fst snd].
  destruct (txid =? "")%string; [now split|].
  destruct (Psweb.env_GetTransaction env h txid) as [e|tx]; [now split|].
  destruct (nth_error _ _) as [output|]; [|now split].
  destruct (Lnd.od_Amount output =? _); [now split|].
  destruct (Psweb.env_BumpFee env _ _ _ _) as [e|]; now split.
Qed.

(** After an accepted bump the rate of the request is what is on record,
    in memory and in the saved configuration. *)
Lemma bumpfeeHandler_persists_rate (r : Psweb.Request) (s : Psweb.State) :
  let run := Psweb.bumpfeeHandler env r s in
  fst run = Ok (Psweb.Redirect "/bitcoin" 303) ->
  exists fee,
    ParseUint (Psweb.FormValue_feeRate r) = inr fee
    /\ Psweb.PeginFeeRate (Psweb.config (snd run)) = uint32 fee
    /\ exists older,
         Psweb.history (snd run)
         = Psweb.EvSave (Psweb.config (snd run)) :: older.
Proof.
  destruct s as [cfg chat h].
  destruct cfg as [txid amount rate0 script user pass wallet backup dir].
  unfold Psweb.bumpfeeHandler.
  destruct (Psweb.Method r =? "POST")%string; [|discriminate].
  destruct (Psweb.ParseForm r); [discriminate|].
  destruct (ParseUint _) as [e|fee]; [discriminate|].
  unfold Psweb.bind, Psweb.getConfig, Psweb.ask, Psweb.ret, Psweb.setConfig,
    Psweb.Save, Psweb.panic, Psweb.set_PeginFeeRate.
  cbv beta iota zeta
    delta [Psweb.config Psweb.chatId Psweb.history Psweb.PeginTxId
           Psweb.PeginAmount fst snd].
  destruct (txid =? "")%string; [discriminate|].
  destruct (Psweb.env_GetTransaction env h txid) as [e|tx]; [discriminate|].
  destruct (nth_error _ _) as [output|]; [|discriminate].
  destruct (Lnd.od_Amount output =? _); [discriminate|].
  destruct (Psweb.env_BumpFee env _ _ _ _) as [e|]; [discriminate|].
  cbn. intros _. exists fee. repeat split. eexists. reflexivity.
Qed.

End Handler.

(** C9, on a concrete request.  A peg-in is pending with a recorded fee
    rate of 10.  A bump is requested at rate 5.  The handler does not
    reject it: the bump reaches the backend at rate 5, the request is
    answered with the redirect of a successful bump, and the rate on record
    drops to 5. *)
Theorem bumpfeeHandler_accepts_lower_rate :
  let run := Psweb.bumpfeeHandler (Examples.webEnv 0 true)
               (Psweb.mkRequest "POST" None "5") Examples.webState in
  Psweb.PeginFeeRate (Psweb.config Examples.webState) = 10
  /\ fst run = Ok (Psweb.Redirect "/bitcoin" 303)
  /\ Psweb.bumpRequests (Psweb.history (snd run)) = [("pegin", 1, 5, true)]
  /\ Psweb.PeginFeeRate (Psweb.config (snd run)) = 5.
Proof. vm_compute. repeat split. Qed.

(** ** Concrete runs *)

Lemma SendCoinsWithUtxos_reports_hash_of_published_bytes_witness :
  exists res tr',
    SendCoinsWithUtxos Examples.libs0 Examples.okBackend Examples.cfg0 402
      ["aa:0"] "bc1qdest" 1000 5 false [] = (Ok res, tr')
    /\ exists rawTx msgTx evs,
         tr' = mkEvent (CallPublishTransaction rawTx "Liquid Peg-in") true
                 :: evs ++ []
         /\ Forall (fun ev => isPublish ev = false) evs
         /\ Deserialize Examples.libs0 rawTx = inr msgTx
         /\ TxId res = TxHashString Examples.libs0 msgTx
         /\ RawHex res = EncodeToString rawTx.
Proof.
  eexists _, _. split.
  - vm_compute. reflexivity.
  - eapply (SendCoinsWithUtxos_reports_hash_of_published_bytes
              Examples.libs0 Examples.okBackend Examples.cfg0 402
              ["aa:0"] "bc1qdest" 1000 5 false []).
    vm_compute. reflexivity.
Defined.



(** The funding request of that run, spelled out. *)
Example fundPsbtSpendAll_request_example :
  snd (fundPsbtSpendAll Examples.libs0 Examples.walletBackend Examples.cfg0
         ["aa:0"] "bc1qdest" 5 [])
  = [ mkEvent
        (CallFundPsbt
           (mkFundPsbtRequest
              (TemplateCoinSelect (list_byte_of_string "bc1qdest")
                 (ExistingOutputIndex 0))
              5 0 false CHANGE_ADDRESS_TYPE_UNSPECIFIED)) true;
      mkEvent (CallLeaseOutput myLockId (utxo_Outpoint Examples.utxoA) 10)
        true;
      mkEvent (CallListUnspent 1) true ].
Proof. vm_compute. reflexivity. Qed.

Lemma BumpPeginFee_rbf_flow_witness :
  exists rel1 rel2,
    BumpPeginFee Examples.libs0 Examples.rbfFriendly Examples.cfg0 402 10 []
    = SendCoinsWithUtxos Examples.libs0 Examples.rbfFriendly Examples.cfg0
        402 ["aa:0"; "bb:1"] "bc1qpegin" 500000 10 false
        (rel2 ++ rel1
           ++ [mkEvent (CallRemoveTransaction "pegin") true;
               mkEvent CallConnect true;
               mkEvent CallGetTransactions true;
               mkEvent CallConnect true]).
Proof.
  destruct (BumpPeginFee_rbf_flow Examples.libs0 Examples.rbfFriendly
              Examples.cfg0 402 10 [] [Examples.pendingTx] Examples.pendingTx)
    as (rel1 & rel2 & sub & _ & _ & _ & Hrun & Hsub & _);
    try reflexivity.
  - repeat constructor; discriminate.
  - exists rel1, rel2. rewrite Hrun.
    destruct sub; [|reflexivity].
    now destruct (proj1 Hsub eq_refl).
Defined.

(** C5 as stated fails.  The two inputs of the pending transaction are
    under the internal lock and the backend rejects the release of the
    first one.  Each pass stops there: no release is ever requested for
    the second input, which is still locked when the funding is re-run,
    and the bump fails on it. *)
Lemma BumpPeginFee_release_pass_stops :
  let run := BumpPeginFee Examples.libs0 Examples.rbfBackend Examples.cfg0
               402 10 Examples.fundedHistory in
  In "bb:1" (map po_Outpoint (PreviousOutpoints Examples.pendingTx))
  /\ holder Examples.fundedHistory ("bb", 1) = Some internalLockId
  /\ In (mkEvent (CallRemoveTransaction "pegin") true) (snd run)
  /\ releasesOf ("bb", 1) (snd run) = []
  /\ holder (snd run) ("bb", 1) = Some internalLockId
  /\ fst run = Fail (rpcError "input already locked").
Proof.
  vm_compute. repeat split; auto 10.
Qed.

Lemma BumpPeginFee_cpfp_flow_witness :
  fst (BumpPeginFee Examples.libs0 Examples.cpfpBackend Examples.cfg0 402 10
         [])
  = Ok (mkSentResult "" "pegin" 500000).
Proof.
  destruct (BumpPeginFee_cpfp_flow Examples.libs0 Examples.cpfpBackend
              Examples.cfg0 402 10 [] [Examples.pendingTx] Examples.pendingTx)
    as (_ & Hbump); [reflexivity..|].
  refine (proj1 (proj2 (Hbump _ 1 _ _)) eq_refl).
  - discriminate.
  - intros pre o post E Hpre Ho.
    destruct pre as [|x [|y pre]]; cbn in E.
    + injection E as <- _. now destruct Ho.
    + injection E as _ <- _. reflexivity.
    + injection E as _ _ E. now destruct pre.
  - intros Hall.
    now specialize (Hall _ (or_intror (or_introl eq_refl))).
Defined.

(** The loop run dry: every one of the 401 requests is rejected, the
    caller gets the last error, and the input is free again. *)
Example SendCoinsWithUtxos_exhaustion_example :
  let run := SendCoinsWithUtxos Examples.libs0 Examples.stingy Examples.cfg0
               402 ["aa:0"] "bc1qdest" 1000 5 true [] in
  fst run = Fail (rpcError "insufficient funds")
  /\ List.length (rawFundings (snd run)) = 402%nat
  /\ nth 1 (map fst (rawFundings (snd run))) [] = [("bc1qdest", 900)]
  /\ nth 2 (map fst (rawFundings (snd run))) [] = [("bc1qdest", 895)]
  /\ nth 401 (map fst (rawFundings (snd run))) [] = [("bc1qdest", 0)]
  /\ holder (snd run) ("aa", 0) = None.
Proof. vm_compute. repeat split. Qed.

(** * Further properties of the code *)

(** ** [SendCoinsWithUtxos] and [fundPsbt]: requests, amounts, failures *)

Section SendMore.

Variable L : Libs.
Variable be : Backend L.
Variable cfg : Config.

(** The inputs [fundPsbt] builds are the outpoints the entries name, in the
    order of the entries. *)
Lemma collectInputs_map utxos :
  forall acc inputs,
    collectInputs utxos acc = Ok inputs ->
    map Some inputs = map Some acc ++ map outpointOf utxos.
Proof.
  induction utxos as [|i rest IH]; intros acc inputs H; cbn [collectInputs] in H.
  - injection H as <-. cbn. now rewrite app_nil_r.
  - cbn [map]. unfold outpointOf at 1.
    destruct (nth_error (Split i ":") 1) as [p1|]; [|discriminate].
    destruct (Atoi p1) as [e|index]; [discriminate|].
    rewrite (IH _ _ H), map_app, <- app_assoc. reflexivity.
Qed.

Lemma collectInputs_bad pre x post :
  Forall (fun i => outpointOf i <> None) pre ->
  forall p1 e acc,
    nth_error (Split x ":") 1 = Some p1 -> Atoi p1 = inl e ->
    collectInputs (pre ++ x :: post) acc = Fail e.
Proof.
  induction 1 as [|i pre Hi _ IH]; intros p1 e acc Hp He; cbn [app collectInputs].
  - now rewrite Hp, He.
  - unfold outpointOf in Hi.
    destruct (nth_error (Split i ":") 1) as [q|]; [|now destruct Hi].
    destruct (Atoi q) as [e'|index]; [now destruct Hi|].
    now apply IH with (p1 := p1).
Qed.

Lemma filter_nofund evs :
  Forall (fun ev => isFund ev = false) evs -> filter isFund evs = [].
Proof.
  induction 1 as [|ev evs Hev _ IH]; [reflexivity|].
  cbn. now rewrite Hev.
Qed.

(** X1.  Without fee subtraction a run asks the wallet to fund at most
    once, and that request is a raw template whose inputs are the
    outpoints the caller's entries name, in order, whose only output pays
    [uint64(amount)] to the address, at the given fee rate, with one
    confirmation required, no unconfirmed inputs and a taproot change
    address. *)
Theorem SendCoinsWithUtxos_direct_funding
    (fuel : nat) (utxos : list string) (addr : string) (amount feeRate : Z)
    (tr tr' : Trace) (r : Res SentResult) :
  SendCoinsWithUtxos L be cfg fuel utxos addr amount feeRate false tr
    = (r, tr') ->
  exists evs,
    tr' = evs ++ tr
    /\ (filter isFund evs = []
        \/ exists inputs ok,
             map Some inputs = map outpointOf utxos
             /\ filter isFund evs
                = [mkEvent
                     (CallFundPsbt
                        (mkFundPsbtRequest
                           (TemplateRaw inputs [(addr, uint64 amount)])
                           feeRate 1 false CHANGE_ADDRESS_TYPE_P2TR)) ok]).
Proof.
  unfold SendCoinsWithUtxos. unfold bind at 1, lndConnection.
  set (cev := mkEvent CallConnect _).
  destruct (rpc_Connect be tr) as [e|].
  { intros [= <- <-]. exists [cev]. split; [reflexivity|]. now left. }
  cbn [andb]. unfold bind at 1, ret. unfold bind at 1, fundPsbt.
  unfold bind at 1, lift.
  destruct (collectInputs utxos []) as [inputs|e| |] eqn:Ein;
    try (intros [= <- <-]; exists [cev]; split; [reflexivity|]; now left).
  apply collectInputs_map in Ein. cbn [map app] in Ein.
  unfold bind at 1, FundPsbt. cbn [map_set filter].
  set (req := mkFundPsbtRequest _ feeRate 1 false _).
  set (fev := mkEvent (CallFundPsbt req) _).
  destruct (rpc_FundPsbt be (cev :: tr) req) as [e|psbt].
  { intros [= <- <-]. exists [fev; cev]. split; [reflexivity|].
    right. exists inputs, (is_inr (@inl error (list byte) e)).
    split; [exact Ein|reflexivity]. }
  intros Hrun.
  apply (finalizeAndPublish_spec L be) in Hrun as (_ & fin & -> & Hnf).
  exists (fin ++ [fev; cev]). rewrite <- app_assoc. split; [reflexivity|].
  right. exists inputs, true. split; [exact Ein|].
  rewrite filter_app, (filter_nofund _ Hnf). reflexivity.
Qed.

(** A successful run of lines 284-327 reports the amount it was given, or,
    with fee subtraction, the value of output 0 of the transaction it
    published. *)
Lemma finalizeAndPublish_amount utxos lockId psbtBytes sub finalAmount
    tr res tr' :
  finalizeAndPublish L be utxos lockId psbtBytes sub finalAmount tr
    = (Ok res, tr') ->
  exists rawTx msgTx older,
    tr' = mkEvent (CallPublishTransaction rawTx "Liquid Peg-in") true :: older
    /\ Deserialize L rawTx = inr msgTx
    /\ (if sub
        then exists out0 outs,
               TxOut_ msgTx = out0 :: outs /\ AmountSat res = Value out0
        else AmountSat res = finalAmount).
Proof.
  unfold finalizeAndPublish, bind, FinalizePsbt, PublishTransaction. cbn.
  destruct (rpc_FinalizePsbt be tr psbtBytes) as [e|rawTx].
  { cbn. unfold ignore, catch, bind, fail, ret.
    destruct (releaseOutputs _ _ _ _ _) as [[| | |] ?]; discriminate. }
  cbn. destruct (Deserialize L rawTx) as [e|msgTx] eqn:Edes; [discriminate|].
  cbn. destruct (rpc_PublishTransaction be _ rawTx _) as [e|reply].
  { cbn. unfold ignore, catch, bind, fail, ret.
    destruct (releaseOutputs _ _ _ _ _) as [[| | |] ?]; discriminate. }
  cbn. intros H.
  exists rawTx, msgTx, (mkEvent (CallFinalizePsbt psbtBytes) true :: tr).
  destruct sub.
  - destruct (TxOut_ msgTx) as [|out0 outs]; [discriminate|].
    cbn in H. injection H as <- <-.
    split; [reflexivity|]. split; [exact Edes|]. now exists out0, outs.
  - cbn in H. injection H as <- <-.
    split; [reflexivity|]. split; [exact Edes|reflexivity].
Qed.

(** X2.  The amount a successful run reports: without fee subtraction it
    is the amount requested; with fee subtraction it is the value of the
    first output of the transaction that was published, read from the
    local deserialization of the published bytes. *)
Theorem SendCoinsWithUtxos_reported_amount
    (fuel : nat) (utxos : list string) (addr : string) (amount feeRate : Z)
    (subtractFeeFromAmount : bool) (tr tr' : Trace) (res : SentResult) :
  SendCoinsWithUtxos L be cfg fuel utxos addr amount feeRate
    subtractFeeFromAmount tr = (Ok res, tr') ->
  exists rawTx msgTx older,
    tr' = mkEvent (CallPublishTransaction rawTx "Liquid Peg-in") true :: older
    /\ Deserialize L rawTx = inr msgTx
    /\ (if subtractFeeFromAmount
        then exists out0 outs,
               TxOut_ msgTx = out0 :: outs /\ AmountSat res = Value out0
        else AmountSat res = amount).
Proof.
  intros Hrun.
  assert (Hfin : exists lockId psbtBytes finalAmount tr1,
             finalizeAndPublish L be utxos lockId psbtBytes
               subtractFeeFromAmount finalAmount tr1 = (Ok res, tr')
             /\ (subtractFeeFromAmount = false -> finalAmount = amount)).
  { unfold SendCoinsWithUtxos in Hrun.
    apply bind_Ok_inv in Hrun as (c & tr1 & Hc & Hrun).
    destruct c; [discriminate|].
    destruct (subtractFeeFromAmount && _)%bool; [discriminate|].
    apply bind_Ok_inv in Hrun as (can & tr2 & Hcan & Hrun).
    destruct can.
    - apply bind_Ok_inv in Hrun as (psbt & tr3 & Hfund & Hrun).
      exists myLockId, psbt, amount, tr3. now split.
    - apply bind_Ok_inv in Hrun as (psbt & tr3 & Hfund & Hrun).
      destruct subtractFeeFromAmount.
      + apply bind_Ok_inv in Hrun as (f & tr4 & Hfee & Hrun).
        destruct f as [e|fee]; [discriminate|].
        apply bind_Ok_inv in Hrun as (v & tr5 & Hloop & Hrun).
        destruct (lv_err v).
        { unfold ignore, catch, bind, fail, ret in Hrun.
          destruct (releaseOutputs _ _ _ _ _) as [[| | |] ?]; discriminate. }
        exists internalLockId, (lv_psbtBytes v), (lv_finalAmount v), tr5.
        split; [exact Hrun|discriminate].
      + exists internalLockId, psbt, amount, tr3. now split. }
  destruct Hfin as (lockId & psbtBytes & finalAmount & tr1 & Hfin & Hamt).
  apply finalizeAndPublish_amount in Hfin
    as (rawTx & msgTx & older & -> & Hd & Hres).
  exists rawTx, msgTx, older. repeat split; [exact Hd|].
  destruct subtractFeeFromAmount; [exact Hres|].
  now rewrite Hres, Hamt.
Qed.

Section DirectRun.

Variable fuel : nat.
Variable utxos : list string.
Variable addr : string.
Variable amount feeRate : Z.
Variable tr : Trace.
Variable inputs : list OutPoint.
Variable psbtBytes : list byte.

Let request : FundPsbtRequest :=
  mkFundPsbtRequest (TemplateRaw inputs [(addr, uint64 amount)]) feeRate 1
    false CHANGE_ADDRESS_TYPE_P2TR.

(** The history once the connection is made and the funding accepted. *)
Let funded : Trace :=
  mkEvent (CallFundPsbt request) true :: mkEvent CallConnect true :: tr.

Hypothesis Hconn : rpc_Connect be tr = None.
Hypothesis Hinputs : collectInputs utxos [] = Ok inputs.
Hypothesis Hfund :
  rpc_FundPsbt be (mkEvent CallConnect true :: tr) request = inr psbtBytes.

Let run : Res SentResult * Trace :=
  SendCoinsWithUtxos L be cfg fuel utxos addr amount feeRate false tr.

Lemma SendCoinsWithUtxos_direct_run :
  run = finalizeAndPublish L be utxos internalLockId psbtBytes false amount
          funded.
Proof.
  unfold run, SendCoinsWithUtxos. unfold bind at 1, lndConnection.
  rewrite Hconn. cbn [is_None andb]. unfold bind at 1, ret.
  unfold bind at 1. rewrite (fundPsbt_run L be utxos feeRate inputs Hinputs).
  change (map_set [] addr (uint64 amount)) with [(addr, uint64 amount)].
  fold request. rewrite Hfund. reflexivity.
Qed.

Lemma funded_holds u op :
  In u utxos -> outpointOf u = Some op ->
  holder funded (key_of op) = Some internalLockId.
Proof.
  intros Hu Hop. unfold funded. cbn.
  assert (In op inputs) as Hin.
  { pose proof (collectInputs_map _ _ _ Hinputs) as Hmap. cbn in Hmap.
    assert (In (Some op) (map Some inputs)) as H.
    { rewrite Hmap, <- Hop. now apply in_map. }
    apply in_map_iff in H as (op' & [= ->] & H). exact H. }
  replace (existsb _ inputs) with true; [reflexivity|].
  symmetry. apply existsb_exists. exists op. split; [exact Hin|].
  apply key_eqb_refl.
Qed.

(** What a rejected signing or a rejected publication leaves: the error is
    returned, one pass of [releaseOutputs] under the internal identifier
    was made after the rejection and nothing else, and when that pass ends
    without error no outpoint of the list is held under that identifier. *)
Let cleaned (e : error) (t : Trace) : Prop :=
  fst run = Fail e
  /\ exists rel,
       snd run = rel ++ t
       /\ snd (releaseOutputs L be utxos internalLockId t) = rel ++ t
       /\ Forall (fun ev => isRelease ev = true) rel
       /\ (fst (releaseOutputs L be utxos internalLockId t) = Ok tt ->
           forall u op, In u utxos -> outpointOf u = Some op ->
             holder (snd run) (key_of op) <> Some internalLockId).

Lemma release_then_fail e t :
  (ignore (releaseOutputs L be utxos internalLockId) ;;; fail e) t = run ->
  cleaned e t.
Proof.
  intros Hrun. unfold cleaned. rewrite <- Hrun. clear Hrun.
  pose proof (collectInputs_wf _ _ _ Hinputs) as Hwf.
  unfold bind. rewrite ignore_run.
  destruct (releaseOutputs L be utxos internalLockId t) as [x t'] eqn:E.
  pose proof (releaseOutputs_wf_spec L be utxos internalLockId Hwf _ _ _ E)
    as (rel & -> & Hrel & Hx & Hfree).
  destruct Hx as [->|[e' ->]]; cbn [fst snd fail].
  - split; [reflexivity|]. exists rel. repeat split; [exact Hrel|].
    intros _. exact (Hfree eq_refl).
  - split; [reflexivity|]. exists rel. repeat split; [exact Hrel|].
    discriminate.
Qed.

(** X3.  Without fee subtraction, once the funding has been accepted: if
    the backend refuses to sign the PSBT, or signs it and then refuses to
    publish the transaction, the caller gets that error and the outpoints
    are released under the internal lock identifier; when the backend
    accepts those releases none of them stays locked.  Nothing is
    published in the first case. *)
Theorem SendCoinsWithUtxos_rejection_releases :
  (forall e,
     rpc_FinalizePsbt be funded psbtBytes = inl e ->
     cleaned e (mkEvent (CallFinalizePsbt psbtBytes) false :: funded))
  /\ (forall rawTx msgTx e,
        rpc_FinalizePsbt be funded psbtBytes = inr rawTx ->
        Deserialize L rawTx = inr msgTx ->
        rpc_PublishTransaction be
          (mkEvent (CallFinalizePsbt psbtBytes) true :: funded) rawTx
          "Liquid Peg-in" = inl e ->
        cleaned e
          (mkEvent (CallPublishTransaction rawTx "Liquid Peg-in") false
             :: mkEvent (CallFinalizePsbt psbtBytes) true :: funded)).
Proof.
  split.
  - intros e Hfin. apply release_then_fail.
    rewrite SendCoinsWithUtxos_direct_run.
    unfold finalizeAndPublish. unfold bind at 2, FinalizePsbt.
    now rewrite Hfin.
  - intros rawTx msgTx e Hfin Hdes Hpub. apply release_then_fail.
    rewrite SendCoinsWithUtxos_direct_run.
    unfold finalizeAndPublish. unfold bind at 2, FinalizePsbt.
    rewrite Hfin, Hdes. cbn [is_inr].
    unfold bind at 2, PublishTransaction. now rewrite Hpub.
Qed.

(** X4.  Without fee subtraction, once the funding has been accepted: if
    the signed transaction cannot be deserialized, the error is returned
    with nothing published and nothing released, so every outpoint of the
    list is still under the internal lock when the function returns. *)
Theorem SendCoinsWithUtxos_deserialize_failure_keeps_locks
    (rawTx : list byte) (e : error) :
  rpc_FinalizePsbt be funded psbtBytes = inr rawTx ->
  Deserialize L rawTx = inl e ->
  run = (Fail e, mkEvent (CallFinalizePsbt psbtBytes) true :: funded)
  /\ forall u op,
       In u utxos -> outpointOf u = Some op ->
       holder (snd run) (key_of op) = Some internalLockId.
Proof.
  intros Hfin Hdes.
  assert (Hrun : run = (Fail e,
                        mkEvent (CallFinalizePsbt psbtBytes) true :: funded)).
  { rewrite SendCoinsWithUtxos_direct_run.
    unfold finalizeAndPublish. unfold bind at 1, FinalizePsbt.
    now rewrite Hfin, Hdes. }
  split; [exact Hrun|]. intros u op Hu Hop. rewrite Hrun. cbn [snd].
  change (holder (mkEvent (CallFinalizePsbt psbtBytes) true :: funded)
            (key_of op)) with (holder funded (key_of op)).
  now apply funded_holds with (u := u).
Qed.

End DirectRun.

(** X5.  An entry whose index is not an integer, after well-formed
    entries, makes the run fail with the conversion error as soon as the
    connection is made: nothing is asked of the wallet.  This holds
    without fee subtraction and, with it, on a backend that is not
    RBF-capable. *)
Theorem SendCoinsWithUtxos_rejects_bad_index
    (fuel : nat) (pre post : list string) (x p1 : string) (e : error)
    (addr : string) (amount feeRate : Z) (subtractFeeFromAmount : bool)
    (tr : Trace) :
  rpc_Connect be tr = None ->
  Forall (fun i => outpointOf i <> None) pre ->
  nth_error (Split x ":") 1 = Some p1 ->
  Atoi p1 = inl e ->
  subtractFeeFromAmount = false
  \/ rpc_CanRBF be (mkEvent CallConnect true :: tr) = false ->
  SendCoinsWithUtxos L be cfg fuel (pre ++ x :: post) addr amount feeRate
    subtractFeeFromAmount tr
  = (Fail e, mkEvent CallConnect true :: tr).
Proof.
  intros Hconn Hpre Hp He Hmode.
  unfold SendCoinsWithUtxos. unfold bind at 1, lndConnection.
  rewrite Hconn. cbn [is_None].
  replace (subtractFeeFromAmount
           && (List.length (pre ++ x :: post) =? 0)%nat)%bool with false.
  2:{ rewrite length_app. cbn. rewrite Nat.add_succ_r.
      now destruct subtractFeeFromAmount. }
  unfold bind at 1.
  assert (Hcan : (if subtractFeeFromAmount then CanRBF L be else ret false)
                   (mkEvent CallConnect true :: tr)
                 = (Ok false, mkEvent CallConnect true :: tr)).
  { destruct Hmode as [->|Hcan]; [reflexivity|].
    destruct subtractFeeFromAmount; [|reflexivity].
    unfold CanRBF. now rewrite Hcan. }
  rewrite Hcan. unfold bind at 1, fundPsbt. unfold bind at 1, lift.
  now rewrite (collectInputs_bad pre x post Hpre p1 e [] Hp He).
Qed.

End SendMore.

(** ** [fundPsbtSpendAll]: the inputs of the transaction *)

Section SpendAllInputs.

Variable L : Libs.
Variable be : Backend L.
Variable cfg : Config.

(** The input [fundPsbtSpendAll] adds for an unspent output. *)
Let inputOf (utxo : Utxo) : TxIn :=
  mkTxIn (mkWireOutPoint (TxidBytes (utxo_Outpoint utxo))
            (OutputIndex (utxo_Outpoint utxo))).

(** A caller entry names the unspent output. *)
Let names (u : string) (utxo : Utxo) : Prop :=
  exists op, outpointOf u = Some op
             /\ key_of op = key_of (utxo_Outpoint utxo).

Lemma NewHash_inr b hash : NewHash b = inr hash -> hash = b.
Proof. unfold NewHash. destruct (_ =? _)%nat; congruence. Qed.

Lemma leaseMatching_inputs utxo strs :
  forall txin tr txin' tr',
    leaseMatching L be utxo strs txin tr = (Ok txin', tr') ->
    forall i, In i txin' <->
              In i txin \/ (i = inputOf utxo /\ exists u, In u strs /\ names u utxo).
Proof.
  induction strs as [|u rest IH]; intros txin tr txin' tr' Hrun i.
  - injection Hrun as <- <-. split; [now left|].
    intros [H|(_ & u & [] & _)]. exact H.
  - cbn [leaseMatching] in Hrun.
    destruct (nth_error (Split u ":") 1) as [p1|] eqn:Ep; [|discriminate].
    destruct (Atoi p1) as [e|index] eqn:Ea; [discriminate|].
    assert (Hnames : names u utxo <->
                     (String.eqb (TxidStr (utxo_Outpoint utxo))
                        (hd "" (Split u ":"))
                      && (OutputIndex (utxo_Outpoint utxo) =? uint32 index))%bool
                     = true).
    { unfold names, outpointOf. rewrite Ep, Ea. split.
      - intros (op & [= <-] & Hk). unfold key_of in Hk. cbn in Hk.
        injection Hk as -> ->. now rewrite String.eqb_refl, Z.eqb_refl.
      - intros H. apply andb_true_iff in H as [H1 H2].
        apply String.eqb_eq in H1. apply Z.eqb_eq in H2.
        eexists. split; [reflexivity|]. unfold key_of. cbn. congruence. }
    destruct (String.eqb _ _ && _)%bool.
    + destruct (NewHash _) as [e|hash] eqn:Eh; [discriminate|].
      apply NewHash_inr in Eh as ->.
      unfold bind, LeaseOutput in Hrun. cbn in Hrun.
      destruct (rpc_LeaseOutput be tr myLockId _ 10); [discriminate|].
      cbn in Hrun. rewrite (IH _ _ _ _ Hrun i), in_app_iff. cbn [In].
      fold (inputOf utxo). split.
      * intros [[H|[<-|[]]]|(Hi & u' & Hu' & Hn)].
        -- now left.
        -- right. split; [reflexivity|]. exists u. split; [now left|].
           now apply Hnames.
        -- right. split; [exact Hi|]. exists u'. split; [now right|exact Hn].
      * intros [H|(Hi & u' & [<-|Hu'] & Hn)].
        -- left. now left.
        -- left. right. left. now symmetry.
        -- right. split; [exact Hi|]. now exists u'.
    + rewrite (IH _ _ _ _ Hrun i). split.
      * intros [H|(Hi & u' & Hu' & Hn)]; [now left|].
        right. split; [exact Hi|]. exists u'. split; [now right|exact Hn].
      * intros [H|(Hi & u' & [<-|Hu'] & Hn)]; [now left| |].
        -- apply Hnames in Hn. discriminate.
        -- right. split; [exact Hi|]. now exists u'.
Qed.

Lemma leaseAll_inputs unspent strs :
  forall txin tr txin' tr',
    leaseAll L be unspent strs txin tr = (Ok txin', tr') ->
    forall i, In i txin' <->
              In i txin
              \/ exists utxo u, In utxo unspent /\ In u strs
                                /\ names u utxo /\ i = inputOf utxo.
Proof.
  induction unspent as [|utxo more IH]; intros txin tr txin' tr' Hrun i.
  - injection Hrun as <- <-. split; [now left|].
    intros [H|(utxo & _ & [] & _)]. exact H.
  - cbn [leaseAll] in Hrun. apply bind_Ok_inv in Hrun as (t1 & tr1 & H1 & H2).
    rewrite (IH _ _ _ _ H2 i), (leaseMatching_inputs _ _ _ _ _ _ H1 i).
    split.
    + intros [[H|(Hi & u & Hu & Hn)]|(utxo' & u & Hin & Hu & Hn & Hi)].
      * now left.
      * right. exists utxo, u. repeat split; auto. now left.
      * right. exists utxo', u. repeat split; auto. now right.
    + intros [H|(utxo' & u & [<-|Hin] & Hu & Hn & Hi)].
      * left. now left.
      * left. right. split; [exact Hi|]. now exists u.
      * right. now exists utxo', u.
Qed.

(** X6.  Whenever [fundPsbtSpendAll] asks for funding, the inputs of the
    transaction it hands over are exactly those unspent outputs of the
    wallet that some caller entry names, each with the transaction id
    bytes and index the wallet reported.  An entry that names no unspent
    output of the wallet adds nothing: it is dropped without an error. *)
Theorem fundPsbtSpendAll_inputs
    (utxoStrings : list string) (address : string) (feeRate : Z)
    (tr tr' : Trace) (r : Res (list byte)) :
  fundPsbtSpendAll L be cfg utxoStrings address feeRate tr = (r, tr') ->
  exists evs, tr' = evs ++ tr /\
    forall ev,
      In ev evs -> isFund ev = true ->
      exists unspent txin pkScript packet,
        rpc_ListUnspent be tr 1 = inr unspent
        /\ NewFromUnsignedTx L (mkMsgTx 2 txin [mkTxOut pkScript 1] 0)
           = inr packet
        /\ ev_call ev
           = CallFundPsbt
               (mkFundPsbtRequest
                  (TemplateCoinSelect (Serialize L packet)
                     (ExistingOutputIndex 0))
                  feeRate 0 false CHANGE_ADDRESS_TYPE_UNSPECIFIED)
        /\ forall i,
             In i txin <->
             exists utxo u,
               In utxo unspent /\ In u utxoStrings
               /\ names u utxo /\ i = inputOf utxo.
Proof.
  intros Hrun. unfold fundPsbtSpendAll in Hrun.
  unfold bind at 1 in Hrun. unfold ListUnspent in Hrun. cbn zeta in Hrun.
  set (lu := mkEvent (CallListUnspent 1) _) in Hrun.
  assert (Hnone : forall (evs : list Event) (Q : Event -> Prop),
             Forall (fun ev => isFund ev = false) evs ->
             forall ev, In ev evs -> isFund ev = true -> Q ev).
  { intros evs Q Hall ev Hin Hf. rewrite Forall_forall in Hall.
    rewrite (Hall ev Hin) in Hf. discriminate. }
  destruct (rpc_ListUnspent be tr 1) as [e|unspent] eqn:Elu.
  { injection Hrun as <- <-. exists [lu]. split; [reflexivity|].
    apply Hnone. now repeat constructor. }
  unfold bind at 1 in Hrun.
  destruct (leaseAll L be unspent utxoStrings _ (lu :: tr)) as [x tr1] eqn:El.
  pose proof (leaseAll_spec L be unspent utxoStrings _ _ _ _ El)
    as (lev & -> & Hnf & _).
  assert (Hquiet : Forall (fun ev => isFund ev = false) (lev ++ [lu])).
  { apply Forall_app. split; [exact Hnf|now repeat constructor]. }
  assert (Hstop : forall (y : Res (list byte)),
             (y, lev ++ lu :: tr) = (r, tr') ->
             exists evs, tr' = evs ++ tr /\
               forall ev, In ev evs -> isFund ev = true ->
                 exists unspent0 txin pkScript packet,
                   @inr error _ unspent = inr unspent0
                   /\ NewFromUnsignedTx L
                        (mkMsgTx 2 txin [mkTxOut pkScript 1] 0) = inr packet
                   /\ ev_call ev
                      = CallFundPsbt
                          (mkFundPsbtRequest
                             (TemplateCoinSelect (Serialize L packet)
                                (ExistingOutputIndex 0))
                             feeRate 0 false CHANGE_ADDRESS_TYPE_UNSPECIFIED)
                   /\ forall i,
                        In i txin <->
                        exists utxo u,
                          In utxo unspent0 /\ In u utxoStrings
                          /\ names u utxo /\ i = inputOf utxo).
  { intros y [= <- <-]. exists (lev ++ [lu]). rewrite <- app_assoc.
    split; [reflexivity|]. now apply Hnone. }
  destruct x as [txin| | |];
    [|exact (Hstop _ Hrun)|exact (Hstop _ Hrun)|exact (Hstop _ Hrun)].
  pose proof (leaseAll_inputs _ _ _ _ _ _ El) as Hin.
  destruct (DecodeAddress L address _) as [e|parsed]; [exact (Hstop _ Hrun)|].
  destruct (PayToAddrScript L parsed) as [e|pkScript];
    [exact (Hstop _ Hrun)|].
  cbn [NewMsgTx Version TxOut_ LockTime app] in Hrun.
  destruct (NewFromUnsignedTx L _) as [e|packet] eqn:En;
    [exact (Hstop _ Hrun)|].
  unfold bind at 1 in Hrun. unfold FundPsbt in Hrun. cbn zeta in Hrun.
  set (req0 := mkFundPsbtRequest _ feeRate 0 false _) in Hrun.
  set (fev := mkEvent (CallFundPsbt req0) _) in Hrun.
  assert (Hrel : exists rel, tr' = rel ++ fev :: lev ++ lu :: tr
                             /\ Forall (fun ev => isFund ev = false) rel).
  { destruct (rpc_FundPsbt be _ req0) as [e|psbt].
    - unfold bind in Hrun.
      destruct (ignore _ _) as [x tr2] eqn:Ei.
      apply (emits_ignore _ _ (releaseOutputs_nofund L be _ _)) in Ei
        as (rel & -> & Hrel).
      exists rel. split; [|exact Hrel].
      destruct x; now injection Hrun as _ <-.
    - injection Hrun as _ <-. now exists []. }
  destruct Hrel as (rel & -> & Hrel).
  exists (rel ++ fev :: lev ++ [lu]). split.
  { rewrite <- app_assoc. cbn. now rewrite <- app_assoc. }
  intros ev Hev Hf.
  apply in_app_or in Hev as [Hev|[<-|Hev]].
  - exfalso. rewrite Forall_forall in Hrel. rewrite (Hrel ev Hev) in Hf.
    discriminate.
  - exists unspent, txin, pkScript, packet.
    refine (conj eq_refl (conj En (conj eq_refl _))).
    intros i. rewrite (Hin i). cbn [TxIn_ NewMsgTx In]. split.
    + intros [[]|H]. exact H.
    + intros H. now right.
  - exfalso. rewrite Forall_forall in Hquiet. rewrite (Hquiet ev Hev) in Hf.
    discriminate.
Qed.

End SpendAllInputs.

(** ** [BumpPeginFee]: when the replacement is not attempted *)

Section BumpMore.

Variable L : Libs.
Variable be : Backend L.
Variable cfg : Config.

(** X7.  [BumpPeginFee] gives up before it touches a lock or asks for any
    funding or bump in three cases: the backend does not know the pending
    transaction (error "txid not found", after the one lookup); on an
    RBF-capable backend, the removal call fails (its error is returned);
    or the removal call answers with a status other than the expected
    success text (an error quoting that status is returned). *)
Theorem BumpPeginFee_gives_up_early (fuel : nat) (feeRate : Z) (tr : Trace) :
  let tr1 := mkEvent CallConnect true :: tr in
  let tr3 := mkEvent CallConnect true
               :: mkEvent CallGetTransactions true :: tr1 in
  rpc_Connect be tr = None ->
  (forall txs,
     rpc_GetTransactions be tr1 = inr txs ->
     (forall t, In t txs -> TxHash t <> PeginTxId cfg) ->
     BumpPeginFee L be cfg fuel feeRate tr
     = (Fail (errorsNew "txid not found"),
        mkEvent CallGetTransactions true :: tr1))
  /\ (forall txs tx,
        rpc_GetTransactions be tr1 = inr txs ->
        find (fun t => String.eqb (TxHash t) (PeginTxId cfg)) txs = Some tx ->
        rpc_Connect be (mkEvent CallGetTransactions true :: tr1) = None ->
        rpc_CanRBF be tr3 = true ->
        (forall err,
           rpc_RemoveTransaction be tr3 (PeginTxId cfg) = inl err ->
           BumpPeginFee L be cfg fuel feeRate tr
           = (Fail err,
              mkEvent (CallRemoveTransaction (PeginTxId cfg)) false :: tr3))
        /\ (forall status,
              rpc_RemoveTransaction be tr3 (PeginTxId cfg) = inr status ->
              status <> "Successfully removed transaction" ->
              BumpPeginFee L be cfg fuel feeRate tr
              = (Fail (errorsNew
                         ("cannot remove the previous transaction: "
                            ++ status)),
                 mkEvent (CallRemoveTransaction (PeginTxId cfg)) true
                   :: tr3))).
Proof.
  intros tr1 tr3 Hconn. split.
  - intros txs Htxs Hnone.
    unfold BumpPeginFee. unfold bind at 1, lndConnection. rewrite Hconn.
    cbn [is_None]. fold tr1.
    unfold bind at 1, getTransaction. unfold bind at 1, GetTransactions.
    rewrite Htxs. cbn [is_inr].
    rewrite find_absent; [reflexivity|].
    intros t Ht. apply String.eqb_neq. now apply Hnone.
  - intros txs tx Htxs Hfind Hconn2 Hcan.
    rewrite (BumpPeginFee_prepared L be cfg fuel feeRate tr txs tx
               Hconn Htxs Hfind Hconn2).
    fold tr1. fold tr3. rewrite Hcan. cbn [negb].
    split.
    + intros err Hrm. unfold bind at 1, RemoveTransaction.
      fold tr3. now rewrite Hrm.
    + intros status Hrm Hne. unfold bind at 1, RemoveTransaction.
      fold tr3. rewrite Hrm. cbn [is_inr].
      apply String.eqb_neq in Hne. now rewrite Hne.
Qed.

End BumpMore.

(** ** [liquidBackup], the peg-in check and [bumpfeeHandler], further *)

Section WebMore.

Variable env : Psweb.Env.

Ltac run_web' :=
  unfold Psweb.bind, Psweb.getConfig, Psweb.getChatId, Psweb.ask, Psweb.ret,
    Psweb.setConfig, Psweb.Save, Psweb.telegramSendMessage;
  cbn [Psweb.config Psweb.chatId Psweb.history fst snd].


(** X9.  When [liquidBackup] does nothing.  Without the Elements
    credentials or without a Telegram chat it returns at once and asks
    nobody anything.  When it is not forced, active swaps stop it right
    after the swap listing, and a balance equal to the recorded backup
    amount stops it right after the balance query. *)
Theorem liquidBackup_skips (s : Psweb.State) :
  let cfg := Psweb.config s in
  let h := Psweb.history s in
  (Psweb.ElementsPass cfg = "" \/ Psweb.ElementsUser cfg = ""
   \/ Psweb.chatId s = 0 ->
   forall force, snd (Psweb.liquidBackup env force s) = s)
  /\ (Psweb.ElementsPass cfg <> "" -> Psweb.ElementsUser cfg <> "" ->
      Psweb.chatId s <> 0 ->
      (forall swaps,
         Psweb.env_ListActiveSwaps env h = inr (S swaps) ->
         snd (Psweb.liquidBackup env false s)
         = Psweb.mkState cfg (Psweb.chatId s)
             (Psweb.EvListActiveSwaps true :: h))
      /\ (Psweb.env_ListActiveSwaps env h = inr 0%nat ->
          Psweb.env_LiquidGetBalance env (Psweb.EvListActiveSwaps true :: h)
          = inr (Psweb.ElementsBackupAmount cfg) ->
          snd (Psweb.liquidBackup env false s)
          = Psweb.mkState cfg (Psweb.chatId s)
              (Psweb.EvLiquidGetBalance true
                 :: Psweb.EvListActiveSwaps true :: h))).
Proof.
  cbv zeta.
  split.
  - intros Hskip force. unfold Psweb.liquidBackup. run_web'.
    replace ((Psweb.ElementsPass (Psweb.config s) =? "")%string
             || (Psweb.ElementsUser (Psweb.config s) =? "")%string
             || (Psweb.chatId s =? 0))%bool
      with true; [reflexivity|].
    symmetry. destruct Hskip as [H|[H|H]].
    + apply String.eqb_eq in H. now rewrite H.
    + apply String.eqb_eq in H. rewrite H. now rewrite orb_true_r.
    + apply Z.eqb_eq in H. rewrite H. now rewrite orb_true_r.
  - intros Hp Hu Hc.
    apply String.eqb_neq in Hp. apply String.eqb_neq in Hu.
    apply Z.eqb_neq in Hc.
    split.
    + intros swaps Hs. unfold Psweb.liquidBackup. run_web'.
      rewrite Hp, Hu, Hc. cbn. rewrite Hs. reflexivity.
    + intros Hs Hb. unfold Psweb.liquidBackup. run_web'.
      rewrite Hp, Hu, Hc. cbn. rewrite Hs. cbn. rewrite Hb. cbn.
      now rewrite Z.eqb_refl.
Qed.

(** X10.  After the peg-in check the pending id is empty exactly when it
    was empty before or the lookup reported at least 102 confirmations.
    With no pending id the check does nothing at all; below the threshold
    (the value -1 for an unknown transaction included) it makes the one
    lookup and leaves the configuration alone. *)
Theorem checkPegin_clears_iff (s : Psweb.State) :
  let t := Psweb.PeginTxId (Psweb.config s) in
  let confs := Psweb.env_GetTxConfirmations env (Psweb.history s) t in
  let s' := snd (Psweb.checkPegin env s) in
  (Psweb.PeginTxId (Psweb.config s') = "" <-> t = "" \/ 102 <= confs)
  /\ (t = "" -> s' = s)
  /\ (t <> "" -> confs < 102 ->
      s' = Psweb.mkState (Psweb.config s) (Psweb.chatId s)
             (Psweb.EvGetTxConfirmations t confs :: Psweb.history s)).
Proof.
  destruct s as [cfg chat h]. cbv zeta.
  cbn [Psweb.config Psweb.history Psweb.chatId].
  unfold Psweb.checkPegin. run_web'.
  destruct (Psweb.PeginTxId cfg =? "")%string eqn:Et; cbn.
  - apply String.eqb_eq in Et. repeat split; auto; congruence.
  - apply String.eqb_neq in Et.
    destruct (102 <=? Psweb.env_GetTxConfirmations env h (Psweb.PeginTxId cfg))
      eqn:Ec.
    + apply Z.leb_le in Ec.
      split; [|split; [congruence|lia]].
      split; [intros _; now right|intros _].
      destruct (Psweb.env_getRawTransaction env _ _) as [e|rawTx]; cbn;
        [reflexivity|].
      destruct (Psweb.env_claimPegin env _ _ _ _) as [e|x];
        [destruct (negb _)|]; reflexivity.
    + apply Z.leb_gt in Ec. cbn. repeat split; auto; try congruence.
      intros [H|H]; [congruence|lia].
Qed.

(** X11.  What the peg-in check tells the operator.  Unless it clears the
    pending id it sends no message.  When it clears the id it sends exactly
    one: the getrawtx failure when the raw transaction could not be
    fetched; otherwise the success message when the claim was accepted
    and also when the claim failed with the text
    "timeout reading data from server"; the claim failure for every other
    claim error. *)
Theorem checkPegin_report (s : Psweb.State) :
  let cfg := Psweb.config s in
  let t := Psweb.PeginTxId cfg in
  let confs := Psweb.env_GetTxConfirmations env (Psweb.history s) t in
  let h1 := Psweb.EvGetTxConfirmations t confs :: Psweb.history s in
  let h2 := Psweb.EvGetRawTransaction t true :: h1 in
  let s' := snd (Psweb.checkPegin env s) in
  let sent := PswebMore.telegramMessages (Psweb.history s') in
  let before := PswebMore.telegramMessages (Psweb.history s) in
  (t = "" \/ confs < 102 -> sent = before)
  /\ (t <> "" -> 102 <= confs ->
      sent
      = match Psweb.env_getRawTransaction env h1 t with
        | inl _ => "❗ Peg-In getrawtx FAILED! See log for details."
        | inr rawTx =>
            match Psweb.env_claimPegin env (Psweb.EvGetTxOutProof t :: h2)
                    rawTx (Psweb.env_getTxOutProof env h2 t)
                    (Psweb.PeginClaimScript cfg) with
            | inr _ => "💸 Peg-in success!"
            | inl err =>
                if (Error err =? "timeout reading data from server")%string
                then "💸 Peg-in success!"
                else "❗ Peg-in claim FAILED! See log for details."
            end
        end :: before).
Proof.
  destruct s as [cfg chat h]. cbv zeta.
  cbn [Psweb.config Psweb.history Psweb.chatId].
  unfold Psweb.checkPegin. run_web'.
  destruct (Psweb.PeginTxId cfg =? "")%string eqn:Et; cbn.
  { apply String.eqb_eq in Et. split; [reflexivity|congruence]. }
  apply String.eqb_neq in Et.
  destruct (102 <=? Psweb.env_GetTxConfirmations env h (Psweb.PeginTxId cfg))
    eqn:Ec.
  2:{ apply Z.leb_gt in Ec. cbn. split; [reflexivity|lia]. }
  apply Z.leb_le in Ec.
  split; [intros [H|H]; [congruence|lia]|intros _ _].
  destruct (Psweb.env_getRawTransaction env _ _) as [e|rawTx]; cbn;
    [reflexivity|].
  destruct (Psweb.env_claimPegin env _ _ _ _) as [e|x]; [|reflexivity].
  destruct (Error e =? _)%string; reflexivity.
Qed.

(** The index the handler picks is that of the first output whose amount
    differs from the peg-in amount; it is 0 when every output has that
    amount. *)
Lemma changeIndex_spec (amount : Z) (outputs : list Lnd.OutputDetail) :
  forall i,
    0 <= i -> i + Z.of_nat (List.length outputs) <= 4294967296 ->
    (Forall (fun o => Lnd.od_Amount o = amount) outputs
     /\ Psweb.changeIndex outputs amount i = 0)
    \/ exists pre o post,
         outputs = pre ++ o :: post
         /\ Forall (fun o => Lnd.od_Amount o = amount) pre
         /\ Lnd.od_Amount o <> amount
         /\ Psweb.changeIndex outputs amount i
            = i + Z.of_nat (List.length pre).
Proof.
  induction outputs as [|o outputs IH]; intros i Hi Hlen.
  - left. split; [constructor|reflexivity].
  - cbn [Psweb.changeIndex]. cbn [List.length] in Hlen.
    destruct (Lnd.od_Amount o =? amount) eqn:E; cbn [negb].
    + apply Z.eqb_eq in E.
      destruct (IH (i + 1)) as [[Hall Hz]|(pre & o' & post & -> & Hpre & Ho & Hidx)];
        [lia|lia| |].
      * left. split; [now constructor|exact Hz].
      * right. exists (o :: pre), o', post.
        refine (conj eq_refl (conj _ (conj Ho _))); [now constructor|].
        rewrite Hidx. cbn [List.length]. lia.
    + apply Z.eqb_neq in E. right. exists [], o, outputs.
      refine (conj eq_refl (conj _ (conj E _))); [constructor|].
      cbn [List.length] in *. unfold uint32.
      change (2 ^ 32) with 4294967296. rewrite Z.mod_small; lia.
Qed.

(** The index the handler picks is within the outputs whenever there are
    any. *)
Lemma changeIndex_bound (amount : Z) (outputs : list Lnd.OutputDetail) :
  forall i,
    0 <= i ->
    0 <= Psweb.changeIndex outputs amount i
    /\ (outputs <> [] ->
        Psweb.changeIndex outputs amount i
        < i + Z.of_nat (List.length outputs)).
Proof.
  induction outputs as [|o outputs IH]; intros i Hi.
  - cbn. split; [unfold uint32; cbn; lia|congruence].
  - cbn [Psweb.changeIndex List.length].
    destruct (negb _).
    + unfold uint32. change (2 ^ 32) with 4294967296.
      pose proof (Z.mod_pos_bound i 4294967296 ltac:(lia)).
      pose proof (Z.mod_le i 4294967296 Hi ltac:(lia)).
      split; [lia|intros _; lia].
    + destruct (IH (i + 1) ltac:(lia)) as [H0 Hlt].
      split; [exact H0|intros _].
      destruct outputs as [|o' outputs'].
      * cbn. unfold uint32. cbn. lia.
      * specialize (Hlt ltac:(congruence)). cbn [List.length] in *. lia.
Qed.

(** X12.  Which output [bumpfeeHandler] bumps.  A request either leads to
    no bump request at all, or to exactly one: for the pending peg-in, at
    the requested rate, and at the position of the first output of the
    transaction whose amount is not the peg-in amount.  When the backend
    accepts it the response is the redirect to /bitcoin and the recorded
    rate is the requested one cut to 32 bits; when the backend refuses
    it the configuration is as before. *)
Theorem bumpfeeHandler_bumps_first_change_output
    (r : Psweb.Request) (s : Psweb.State)
    (Hsmall : forall h txid tx,
        Psweb.env_GetTransaction env h txid = inr tx ->
        Z.of_nat (List.length (Lnd.OutputDetails tx)) <= 4294967296) :
  let run := Psweb.bumpfeeHandler env r s in
  let cfg := Psweb.config s in
  Psweb.bumpRequests (Psweb.history (snd run))
  = Psweb.bumpRequests (Psweb.history s)
  \/ exists fee tx pre o post ok,
       Psweb.Method r = "POST"
       /\ ParseUint (Psweb.FormValue_feeRate r) = inr fee
       /\ Psweb.PeginTxId cfg <> ""
       /\ Psweb.env_GetTransaction env (Psweb.history s) (Psweb.PeginTxId cfg)
          = inr tx
       /\ Lnd.OutputDetails tx = pre ++ o :: post
       /\ Forall (fun o => Lnd.od_Amount o = Psweb.PeginAmount cfg) pre
       /\ Lnd.od_Amount o <> Psweb.PeginAmount cfg
       /\ Psweb.bumpRequests (Psweb.history (snd run))
          = (Psweb.PeginTxId cfg, Z.of_nat (List.length pre), fee, ok)
              :: Psweb.bumpRequests (Psweb.history s)
       /\ (if ok
           then fst run = Ok (Psweb.Redirect "/bitcoin" 303)
                /\ Psweb.config (snd run)
                   = Psweb.set_PeginFeeRate cfg (uint32 fee)
           else Psweb.config (snd run) = cfg).
Proof.
  destruct s as [cfg chat h].
  destruct cfg as [txid amount rate0 script user pass wallet backup dir].
  cbv zeta. unfold Psweb.bumpfeeHandler.
  destruct (Psweb.Method r =? "POST")%string eqn:Em; [|now left].
  apply String.eqb_eq in Em.
  destruct (Psweb.ParseForm r); [now left|].
  destruct (ParseUint _) as [e|fee] eqn:Ef; [now left|].
  unfold Psweb.bind, Psweb.getConfig, Psweb.ask, Psweb.ret, Psweb.setConfig,
    Psweb.Save, Psweb.panic, Psweb.set_PeginFeeRate.
  cbv beta iota zeta
    delta [Psweb.config Psweb.chatId Psweb.history Psweb.PeginTxId
           Psweb.PeginAmount fst snd].
  destruct (txid =? "")%string eqn:Et; [now left|].
  apply String.eqb_neq in Et.
  destruct (Psweb.env_GetTransaction env h txid) as [e|tx] eqn:Etx;
    [now left|].
  pose proof (Hsmall _ _ _ Etx) as Hlen.
  destruct (changeIndex_spec amount (Lnd.OutputDetails tx) 0 ltac:(lia)
              ltac:(lia))
    as [[Hall Hz]|(pre & o & post & Hout & Hpre & Ho & Hidx)].
  - rewrite Hz. cbn [Z.to_nat].
    destruct (Lnd.OutputDetails tx) as [|o outs]; cbn [nth_error];
      [now left|].
    inversion Hall as [|? ? Ha _]; subst.
    rewrite Z.eqb_refl. now left.
  - rewrite Hidx, Z.add_0_l, Nat2Z.id, Hout.
    rewrite nth_error_app2, Nat.sub_diag by lia. cbn [nth_error].
    apply Z.eqb_neq in Ho. rewrite Ho. apply Z.eqb_neq in Ho.
    assert (Hu : uint32 (Z.of_nat (List.length pre))
                 = Z.of_nat (List.length pre)).
    { unfold uint32. change (2 ^ 32) with 4294967296.
      apply Z.mod_small. rewrite Hout in Hlen.
      rewrite length_app in Hlen. cbn [List.length] in Hlen. lia. }
    rewrite Hu.
    right. exists fee, tx, pre, o, post.
    destruct (Psweb.env_BumpFee env _ _ _ _) as [e|].
    + exists false. cbn. now repeat split.
    + exists true. cbn. now repeat split.
Qed.

(** X13.  [bumpfeeHandler] panics in one case only: the request got as far
    as reading the pending transaction, and the transaction it read
    lists no outputs (the handler indexes its first output without a
    length check). *)
Theorem bumpfeeHandler_panics_iff_no_outputs
    (r : Psweb.Request) (s : Psweb.State) :
  fst (Psweb.bumpfeeHandler env r s) = Panic
  <-> (Psweb.Method r = "POST" /\ Psweb.ParseForm r = None
       /\ Psweb.PeginTxId (Psweb.config s) <> ""
       /\ exists fee tx,
            ParseUint (Psweb.FormValue_feeRate r) = inr fee
            /\ Psweb.env_GetTransaction env (Psweb.history s)
                 (Psweb.PeginTxId (Psweb.config s)) = inr tx
            /\ Lnd.OutputDetails tx = []).
Proof.
  destruct s as [cfg chat h].
  destruct cfg as [txid amount rate0 script user pass wallet backup dir].
  unfold Psweb.bumpfeeHandler.
  cbv beta iota zeta
    delta [Psweb.config Psweb.chatId Psweb.history Psweb.PeginTxId
           Psweb.PeginAmount fst snd].
  destruct (Psweb.Method r =? "POST")%string eqn:Em.
  2:{ apply String.eqb_neq in Em. cbn. split; [discriminate|tauto]. }
  apply String.eqb_eq in Em.
  destruct (Psweb.ParseForm r) as [e|].
  { cbn. split; [discriminate|]. intros (_ & H & _). discriminate. }
  destruct (ParseUint _) as [e|fee] eqn:Ef.
  { cbn. split; [discriminate|].
    intros (_ & _ & _ & fee & tx & H & _). discriminate. }
  unfold Psweb.bind, Psweb.getConfig, Psweb.ask, Psweb.ret, Psweb.setConfig,
    Psweb.Save, Psweb.panic, Psweb.set_PeginFeeRate.
  cbv beta iota zeta
    delta [Psweb.config Psweb.chatId Psweb.history Psweb.PeginTxId
           Psweb.PeginAmount fst snd].
  destruct (txid =? "")%string eqn:Et.
  { apply String.eqb_eq in Et. split; [discriminate|].
    intros (_ & _ & H & _). contradiction. }
  apply String.eqb_neq in Et.
  destruct (Psweb.env_GetTransaction env h txid) as [e|tx] eqn:Etx.
  { split; [discriminate|].
    intros (_ & _ & _ & fee' & tx & _ & H & _). discriminate. }
  destruct (Lnd.OutputDetails tx) as [|o outs] eqn:Eout.
  - cbn. split; [intros _|reflexivity].
    repeat split; auto. exists fee, tx. repeat split; auto.
  - destruct (changeIndex_bound amount (o :: outs) 0 ltac:(lia))
      as [H0 Hlt].
    specialize (Hlt ltac:(congruence)).
    destruct (nth_error (o :: outs) _) as [output|] eqn:En.
    + destruct (Lnd.od_Amount output =? amount).
      * split; [discriminate|].
        intros (_ & _ & _ & fee' & tx' & _ & H & H'). congruence.
      * destruct (Psweb.env_BumpFee env _ _ _ _);
          (split; [discriminate|]);
          intros (_ & _ & _ & fee' & tx' & _ & H & H'); congruence.
    + apply nth_error_None in En. lia.
Qed.

End WebMore.

(** ** Routing statistics *)

Section ForwardingStats.

Import Forwarding.

Lemma uint64_add_l a b : uint64 (uint64 a + b) = uint64 (a + b).
Proof. unfold uint64. now rewrite Zplus_mod_idemp_l. Qed.

Lemma uint64_range a : 0 <= uint64 a < 2 ^ 64.
Proof. unfold uint64. apply Z.mod_pos_bound. lia. Qed.

Lemma int64_congr a b : a mod 2 ^ 64 = b mod 2 ^ 64 -> int64 a = int64 b.
Proof.
  intros H. unfold int64. f_equal.
  rewrite (Zplus_mod a), H, <- Zplus_mod. reflexivity.
Qed.

Lemma int64_mod a : int64 a mod 2 ^ 64 = a mod 2 ^ 64.
Proof.
  unfold int64. rewrite Zminus_mod, Z.mod_mod, <- Zminus_mod by lia.
  f_equal. lia.
Qed.

Lemma int64_add a b : int64 (int64 a + int64 b) = int64 (a + b).
Proof.
  apply int64_congr. now rewrite Zplus_mod, !int64_mod, <- Zplus_mod.
Qed.

Lemma int64_sub a b : int64 (int64 a - int64 b) = int64 (a - b).
Proof.
  apply int64_congr. now rewrite Zminus_mod, !int64_mod, <- Zminus_mod.
Qed.

Lemma total_snoc f p evs e :
  total f p (evs ++ [e]) = total f p evs + (if p e then f e else 0).
Proof.
  induction evs as [|x evs IH]; cbn [total app]; [lia|]. rewrite IH. lia.
Qed.

Lemma total_app f p a b : total f p (a ++ b) = total f p a + total f p b.
Proof.
  induction a as [|x a IH]; cbn [total app]; [lia|]. rewrite IH. lia.
Qed.

(** Over non-negative values a narrower selection gives a smaller sum. *)
Lemma total_mono f (p q : ForwardingEvent -> bool) evs :
  Forall (fun e => 0 <= f e) evs ->
  (forall e, p e = true -> q e = true) ->
  0 <= total f p evs <= total f q evs.
Proof.
  intros Hpos Hpq. induction Hpos as [|e evs He _ IH]; cbn [total]; [lia|].
  destruct (p e) eqn:Ep; [rewrite (Hpq e Ep)|destruct (q e)]; lia.
Qed.

Variables unix7d unix30d unix6m channelId : Z.

Let t6 (e : ForwardingEvent) : bool :=
  timestamp6m unix6m <? TimestampNs e.
Let t30 (e : ForwardingEvent) : bool :=
  t6 e && (timestamp30d unix30d <? TimestampNs e).
Let t7 (e : ForwardingEvent) : bool :=
  t30 e && (timestamp7d unix7d <? TimestampNs e).
Let outOf (w : ForwardingEvent -> bool) (e : ForwardingEvent) : bool :=
  (ChanIdOut e =? channelId) && w e.
Let inOf (w : ForwardingEvent -> bool) (e : ForwardingEvent) : bool :=
  (ChanIdIn e =? channelId) && w e.

(** One round of the loop, field by field. *)
Lemma stats_step (e : ForwardingEvent)
    (o7 o30 o6 i7 i30 i6 f7 a7 f30 a30 f6 a6 : Z) :
  let add (b : bool) (acc x : Z) := if b then uint64 (acc + x) else acc in
  countIn unix7d unix30d unix6m channelId e
    (countOut unix7d unix30d unix6m channelId e
       (mkVars o7 o30 o6 i7 i30 i6 f7 a7 f30 a30 f6 a6))
  = mkVars
      (add (outOf t7 e) o7 (AmtOut e)) (add (outOf t30 e) o30 (AmtOut e))
      (add (outOf t6 e) o6 (AmtOut e))
      (add (inOf t7 e) i7 (AmtIn e)) (add (inOf t30 e) i30 (AmtIn e))
      (add (inOf t6 e) i6 (AmtIn e))
      (add (outOf t7 e) f7 (FeeMsat e)) (add (inOf t7 e) a7 (FeeMsat e))
      (add (outOf t30 e) f30 (FeeMsat e)) (add (inOf t30 e) a30 (FeeMsat e))
      (add (outOf t6 e) f6 (FeeMsat e)) (add (inOf t6 e) a6 (FeeMsat e)).
Proof.
  cbv zeta. unfold outOf, inOf, t7, t30, t6, countOut.
  cbn [out7d out30d out6m in7d in30d in6m feeMsat7d assistedMsat7d
       feeMsat30d assistedMsat30d feeMsat6m assistedMsat6m].
  unfold countIn.
  destruct (ChanIdOut e =? channelId), (ChanIdIn e =? channelId),
    (timestamp6m unix6m <? TimestampNs e),
    (timestamp30d unix30d <? TimestampNs e),
    (timestamp7d unix7d <? TimestampNs e);
    cbn [andb out7d out30d out6m in7d in30d in6m feeMsat7d assistedMsat7d
         feeMsat30d assistedMsat30d feeMsat6m assistedMsat6m];
    reflexivity.
Qed.

Lemma uint64_total_snoc (b : bool) (S x : Z) :
  (if b then uint64 (uint64 S + x) else uint64 S)
  = uint64 (S + (if b then x else 0)).
Proof.
  destruct b; [apply uint64_add_l|now rewrite Z.add_0_r].
Qed.

(** What the loop variables hold after the loop. *)
Lemma statsLoop_sums (evs : list ForwardingEvent) :
  statsLoop unix7d unix30d unix6m channelId evs zeroVars
  = mkVars
      (uint64 (total AmtOut (outOf t7) evs))
      (uint64 (total AmtOut (outOf t30) evs))
      (uint64 (total AmtOut (outOf t6) evs))
      (uint64 (total AmtIn (inOf t7) evs))
      (uint64 (total AmtIn (inOf t30) evs))
      (uint64 (total AmtIn (inOf t6) evs))
      (uint64 (total FeeMsat (outOf t7) evs))
      (uint64 (total FeeMsat (inOf t7) evs))
      (uint64 (total FeeMsat (outOf t30) evs))
      (uint64 (total FeeMsat (inOf t30) evs))
      (uint64 (total FeeMsat (outOf t6) evs))
      (uint64 (total FeeMsat (inOf t6) evs)).
Proof.
  induction evs as [|e evs IH] using rev_ind; [reflexivity|].
  unfold statsLoop in *. rewrite fold_left_app. cbn [fold_left].
  rewrite IH, stats_step. cbv zeta.
  rewrite !total_snoc, !uint64_total_snoc. reflexivity.
Qed.

(** X14.  [GetForwardingStats] against sums.  Every amount is the sum,
    cut to 64 bits, of the amounts of the events that left (or entered)
    through the channel inside the window, and every fee is the sum of
    the fees in millisatoshi, cut to 64 bits and then divided by 1000
    rounding down.  The 30 day window only counts events also newer than
    the 6 month mark, and the 7 day window only events newer than both
    other marks. *)
Theorem GetForwardingStats_sums (evs : list ForwardingEvent) :
  let r := GetForwardingStats unix7d unix30d unix6m channelId evs in
  (AmountOut7d r = uint64 (total AmtOut (outOf t7) evs)
   /\ AmountOut30d r = uint64 (total AmtOut (outOf t30) evs)
   /\ AmountOut6m r = uint64 (total AmtOut (outOf t6) evs))
  /\ (AmountIn7d r = uint64 (total AmtIn (inOf t7) evs)
      /\ AmountIn30d r = uint64 (total AmtIn (inOf t30) evs)
      /\ AmountIn6m r = uint64 (total AmtIn (inOf t6) evs))
  /\ (FeeSat7d r = uint64 (total FeeMsat (outOf t7) evs) / 1000
      /\ FeeSat30d r = uint64 (total FeeMsat (outOf t30) evs) / 1000
      /\ FeeSat6m r = uint64 (total FeeMsat (outOf t6) evs) / 1000)
  /\ (AssistedFeeSat7d r = uint64 (total FeeMsat (inOf t7) evs) / 1000
      /\ AssistedFeeSat30d r = uint64 (total FeeMsat (inOf t30) evs) / 1000
      /\ AssistedFeeSat6m r = uint64 (total FeeMsat (inOf t6) evs) / 1000).
Proof.
  cbv zeta. unfold GetForwardingStats. rewrite statsLoop_sums.
  cbn [out7d out30d out6m in7d in30d in6m feeMsat7d assistedMsat7d
       feeMsat30d assistedMsat30d feeMsat6m assistedMsat6m
       AmountOut7d AmountOut30d AmountOut6m AmountIn7d AmountIn30d
       AmountIn6m FeeSat7d AssistedFeeSat7d FeeSat30d AssistedFeeSat30d
       FeeSat6m AssistedFeeSat6m].
  repeat split.
Qed.

(** X15.  The windows nest.  When the amounts and fees of the events are
    non-negative and their sums over all events stay below 2^64, the
    7 day figure is at most the 30 day figure, which is at most the
    6 month figure: for the amounts out and in, for the fees earned and
    for the fees assisted. *)
Theorem GetForwardingStats_windows_nest (evs : list ForwardingEvent)
    (Hpos : Forall (fun e => 0 <= AmtIn e /\ 0 <= AmtOut e /\ 0 <= FeeMsat e)
              evs)
    (Hout : total AmtOut (fun _ => true) evs < 2 ^ 64)
    (Hin : total AmtIn (fun _ => true) evs < 2 ^ 64)
    (Hfee : total FeeMsat (fun _ => true) evs < 2 ^ 64) :
  let r := GetForwardingStats unix7d unix30d unix6m channelId evs in
  (0 <= AmountOut7d r <= AmountOut30d r /\ AmountOut30d r <= AmountOut6m r)
  /\ (0 <= AmountIn7d r <= AmountIn30d r /\ AmountIn30d r <= AmountIn6m r)
  /\ (0 <= FeeSat7d r <= FeeSat30d r /\ FeeSat30d r <= FeeSat6m r)
  /\ (0 <= AssistedFeeSat7d r <= AssistedFeeSat30d r
      /\ AssistedFeeSat30d r <= AssistedFeeSat6m r).
Proof.
  cbv zeta. unfold GetForwardingStats. rewrite statsLoop_sums.
  cbn [out7d out30d out6m in7d in30d in6m feeMsat7d assistedMsat7d
       feeMsat30d assistedMsat30d feeMsat6m assistedMsat6m
       AmountOut7d AmountOut30d AmountOut6m AmountIn7d AmountIn30d
       AmountIn6m FeeSat7d AssistedFeeSat7d FeeSat30d AssistedFeeSat30d
       FeeSat6m AssistedFeeSat6m].
  assert (Hi : Forall (fun e => 0 <= AmtIn e) evs)
    by (eapply Forall_impl; [|exact Hpos]; cbn; tauto).
  assert (Ho : Forall (fun e => 0 <= AmtOut e) evs)
    by (eapply Forall_impl; [|exact Hpos]; cbn; tauto).
  assert (Hf : Forall (fun e => 0 <= FeeMsat e) evs)
    by (eapply Forall_impl; [|exact Hpos]; cbn; tauto).
  assert (Hnest : forall f side,
             (side = outOf \/ side = inOf) ->
             Forall (fun e => 0 <= f e) evs ->
             total f (fun _ => true) evs < 2 ^ 64 ->
             0 <= uint64 (total f (side t7) evs)
               <= uint64 (total f (side t30) evs)
             /\ uint64 (total f (side t30) evs)
                <= uint64 (total f (side t6) evs)).
  { intros f side Hside Hfpos Hsum.
    assert (H7 : 0 <= total f (side t7) evs <= total f (side t30) evs).
    { apply total_mono; [exact Hfpos|]. intros e.
      destruct Hside as [-> | ->]; unfold outOf, inOf, t7;
        rewrite !andb_true_iff; tauto. }
    assert (H30 : 0 <= total f (side t30) evs <= total f (side t6) evs).
    { apply total_mono; [exact Hfpos|]. intros e.
      destruct Hside as [-> | ->]; unfold outOf, inOf, t30;
        rewrite !andb_true_iff; tauto. }
    assert (H6 : 0 <= total f (side t6) evs <= total f (fun _ => true) evs).
    { apply total_mono; [exact Hfpos|]. reflexivity. }
    unfold uint64. rewrite !Z.mod_small by lia. lia. }
  destruct (Hnest AmtOut outOf (or_introl eq_refl) Ho Hout) as [A1 A2].
  destruct (Hnest AmtIn inOf (or_intror eq_refl) Hi Hin) as [B1 B2].
  destruct (Hnest FeeMsat outOf (or_introl eq_refl) Hf Hfee) as [C1 C2].
  destruct (Hnest FeeMsat inOf (or_intror eq_refl) Hf Hfee) as [D1 D2].
  repeat split; try lia; try (apply Z.div_pos; lia);
    apply Z.div_le_mono; lia.
Qed.

(** The net flow as a difference of sums. *)
Lemma netFlow_sums (timestampNs : Z) (evs : list ForwardingEvent) :
  let w e := timestampNs <? TimestampNs e in
  fold_left (netFlowStep channelId timestampNs) evs 0
  = int64 (total AmtIn (inOf w) evs - total AmtOut (outOf w) evs).
Proof.
  cbv zeta.
  induction evs as [|e evs IH] using rev_ind; [reflexivity|].
  rewrite fold_left_app. cbn [fold_left]. rewrite IH, !total_snoc.
  unfold netFlowStep, outOf, inOf.
  set (I := total AmtIn _ evs). set (O := total AmtOut _ evs).
  destruct (ChanIdOut e =? channelId), (ChanIdIn e =? channelId),
    (timestampNs <? TimestampNs e); cbn [andb];
    rewrite ?int64_sub, ?int64_add, ?Z.add_0_r; f_equal; lia.
Qed.

(** X16.  [GetNetFlow] and [GetForwardingStats] agree.  Asked for the
    same channel with the 6 month mark as the time stamp, the net flow
    is the 6 month amount in minus the 6 month amount out, read as a
    signed 64-bit number. *)
Theorem GetNetFlow_is_in_minus_out (evs : list ForwardingEvent) :
  let r := GetForwardingStats unix7d unix30d unix6m channelId evs in
  GetNetFlow evs channelId (uint64 unix6m)
  = int64 (AmountIn6m r - AmountOut6m r).
Proof.
  cbv zeta. unfold GetNetFlow, GetForwardingStats.
  rewrite statsLoop_sums, netFlow_sums.
  cbn [out6m in6m AmountIn6m AmountOut6m].
  apply int64_congr. unfold t6, timestamp6m.
  set (I := total AmtIn _ evs). set (O := total AmtOut _ evs).
  unfold uint64. now rewrite <- Zminus_mod.
Qed.

(** X17.  Only the events of the channel count: dropping every event that
    neither entered nor left through the channel changes neither the
    statistics nor the net flow. *)
Theorem stats_ignore_other_channels (evs : list ForwardingEvent)
    (timeStamp : Z) :
  let mine e := (ChanIdIn e =? channelId) || (ChanIdOut e =? channelId) in
  GetForwardingStats unix7d unix30d unix6m channelId (filter mine evs)
  = GetForwardingStats unix7d unix30d unix6m channelId evs
  /\ GetNetFlow (filter mine evs) channelId timeStamp
     = GetNetFlow evs channelId timeStamp.
Proof.
  cbv zeta. unfold GetForwardingStats, GetNetFlow, statsLoop. split.
  - generalize zeroVars. induction evs as [|e evs IH]; intros v;
      [reflexivity|].
    cbn [filter fold_left].
    destruct (ChanIdIn e =? channelId) eqn:Ei,
      (ChanIdOut e =? channelId) eqn:Eo; cbn [orb fold_left];
      try (now rewrite IH).
    assert (Hout : forall v', countOut unix7d unix30d unix6m channelId e v'
                               = v')
      by (intros v'; unfold countOut; now rewrite Eo).
    assert (Hin : forall v', countIn unix7d unix30d unix6m channelId e v'
                              = v')
      by (intros v'; unfold countIn; now rewrite Ei).
    now rewrite Hout, Hin, IH.
  - generalize 0. induction evs as [|e evs IH]; intros v; [reflexivity|].
    cbn [filter fold_left].
    destruct (ChanIdIn e =? channelId) eqn:Ei,
      (ChanIdOut e =? channelId) eqn:Eo; cbn [orb fold_left];
      try (now rewrite IH).
    unfold netFlowStep. now rewrite Ei, Eo, IH.
Qed.

End ForwardingStats.

(** ** [FetchForwardingStats] *)

Section Fetch.

Import Forwarding.





End Fetch.

(** ** The log endpoint *)

Section LogApiProps.

Import GoMore LogApi.

(** The handler on a readable log, by position. *)
Lemma logApiHandler_readable (w : World) (content : list byte)
    (key : string) (p : Z) :
  readable w content ->
  query w "pos" = Some key ->
  ParseInt key = inr p ->
  let size := Z.of_nat (List.length content) in
  logApiHandler w
  = ResponseData size
      (if (0 <? p) && (p <? size) then
         let text := skipn (Z.to_nat p) content in
         if (p =? 1) && (10000 <? Z.of_nat (List.length text))
         then skipn (Z.to_nat (Z.of_nat (List.length text) - 10000)) text
         else text
       else []).
Proof.
  intros Hread Hq Hp. cbv zeta. unfold logApiHandler. rewrite Hq.
  destruct (String.length key <? 1)%nat eqn:El.
  { destruct key; [discriminate Hp|discriminate El]. }
  rewrite Hp, Hread. cbn [statFails seekFails readFails bytes].
  destruct ((0 <? p) && _); reflexivity.
Qed.

(** X19.  What a poll of a readable log returns.  The next position is
    the size of the file.  The text is a stretch at the end of the file:
    nothing for a position that is not positive or not below the size;
    everything from the position on for a position above 1; and for
    position 1 everything but the first byte, cut to its last 10000
    bytes. *)
Theorem logApiHandler_returns_tail (w : World) (content : list byte)
    (key : string) (p : Z)
    (Hread : readable w content)
    (Hq : query w "pos" = Some key)
    (Hp : ParseInt key = inr p) :
  let size := Z.of_nat (List.length content) in
  exists skipped text,
    logApiHandler w = ResponseData size text
    /\ content = skipped ++ text
    /\ (p <= 0 \/ size <= p -> text = [])
    /\ (1 < p < size -> Z.of_nat (List.length skipped) = p)
    /\ (p = 1 -> 1 < size ->
        Z.of_nat (List.length skipped) = Z.max 1 (size - 10000)).
Proof.
  cbv zeta.
  rewrite (logApiHandler_readable w content key p Hread Hq Hp). cbv zeta.
  set (size := Z.of_nat (List.length content)).
  destruct ((0 <? p) && (p <? size)) eqn:Ein.
  - apply andb_true_iff in Ein. destruct Ein as [H0 Hs].
    apply Z.ltb_lt in H0. apply Z.ltb_lt in Hs.
    set (text := skipn (Z.to_nat p) content).
    assert (Htext : Z.of_nat (List.length text) = size - p).
    { unfold text. rewrite length_skipn. unfold size. lia. }
    destruct ((p =? 1) && (10000 <? Z.of_nat (List.length text))) eqn:Ecap.
    + apply andb_true_iff in Ecap. destruct Ecap as [H1 Hbig].
      apply Z.eqb_eq in H1. apply Z.ltb_lt in Hbig.
      exists (firstn (Z.to_nat p) content
              ++ firstn (Z.to_nat (Z.of_nat (List.length text) - 10000)) text),
        (skipn (Z.to_nat (Z.of_nat (List.length text) - 10000)) text).
      split; [reflexivity|].
      split.
      { rewrite <- app_assoc, firstn_skipn. unfold text.
        now rewrite firstn_skipn. }
      split; [lia|]. split; [lia|].
      intros _ _. rewrite length_app, !length_firstn. fold size. lia.
    + exists (firstn (Z.to_nat p) content), text.
      split; [reflexivity|].
      split; [unfold text; now rewrite firstn_skipn|].
      split; [lia|].
      rewrite length_firstn. fold size.
      split; [lia|]. intros H1 Hs1.
      apply andb_false_iff in Ecap. destruct Ecap as [Ecap|Ecap].
      * apply Z.eqb_neq in Ecap. lia.
      * apply Z.ltb_ge in Ecap. lia.
  - exists content, []. rewrite app_nil_r.
    split; [reflexivity|]. split; [reflexivity|].
    apply andb_false_iff in Ein.
    split; [reflexivity|].
    destruct Ein as [E|E]; [apply Z.ltb_ge in E|apply Z.ltb_ge in E];
      split; lia.
Qed.

(** X20.  Following a growing log.  A client that polls again with the
    next position it was given, after [added] was appended to a log that
    held [old], gets exactly [added] when [old] had more than one byte.
    After a log of exactly one byte it gets the last 10000 bytes of
    [added] at most.  After an empty log it gets nothing: what was added
    is skipped, and the next position moves past it. *)
Theorem logApiHandler_follows_appends (w : World) (old added : list byte)
    (key : string)
    (Hread : readable w (old ++ added))
    (Hq : query w "pos" = Some key)
    (Hp : ParseInt key = inr (Z.of_nat (List.length old))) :
  logApiHandler w
  = ResponseData (Z.of_nat (List.length (old ++ added)))
      (match old with
       | [] => []
       | [_] =>
           skipn (Z.to_nat (Z.of_nat (List.length added) - 10000)) added
       | _ => added
       end).
Proof.
  rewrite (logApiHandler_readable w (old ++ added) key _ Hread Hq Hp).
  cbv zeta. f_equal.
  rewrite length_app, Nat2Z.id.
  assert (Hskip : skipn (List.length old) (old ++ added) = added).
  { rewrite skipn_app, skipn_all, Nat.sub_diag. reflexivity. }
  rewrite Hskip.
  destruct old as [|b0 [|b1 old']].
  - reflexivity.
  - cbn [List.length].
    destruct added as [|a added']; [reflexivity|].
    replace (0 <? Z.of_nat 1) with true by reflexivity.
    replace (Z.of_nat 1 <? Z.of_nat (1 + List.length (a :: added')))
      with true by (symmetry; apply Z.ltb_lt; cbn [List.length]; lia).
    cbn [andb]. replace (Z.of_nat 1 =? 1) with true by reflexivity.
    cbn [andb].
    destruct (10000 <? Z.of_nat (List.length (a :: added'))) eqn:E.
    + reflexivity.
    + apply Z.ltb_ge in E.
      replace (Z.to_nat (Z.of_nat (List.length (a :: added')) - 10000))
        with 0%nat by lia.
      reflexivity.
  - set (n := List.length (b0 :: b1 :: old')).
    assert (Hn : (2 <= n)%nat) by (unfold n; cbn [List.length]; lia).
    destruct added as [|a added'].
    + cbn [List.length]. rewrite Nat.add_0_r.
      rewrite Z.ltb_irrefl, andb_false_r. reflexivity.
    + replace (0 <? Z.of_nat n) with true by (symmetry; apply Z.ltb_lt; lia).
      replace (Z.of_nat n <? Z.of_nat (n + List.length (a :: added')))
        with true by (symmetry; apply Z.ltb_lt; cbn [List.length]; lia).
      replace (Z.of_nat n =? 1) with false
        by (symmetry; apply Z.eqb_neq; lia).
      reflexivity.
Qed.

End LogApiProps.

(** ** Starting a peg-in *)

Section PeginProps.

Import GoMore Pegin.

Variable env : Env.

Ltac run_pegin :=
  unfold bind, ask, ret, getConfig, setConfig, Save, telegramSendMessage;
  cbn [config history fst snd web BitcoinHost BitcoinUser BitcoinPass].


(** [startPegin] only adds to the history and leaves the Bitcoin RPC
    fields alone. *)
Lemma startPegin_frame (amount fee : Z) (sweepall : bool) (s : State) :
  let s' := snd (startPegin env amount fee sweepall s) in
  (exists later, history s' = later ++ history s)
  /\ BitcoinHost (config s') = BitcoinHost (config s)
  /\ BitcoinUser (config s') = BitcoinUser (config s)
  /\ BitcoinPass (config s') = BitcoinPass (config s).
Proof.
  cbv zeta. unfold startPegin. run_pegin.
  destruct (env_getPeginAddress env (history s)) as [e|addr]; cbn.
  { split; [now exists [EvGetPeginAddress false]|now repeat split]. }
  destruct (env_SendCoins env _ _ _ _ _ _) as [e|txid]; cbn.
  - split; [|now repeat split]. now eexists [_; _; _; _].
  - split; [|now repeat split]. now eexists [_; _; _; _; _].
Qed.


(** X22.  The fallback of [peginHandler].  When the probe of the
    configured Bitcoin RPC fails, the handler points the running
    configuration at the public host and blanks the credentials before
    it probes again.  When the second probe fails too, the request ends
    with the getrawtransaction error: nothing is saved and nothing is
    sent, yet the running configuration keeps the public host and the
    blank credentials.  When the second probe passes, the switched
    configuration is saved before anything else is done. *)
Theorem peginHandler_falls_back_to_public_host (r : Request) (s : State)
    (amount fee : Z) (e : error) :
  let run := peginHandler env r s in
  let s' := snd run in
  let cfg := config s in
  let tx :=
    if String.eqb (env_Getenv env "NETWORK") "testnet"
    then "2c7ec5043fe8ee3cb4ce623212c0e52087d3151c9e882a04073cce1688d6fc1e"
    else "b61ec844027ce18fd3eb91fa7bed8abaa6809c4d3f6cf4952b8ebaa7cd46583a" in
  let h1 := EvConfirmedWalletBalance :: history s in
  let h2 := EvGetRawTransaction (BitcoinHost cfg) (BitcoinUser cfg)
              (BitcoinPass cfg) tx false :: h1 in
  let public := mkConfig (web cfg) (env_GetBlockIoHost env) "" "" in
  Method r = "POST" -> ParseForm r = None ->
  ParseInt (FormValue r "peginAmount") = inr amount ->
  ParseUint (FormValue r "feeRate") = inr fee ->
  env_getRawTransaction env h1 (BitcoinHost cfg) (BitcoinUser cfg)
    (BitcoinPass cfg) tx = inl e ->
  (BitcoinHost (config s') = env_GetBlockIoHost env
   /\ BitcoinUser (config s') = "" /\ BitcoinPass (config s') = "")
  /\ match env_getRawTransaction env h2 (env_GetBlockIoHost env) "" "" tx with
     | inl _ =>
         run
         = (Psweb.redirectWithError "/bitcoin?"
              (errorsNew "getrawtransaction request failed, check BitcoinHost in Config"),
            mkState public
              (EvGetRawTransaction (env_GetBlockIoHost env) "" "" tx false
                 :: h2))
     | inr _ =>
         exists later,
           history s'
           = later ++ EvSave public
               :: EvGetRawTransaction (env_GetBlockIoHost env) "" "" tx true
               :: h2
     end.
Proof.
  cbv zeta. intros Hm Hf Ha Hfee Hprobe.
  unfold peginHandler. rewrite Hm, String.eqb_refl, Hf, Ha, Hfee.
  unfold getRawTransaction. run_pegin.
  set (tx := if (env_Getenv env "NETWORK" =? "testnet")%string then _ else _)
    in *.
  rewrite Hprobe.
  cbn [config history fst snd web BitcoinHost BitcoinUser BitcoinPass
       Psweb.is_inr].
  destruct (env_getRawTransaction env _ (env_GetBlockIoHost env) "" "" tx)
    as [e'|raw];
    cbn [config history fst snd web BitcoinHost BitcoinUser BitcoinPass
         Psweb.is_inr].
  - now repeat split.
  - set (s1 := mkState _ _).
    destruct (startPegin_frame amount fee
                (amount =? env_ConfirmedWalletBalance env (history s)) s1)
      as ((later & Hl) & Hh & Hu & Hp).
    rewrite Hh, Hu, Hp. split; [now repeat split|].
    exists later. exact Hl.
Qed.

End PeginProps.

(** ** [CanRBF] *)

Section CanRBFProps.

Import Version.

Variable float64 : Type.
Variable isZero : float64 -> bool.
Variable ParseFloat : string -> error + float64.
Variable plusHundredths : float64 -> float64 -> float64.
Variable atLeast018 : float64 -> bool.

(** X23.  A version read halfway sticks.  Starting with no version on
    record, let the node report a version whose first part reads as a
    non-zero number, and whose second part is missing (no dot) or does
    not read as a number.  The call panics in the first case and answers
    false in the second, but in both the first part alone stays on
    record: every later call answers from it, without asking any node
    again. *)
Theorem CanRBF_keeps_half_read_version (node : Node) (v0 : float64)
    (version p0 : string) (rest : list string) (a : float64) :
  isZero v0 = true ->
  GetClient node = None ->
  GetInfo node = inr version ->
  Split version "." = p0 :: rest ->
  ParseFloat p0 = inr a ->
  isZero a = false ->
  rest = [] \/ (exists p1 tl e, rest = p1 :: tl /\ ParseFloat p1 = inl e) ->
  let r1 := CanRBF float64 isZero ParseFloat plusHundredths atLeast018
              node v0 in
  outcome float64 r1
  = match rest with [] => Panicked | _ :: _ => Returned false end
  /\ LndVerson float64 r1 = a
  /\ asked float64 r1 = true
  /\ forall node',
       CanRBF float64 isZero ParseFloat plusHundredths atLeast018 node'
         (LndVerson float64 r1)
       = mkResult float64 (Returned (atLeast018 a)) a false.
Proof.
  intros Hz Hc Hi Hs Hp Ha Hrest. cbv zeta.
  assert (Hr : CanRBF float64 isZero ParseFloat plusHundredths atLeast018
                 node v0
               = mkResult float64
                   match rest with [] => Panicked | _ :: _ => Returned false
                   end a true).
  { unfold CanRBF. rewrite Hz, Hc, Hi, Hs. cbn [nth_error]. rewrite Hp.
    destruct Hrest as [-> | (p1 & tl & e & -> & He)]; [reflexivity|].
    cbn [nth_error]. now rewrite He. }
  rewrite Hr. cbn [outcome LndVerson asked].
  repeat split. intros node'. unfold CanRBF. now rewrite Ha.
Qed.

End CanRBFProps.

(** ** [ListUnspent] *)

Section WalletProps.

Import Wallet.

Lemma append_each {A B} (f : A -> B) (l : list A) :
  forall init, fold_left (fun a i => a ++ [f i]) l init = init ++ map f l.
Proof.
  induction l as [|x l IH]; intros init; cbn [fold_left map].
  - now rewrite app_nil_r.
  - rewrite IH, <- app_assoc. reflexivity.
Qed.

(** X24.  [ListUnspent] closes the connection only on success.  When the
    listing is refused the error is returned with the list untouched and
    the connection that was opened is never closed.  On success the
    list keeps what it held and gains one entry per unspent output, in
    the order of the reply. *)
Theorem ListUnspent_closes_only_on_success (node : Node)
    (list : Datatypes.list UTXO) (minConfs : Z) :
  let run := ListUnspent node list minConfs in
  let err := fst (fst run) in
  let list' := snd (fst run) in
  let evs := snd run in
  (In EvClose evs <-> err = None)
  /\ (In (EvDial true) evs /\ ~ In EvClose evs
      <-> lndConnection node = None
          /\ exists e, rpc_ListUnspent node minConfs = inl e)
  /\ (err <> None -> list' = list)
  /\ (err = None ->
      exists utxos,
        rpc_ListUnspent node minConfs = inr utxos
        /\ list' = list ++ map toUTXO utxos).
Proof.
  cbv zeta. unfold ListUnspent.
  destruct (lndConnection node) as [e|].
  - cbn [fst snd]. refine (conj _ (conj _ (conj _ _))).
    + split; [intros [H|[]]; discriminate|discriminate].
    + split; [intros [[H|[]] _]; discriminate|intros [H _]; discriminate].
    + reflexivity.
    + discriminate.
  - destruct (rpc_ListUnspent node minConfs) as [e|utxos].
    + cbn [fst snd]. refine (conj _ (conj _ (conj _ _))).
      * split; [intros [H|[H|[]]]; discriminate|discriminate].
      * split.
        -- intros _. split; [reflexivity|now exists e].
        -- intros _. split; [right; now left|].
           intros [H|[H|[]]]; discriminate.
      * reflexivity.
      * discriminate.
    + cbn [fst snd]. rewrite append_each.
      refine (conj _ (conj _ (conj _ _))).
      * split; [reflexivity|intros _; now left].
      * split.
        -- intros [_ H]. exfalso. apply H. now left.
        -- intros [_ [e H]]. discriminate.
      * intros H. now contradiction H.
      * intros _. now exists utxos.
Qed.

End WalletProps.

(** ** [submitHandler] *)

Section SubmitProps.

Import Submit.

Variable answer : Backend.

Lemma call_spec (r : Pegin.Request) (c : Call) (page : string)
    (target : string -> string) :
  asksFor r c ->
  let run := call answer c page target in
  fst run = [c] /\ snd run <> None
  /\ (forall err, answer c = inl err ->
      snd run = Some (Psweb.redirectWithError page err))
  /\ (forall res, answer c = inr res ->
      snd run = Some (Psweb.Redirect (target res) 303)).
Proof.
  intros _. cbv zeta. unfold call.
  destruct (answer c) as [e|res]; cbn; repeat split; try discriminate;
    intros ? [= <-]; reflexivity.
Qed.

(** X25.  [submitHandler] calls what the form asks for, once.  A request
    leads to no call at all or to exactly one; that one is the call the
    [action] field names, with the arguments read from the form, and it
    is made only for a POST whose form was parsed and whose numbers
    read as unsigned integers.  A refused call is answered with a
    redirect that carries the error, an accepted one with a plain
    redirect.  The handler writes no response in one case only: a
    [doSwap] with readable numbers whose direction is neither [swapIn]
    nor [swapOut]; then it calls nothing either. *)
Theorem submitHandler_calls_what_the_form_asks (r : Pegin.Request) :
  let run := submitHandler answer r in
  let f := Pegin.FormValue r in
  (fst run = []
   \/ exists c,
        fst run = [c] /\ Pegin.Method r = "POST"
        /\ Pegin.ParseForm r = None /\ asksFor r c
        /\ match answer c with
           | inl err =>
               exists page,
                 snd run = Some (Psweb.redirectWithError page err)
           | inr _ => exists url, snd run = Some (Psweb.Redirect url 303)
           end)
  /\ (snd run = None
      <-> Pegin.Method r = "POST" /\ Pegin.ParseForm r = None
          /\ f "action" = "doSwap"
          /\ (exists n, ParseUint (f "swapAmount") = inr n)
          /\ (exists n, ParseUint (f "channelId") = inr n)
          /\ f "direction" <> "swapIn" /\ f "direction" <> "swapOut").
Proof.
  cbv zeta. unfold submitHandler.
  destruct (Pegin.Method r =? "POST")%string eqn:Em.
  2:{ apply String.eqb_neq in Em. cbn. split; [now left|].
      split; [discriminate|]. intros (H & _). contradiction. }
  apply String.eqb_eq in Em.
  destruct (Pegin.ParseForm r) as [e|] eqn:Ef.
  { cbn. split; [now left|]. split; [discriminate|].
    intros (_ & H & _). discriminate. }
  cbv zeta.
  assert (Hcall : forall c page target,
             asksFor r c ->
             (fst (call answer c page target) = []
              \/ exists c0,
                   fst (call answer c page target) = [c0]
                   /\ Pegin.Method r = "POST"
                   /\ @None error = None /\ asksFor r c0
                   /\ match answer c0 with
                      | inl err =>
                          exists page0,
                            snd (call answer c page target)
                            = Some (Psweb.redirectWithError page0 err)
                      | inr _ =>
                          exists url,
                            snd (call answer c page target)
                            = Some (Psweb.Redirect url 303)
                      end)
             /\ snd (call answer c page target) <> None).
  { intros c page target Hc.
    destruct (call_spec r c page target Hc) as (H1 & H2 & H3 & H4).
    split; [|exact H2]. right. exists c.
    refine (conj H1 (conj Em (conj eq_refl (conj Hc _)))).
    destruct (answer c) as [err|res].
    - exists page. now apply H3.
    - exists (target res). now apply H4. }
  assert (Hno : forall (P : Prop) (run : list Call * option Psweb.Response),
             snd run <> None -> (P -> False) -> (snd run = None <-> P)).
  { intros P run H1 H2. split; [intros H; contradiction|intros H].
    now destruct (H2 H). }
  destruct (Pegin.FormValue r "action" =? "newAddress")%string eqn:E1.
  { apply String.eqb_eq in E1.
    destruct (Hcall LiquidGetAddress "/liquid?"
                (fun address =>
                   ("/liquid?msg="
                      ++ String (ascii_of_nat 34) (String (ascii_of_nat 34) "")
                      ++ "&addr=" ++ address)%string) E1) as [H1 H2].
    split; [exact H1|]. apply Hno; [exact H2|].
    intros (_ & _ & H & _). congruence. }
  destruct (Pegin.FormValue r "action" =? "sendLiquid")%string eqn:E2.
  { apply String.eqb_eq in E2.
    destruct (ParseUint (Pegin.FormValue r "sendAmount")) as [e|amt] eqn:Ea.
    { cbn. split; [now left|]. split; [discriminate|].
      intros (_ & _ & H & _). congruence. }
    match goal with
    | |- context [call answer ?c ?p ?t] =>
        destruct (Hcall c p t) as [H1 H2]; [now repeat split|]
    end.
    split; [exact H1|]. apply Hno; [exact H2|].
    intros (_ & _ & H & _). congruence. }
  destruct (Pegin.FormValue r "action" =? "addPeer")%string eqn:E3.
  { apply String.eqb_eq in E3.
    match goal with
    | |- context [call answer ?c ?p ?t] =>
        destruct (Hcall c p t) as [H1 H2]; [now repeat split|]
    end.
    split; [exact H1|]. apply Hno; [exact H2|].
    intros (_ & _ & H & _). congruence. }
  destruct (Pegin.FormValue r "action" =? "removePeer")%string eqn:E4.
  { apply String.eqb_eq in E4.
    match goal with
    | |- context [call answer ?c ?p ?t] =>
        destruct (Hcall c p t) as [H1 H2]; [now repeat split|]
    end.
    split; [exact H1|]. apply Hno; [exact H2|].
    intros (_ & _ & H & _). congruence. }
  destruct (Pegin.FormValue r "action" =? "suspectPeer")%string eqn:E5.
  { apply String.eqb_eq in E5.
    match goal with
    | |- context [call answer ?c ?p ?t] =>
        destruct (Hcall c p t) as [H1 H2]; [now repeat split|]
    end.
    split; [exact H1|]. apply Hno; [exact H2|].
    intros (_ & _ & H & _). congruence. }
  destruct (Pegin.FormValue r "action" =? "unsuspectPeer")%string eqn:E6.
  { apply String.eqb_eq in E6.
    match goal with
    | |- context [call answer ?c ?p ?t] =>
        destruct (Hcall c p t) as [H1 H2]; [now repeat split|]
    end.
    split; [exact H1|]. apply Hno; [exact H2|].
    intros (_ & _ & H & _). congruence. }
  destruct (Pegin.FormValue r "action" =? "doSwap")%string eqn:E7.
  2:{ apply String.eqb_neq in E7. cbn. split; [now left|].
      split; [discriminate|]. intros (_ & _ & H & _). contradiction. }
  apply String.eqb_eq in E7.
  destruct (ParseUint (Pegin.FormValue r "swapAmount")) as [e|amt] eqn:Ea.
  { cbn. split; [now left|]. split; [discriminate|].
    intros (_ & _ & _ & [n H] & _). discriminate. }
  destruct (ParseUint (Pegin.FormValue r "channelId")) as [e|chan] eqn:Ec.
  { cbn. split; [now left|]. split; [discriminate|].
    intros (_ & _ & _ & _ & [n H] & _). discriminate. }
  destruct (Pegin.FormValue r "direction" =? "swapIn")%string eqn:D1.
  { apply String.eqb_eq in D1.
    match goal with
    | |- context [call answer ?c ?p ?t] =>
        destruct (Hcall c p t) as [H1 H2]; [now repeat split|]
    end.
    split; [exact H1|]. apply Hno; [exact H2|].
    intros (_ & _ & _ & _ & _ & H & _). contradiction. }
  destruct (Pegin.FormValue r "direction" =? "swapOut")%string eqn:D2.
  { apply String.eqb_eq in D2.
    match goal with
    | |- context [call answer ?c ?p ?t] =>
        destruct (Hcall c p t) as [H1 H2]; [now repeat split|]
    end.
    split; [exact H1|]. apply Hno; [exact H2|].
    intros (_ & _ & _ & _ & _ & _ & H). contradiction. }
  apply String.eqb_neq in D1. apply String.eqb_neq in D2.
  cbn. split; [now left|]. split; [intros _|reflexivity].
  repeat split; auto; eauto.
Qed.

End SubmitProps.

(** ** The generated reader *)

Section SwaggerProps.

Import Swagger.

Variable Swaps : Type.
Variable RPCStatus : Type.

Lemma quot100 (c k : Z) :
  0 < k -> (Z.quot c 100 =? k) = true <-> 100 * k <= c < 100 * k + 100.
Proof.
  intros Hk. rewrite Z.eqb_eq.
  Z.to_euclidean_division_equations. lia.
Qed.

(** X26.  [ReadResponse] and the status classes agree.  What comes back
    as the value answers [IsSuccess] with true and carries a code from
    200 to 299; a reply that comes back as the error answers [IsSuccess]
    with false and carries a code outside that range; both carry the
    code of the response.  A body that ends early is not an error.  No
    reply is in two of the classes success, redirect, client error and
    server error. *)
Theorem ReadResponse_agrees_with_IsSuccess
    (response : ClientResponse Swaps RPCStatus) :
  let code := response_Code Swaps RPCStatus response in
  match ReadResponse Swaps RPCStatus response with
  | Value _ _ o =>
      IsSuccess Swaps RPCStatus o = true
      /\ Code Swaps RPCStatus o = code /\ 200 <= code <= 299
  | ErrorReply _ _ o =>
      IsSuccess Swaps RPCStatus o = false
      /\ Code Swaps RPCStatus o = code /\ (code < 200 \/ 299 < code)
  | ErrorOther _ _ err =>
      if code =? 200
      then consumeSwaps Swaps RPCStatus response = Failed err
      else consumeStatus Swaps RPCStatus response = Failed err
  end
  /\ forall o : Reply Swaps RPCStatus,
       (if IsSuccess Swaps RPCStatus o then 1 else 0)
       + (if IsRedirect Swaps RPCStatus o then 1 else 0)
       + (if IsClientError Swaps RPCStatus o then 1 else 0)
       + (if IsServerError Swaps RPCStatus o then 1 else 0) <= 1.
Proof.
  cbv zeta. split.
  - unfold ReadResponse.
    destruct (response_Code Swaps RPCStatus response =? 200) eqn:E200.
    + apply Z.eqb_eq in E200.
      destruct (consumeSwaps Swaps RPCStatus response); cbn;
        try reflexivity; repeat split; lia.
    + apply Z.eqb_neq in E200.
      destruct (consumeStatus Swaps RPCStatus response); cbn;
        try reflexivity;
        (destruct (Z.quot (response_Code Swaps RPCStatus response) 100 =? 2)
           eqn:Eq; cbn; rewrite Eq;
         [ apply quot100 in Eq; [|lia]; repeat split; lia
         | repeat split;
           destruct (Z_lt_le_dec (response_Code Swaps RPCStatus response) 200);
           [now left|];
           destruct (Z_lt_le_dec 299 (response_Code Swaps RPCStatus response));
           [now right|];
           assert (Ht : (Z.quot (response_Code Swaps RPCStatus response) 100
                         =? 2) = true) by (apply quot100; lia);
           congruence ]).
  - intros [p|c p]; cbn; [lia|].
    destruct (Z.quot c 100 =? 2) eqn:E2, (Z.quot c 100 =? 3) eqn:E3,
      (Z.quot c 100 =? 4) eqn:E4, (Z.quot c 100 =? 5) eqn:E5;
      try lia;
      rewrite ?Z.eqb_eq in *; lia.
Qed.

End SwaggerProps.

(** ** The Bitcoin page *)

Section BitcoinPageProps.

Import GoMore BitcoinPage.

Variable UTXO : Type.

Lemma int32_small z : - 2 ^ 31 <= z < 2 ^ 31 -> int32 z = z.
Proof.
  intros H. unfold int32. rewrite Z.mod_small; lia.
Qed.

(** X27.  The fees and the progress on the Bitcoin page.  While a peg-in
    is pending without a confirmation, the suggested fee rate is the
    larger of one and a half times the mempool rate and the minimum bump
    rate shown on the same page, so it is never below that minimum; in
    every other case it is the mempool rate as it is.  With no peg-in
    pending the page shows 0 confirmations and 0 progress.  For a pending
    peg-in with -1 (unknown) to 102 confirmations the progress lies
    between 0 and 100, and is 100 only at 102 confirmations. *)
Theorem bitcoinHandler_fee_floor_and_progress (w : World UTXO) :
  let p := bitcoinHandler UTXO w in
  let txid := Psweb.PeginTxId (cfg UTXO w) in
  let confs := GetTxConfirmations UTXO w txid in
  let scaled := oneAndAHalf UTXO w (GetFee UTXO w) in
  MinBumpFeeRate UTXO p = uint32 (Psweb.PeginFeeRate (cfg UTXO w) + 1)
  /\ (txid <> "" -> confs = 0 ->
      SuggestedFeeRate UTXO p = Z.max scaled (MinBumpFeeRate UTXO p))
  /\ (txid = "" \/ confs <> 0 -> SuggestedFeeRate UTXO p = GetFee UTXO w)
  /\ (txid = "" ->
      Confirmations UTXO p = 0 /\ Progress UTXO p = 0)
  /\ (txid <> "" -> -1 <= confs <= 102 ->
      Confirmations UTXO p = confs
      /\ 0 <= Progress UTXO p <= 100
      /\ (Progress UTXO p = 100 <-> confs = 102)).
Proof.
  cbv zeta. unfold bitcoinHandler.
  cbn [MinBumpFeeRate SuggestedFeeRate Confirmations Progress].
  destruct (Psweb.PeginTxId (cfg UTXO w) =? "")%string eqn:Et;
    cbn [negb andb].
  - apply String.eqb_eq in Et.
    refine (conj eq_refl (conj _ (conj _ (conj _ _)))).
    + intros H. now contradiction H.
    + reflexivity.
    + intros _. split; reflexivity.
    + intros H. now contradiction H.
  - apply String.eqb_neq in Et.
    set (confs := GetTxConfirmations UTXO w _).
    refine (conj eq_refl (conj _ (conj _ (conj _ _)))).
    + intros _ Hc. rewrite Hc. cbn [Z.eqb].
      destruct (_ <? _) eqn:El; [apply Z.ltb_lt in El|apply Z.ltb_ge in El];
        lia.
    + intros [H|H]; [congruence|].
      apply Z.eqb_neq in H. now rewrite H.
    + intros H. now contradiction Et.
    + intros _ Hr.
      assert (Hq : int32 (confs * 100) = confs * 100)
        by (apply int32_small; lia).
      rewrite Hq.
      assert (Hb : 0 <= Z.quot (confs * 100) 102 <= 100
                   /\ (Z.quot (confs * 100) 102 = 100 <-> confs = 102)).
      { Z.to_euclidean_division_equations. lia. }
      rewrite int32_small by lia.
      split; [reflexivity|exact Hb].
Qed.

End BitcoinPageProps.

(** ** Saving the configuration *)

Section SaveConfigProps.

Import SaveConfig.

Variable env : Env.

(** X28.  A form with an unreadable history length is refused too late.
    The handler answers with the conversion error, saves nothing and
    does not call the swap daemon; but the running configuration already
    carries the form's colour scheme, links, Telegram token, Elements
    settings, Bitcoin RPC settings and proxy, and the Telegram bot has
    been restarted when the token changed.  Only the history length,
    the RPC host and the swap-request switch are as before. *)
Theorem saveConfigHandler_rejected_number_keeps_changes
    (r : Pegin.Request) (cfg : Config) (allow : bool) (e : error) :
  let f := Pegin.FormValue r in
  let o := saveConfigHandler env r cfg in
  Pegin.Method r = "POST" ->
  Pegin.ParseForm r = None ->
  ParseBool (f "allowSwapRequests") = inr allow ->
  ParseUint16 (f "maxHistory") = inl e ->
  response o = Psweb.redirectWithError "/config?" e
  /\ wasSaved (events o) = false
  /\ (forall host a ok, ~ In (EvAllowSwapRequests host a ok) (events o))
  /\ (In EvTelegramStart (events o)
      <-> TelegramToken cfg <> f "telegramToken")
  /\ (ColorScheme (config o) = f "colorScheme"
      /\ NodeApi (config o) = f "nodeApi"
      /\ LiquidApi (config o) = f "liquidApi"
      /\ TelegramToken (config o) = f "telegramToken"
      /\ LocalMempool (config o) = f "localMempool"
      /\ ElementsUser (config o) = f "elementsUser"
      /\ ElementsPass (config o) = f "elementsPass"
      /\ ElementsDir (config o) = f "elementsDir"
      /\ ElementsDirMapped (config o) = f "elementsDirMapped"
      /\ BitcoinHost (config o) = f "bitcoinHost"
      /\ BitcoinUser (config o) = f "bitcoinUser"
      /\ BitcoinPass (config o) = f "bitcoinPass"
      /\ ProxyURL (config o) = f "proxyURL")
  /\ MaxHistory (config o) = MaxHistory cfg
  /\ RpcHost (config o) = RpcHost cfg
  /\ AllowSwapRequests (config o) = AllowSwapRequests cfg.
Proof.
  cbv zeta. intros Hm Hf Ha Hmh.
  unfold saveConfigHandler. rewrite Hm, String.eqb_refl, Hf, Ha, Hmh.
  cbn [response config events ColorScheme NodeApi LiquidApi TelegramToken
       LocalMempool ElementsUser ElementsPass ElementsDir ElementsDirMapped
       BitcoinHost BitcoinUser BitcoinPass ProxyURL MaxHistory RpcHost
       AllowSwapRequests].
  destruct (TelegramToken cfg =? Pegin.FormValue r "telegramToken")%string
    eqn:Et; cbn [negb].
  - apply String.eqb_eq in Et.
    refine (conj eq_refl (conj eq_refl (conj _ (conj _ _)))).
    + intros host a ok [].
    + split; [intros []|intros H; contradiction].
    + now repeat split.
  - apply String.eqb_neq in Et.
    refine (conj eq_refl (conj eq_refl (conj _ (conj _ _)))).
    + intros host a ok [H|[]]. discriminate.
    + split; [intros _; exact Et|intros _; now left].
    + now repeat split.
Qed.

(** X29.  What [saveConfigHandler] saves and when it restarts.  Whatever
    is written to disk is the configuration then in memory.  Without a
    successful save the answer is an error.  The daemon is stopped
    exactly when the save succeeded and the Bitcoin-swaps switch or the
    Elements user or password differ from what was on record; the answer
    is then the loading page, also when the swap daemon has just refused
    the RPC host.  The RPC host and the swap-request switch on record
    change only when the daemon accepted them. *)
Theorem saveConfigHandler_saves_memory_and_restarts
    (r : Pegin.Request) (cfg : Config) :
  let f := Pegin.FormValue r in
  let o := saveConfigHandler env r cfg in
  let bitcoinSwaps :=
    match ParseBool (f "bitcoinSwaps") with inl _ => false | inr b => b end in
  (forall c, In (EvSave c true) (events o) -> c = config o)
  /\ (wasSaved (events o) = false ->
      forall url code, response o <> Psweb.Redirect url code)
  /\ (In EvStop (events o)
      <-> wasSaved (events o) = true
          /\ (BitcoinSwaps cfg <> bitcoinSwaps
              \/ ElementsUser cfg <> f "elementsUser"
              \/ ElementsPass cfg <> f "elementsPass"))
  /\ (In EvStop (events o) -> response o = Psweb.Redirect "/loading" 303)
  /\ (RpcHost (config o) <> RpcHost cfg
      \/ AllowSwapRequests (config o) <> AllowSwapRequests cfg ->
      exists allow,
        In (EvAllowSwapRequests (f "rpcHost") allow true) (events o)
        /\ RpcHost (config o) = f "rpcHost"
        /\ AllowSwapRequests (config o) = allow).
Proof.
  cbv zeta. unfold saveConfigHandler.
  assert (Hidle : forall resp,
             (forall url code, resp <> Psweb.Redirect url code) ->
             let o := mkOutcome resp cfg [] in
             (forall c, In (EvSave c true) (events o) -> c = config o)
             /\ (wasSaved (events o) = false ->
                 forall url code, response o <> Psweb.Redirect url code)
             /\ (In EvStop (events o)
                 <-> wasSaved (events o) = true
                     /\ (BitcoinSwaps cfg
                         <> match ParseBool (Pegin.FormValue r "bitcoinSwaps")
                            with inl _ => false | inr b => b end
                         \/ ElementsUser cfg
                            <> Pegin.FormValue r "elementsUser"
                         \/ ElementsPass cfg
                            <> Pegin.FormValue r "elementsPass"))
             /\ (In EvStop (events o)
                 -> response o = Psweb.Redirect "/loading" 303)
             /\ (RpcHost (config o) <> RpcHost cfg
                 \/ AllowSwapRequests (config o) <> AllowSwapRequests cfg ->
                 exists allow,
                   In (EvAllowSwapRequests (Pegin.FormValue r "rpcHost")
                         allow true) (events o)
                   /\ RpcHost (config o) = Pegin.FormValue r "rpcHost"
                   /\ AllowSwapRequests (config o) = allow)).
  { intros resp Hresp. cbn.
    refine (conj _ (conj _ (conj _ (conj _ _)))).
    - intros c [].
    - intros _. exact Hresp.
    - split; [intros []|intros [H _]; discriminate].
    - intros [].
    - intros [H|H]; now contradiction H. }
  assert (Herr : forall page e url code,
             Psweb.redirectWithError page e <> Psweb.Redirect url code)
    by (intros; unfold Psweb.redirectWithError; discriminate).
  destruct (Pegin.Method r =? "POST")%string; [|apply Hidle; discriminate].
  destruct (Pegin.ParseForm r); [apply Hidle; discriminate|].
  destruct (ParseBool (Pegin.FormValue r "allowSwapRequests"))
    as [e|allow]; [apply Hidle; apply Herr|].
  set (bs := match ParseBool (Pegin.FormValue r "bitcoinSwaps") with
             | inl _ => false | inr b => b end).
  set (ev1 := if negb (TelegramToken cfg
                       =? Pegin.FormValue r "telegramToken")%string
              then [EvTelegramStart] else []).
  assert (Hev1 : forall ev, In ev ev1 -> ev = EvTelegramStart).
  { intros ev. unfold ev1. destruct (negb _); [intros [H|[]]; auto|intros []]. }
  assert (Hsaved1 : forall tl, wasSaved (ev1 ++ tl) = wasSaved tl).
  { intros tl. unfold ev1. destruct (negb _); reflexivity. }
  set (mustRestart := (negb (Bool.eqb (BitcoinSwaps cfg) bs)
                       || negb (ElementsUser cfg
                                =? Pegin.FormValue r "elementsUser")%string
                       || negb (ElementsPass cfg
                                =? Pegin.FormValue r "elementsPass")%string)%bool).
  assert (Hrestart : mustRestart = true
                     <-> (BitcoinSwaps cfg <> bs
                          \/ ElementsUser cfg
                             <> Pegin.FormValue r "elementsUser"
                          \/ ElementsPass cfg
                             <> Pegin.FormValue r "elementsPass")).
  { unfold mustRestart. rewrite !orb_true_iff, !negb_true_iff.
    rewrite !String.eqb_neq, Bool.eqb_false_iff. tauto. }
  destruct (ParseUint16 (Pegin.FormValue r "maxHistory")) as [e|mh].
  { cbn [response config events RpcHost AllowSwapRequests].
    refine (conj _ (conj _ (conj _ (conj _ _)))).
    - intros c H. apply Hev1 in H. discriminate.
    - intros _. apply Herr.
    - split.
      + intros H. apply Hev1 in H. discriminate.
      + intros [H _]. rewrite <- (app_nil_r ev1), Hsaved1 in H. discriminate.
    - intros H. apply Hev1 in H. discriminate.
    - intros [H|H]; now contradiction H. }
  cbn [ColorScheme NodeApi BitcoinApi LiquidApi TelegramToken LocalMempool
       BitcoinSwaps ElementsUser ElementsPass ElementsDir ElementsDirMapped
       BitcoinHost BitcoinUser BitcoinPass ProxyURL MaxHistory RpcHost
       AllowSwapRequests].
  set (err := env_AllowSwapRequests env (Pegin.FormValue r "rpcHost") allow).
  set (cfg' := mkConfig _ _ _ _ _ _ _ _ _ _ _ _ _ _ _ mh _ _).
  assert (Hrpc : RpcHost cfg' <> RpcHost cfg
                 \/ AllowSwapRequests cfg' <> AllowSwapRequests cfg ->
                 err = None
                 /\ RpcHost cfg' = Pegin.FormValue r "rpcHost"
                 /\ AllowSwapRequests cfg' = allow).
  { unfold cfg'. cbn [RpcHost AllowSwapRequests].
    destruct err; [intros [H|H]; now contradiction H|now intros _]. }
  assert (Hcall : forall tl,
             RpcHost cfg' <> RpcHost cfg
             \/ AllowSwapRequests cfg' <> AllowSwapRequests cfg ->
             exists allow0,
               In (EvAllowSwapRequests (Pegin.FormValue r "rpcHost") allow0
                     true)
                  (ev1 ++ [EvAllowSwapRequests (Pegin.FormValue r "rpcHost")
                             allow (Psweb.is_None err)] ++ tl)
               /\ RpcHost cfg' = Pegin.FormValue r "rpcHost"
               /\ AllowSwapRequests cfg' = allow0).
  { intros tl H. destruct (Hrpc H) as (He & H1 & H2).
    exists allow. rewrite He. split; [|now split].
    apply in_or_app. right. now left. }
  assert (Hin : forall ev tl,
             In ev (ev1 ++ [EvAllowSwapRequests
                              (Pegin.FormValue r "rpcHost") allow
                              (Psweb.is_None err)] ++ tl) ->
             ev = EvTelegramStart
             \/ ev = EvAllowSwapRequests (Pegin.FormValue r "rpcHost") allow
                       (Psweb.is_None err)
             \/ In ev tl).
  { intros ev tl H. apply in_app_or in H. destruct H as [H|[H|H]].
    - left. now apply Hev1.
    - right. left. now symmetry.
    - right. now right. }
  destruct (env_Save env cfg') as [err2|].
  { cbn [response config events].
    refine (conj _ (conj _ (conj _ (conj _ _)))).
    - intros c H. apply Hin in H.
      destruct H as [H|[H|[H|[]]]]; discriminate.
    - intros _. apply Herr.
    - split.
      + intros H. apply Hin in H.
        destruct H as [H|[H|[H|[]]]]; discriminate.
      + intros [H _]. rewrite Hsaved1 in H. discriminate.
    - intros H. apply Hin in H.
      destruct H as [H|[H|[H|[]]]]; discriminate.
    - apply Hcall. }
  destruct mustRestart eqn:Emr.
  { cbn [response config events]. rewrite <- !app_assoc.
    refine (conj _ (conj _ (conj _ (conj _ _)))).
    - intros c H. apply Hin in H.
      destruct H as [H|[H|[H|[H|[H|[]]]]]]; try discriminate.
      now injection H.
    - rewrite Hsaved1. discriminate.
    - split.
      + intros _. split; [now rewrite Hsaved1|]. now apply Hrestart.
      + intros _. apply in_or_app. right. right. right. right. now left.
    - reflexivity.
    - apply Hcall. }
  assert (Hno : ~ (BitcoinSwaps cfg <> bs
                   \/ ElementsUser cfg <> Pegin.FormValue r "elementsUser"
                   \/ ElementsPass cfg <> Pegin.FormValue r "elementsPass")).
  { intros H. apply Hrestart in H. discriminate. }
  destruct err as [e|] eqn:Eerr; fold err in Hrpc, Hcall, Hin;
    cbn [response config events];
    (refine (conj _ (conj _ (conj _ (conj _ _))));
     [ intros c H; apply Hin in H;
       destruct H as [H|[H|[H|[]]]]; try discriminate; now injection H
     | rewrite Hsaved1; discriminate
     | split;
       [ intros H; apply Hin in H;
         destruct H as [H|[H|[H|[]]]]; discriminate
       | intros [_ H]; contradiction ]
     | intros H; apply Hin in H;
       destruct H as [H|[H|[H|[]]]]; discriminate
     | apply Hcall ]).
Qed.

End SaveConfigProps.

(** ** Further concrete runs *)

Lemma SendCoinsWithUtxos_direct_funding_witness :
  exists evs,
    snd (SendCoinsWithUtxos Examples.libs0 Examples.okBackend Examples.cfg0
           402 ["aa:0"] "bc1qdest" 1000 5 false []) = evs ++ []
    /\ (filter isFund evs = []
        \/ exists inputs ok,
             map Some inputs = map outpointOf ["aa:0"]
             /\ filter isFund evs
                = [mkEvent
                     (CallFundPsbt
                        (mkFundPsbtRequest
                           (TemplateRaw inputs [("bc1qdest", uint64 1000)])
                           5 1 false CHANGE_ADDRESS_TYPE_P2TR)) ok]).
Proof.
  eapply (SendCoinsWithUtxos_direct_funding Examples.libs0 Examples.okBackend
            Examples.cfg0 402 ["aa:0"] "bc1qdest" 1000 5 []).
  vm_compute. reflexivity.
Defined.

Lemma SendCoinsWithUtxos_reported_amount_witness :
  exists res tr',
    SendCoinsWithUtxos Examples.libs0 Examples.walletBackend Examples.cfg0 402
      ["aa:0"] "bc1qdest" 1000 5 true [] = (Ok res, tr')
    /\ exists rawTx msgTx older,
         tr' = mkEvent (CallPublishTransaction rawTx "Liquid Peg-in") true
                 :: older
         /\ Deserialize Examples.libs0 rawTx = inr msgTx
         /\ exists out0 outs,
              TxOut_ msgTx = out0 :: outs /\ AmountSat res = Value out0.
Proof.
  eexists _, _. split.
  - vm_compute. reflexivity.
  - eapply (SendCoinsWithUtxos_reported_amount Examples.libs0 Examples.walletBackend
              Examples.cfg0 402 ["aa:0"] "bc1qdest" 1000 5 true []).
    vm_compute. reflexivity.
Defined.

Lemma SendCoinsWithUtxos_rejection_releases_witness :
  fst (SendCoinsWithUtxos Examples.libs0 MoreExamples.noSign Examples.cfg0
         402 ["aa:0"] "bc1qdest" 1000 5 false [])
  = Fail (rpcError "cannot sign").
Proof.
  exact (proj1
           (proj1
              (SendCoinsWithUtxos_rejection_releases Examples.libs0
                 MoreExamples.noSign Examples.cfg0 402 ["aa:0"] "bc1qdest"
                 1000 5 [] [mkOutPoint [] "aa" 0] [x01]
                 eq_refl eq_refl eq_refl)
              (rpcError "cannot sign") eq_refl)).
Defined.

Lemma SendCoinsWithUtxos_deserialize_failure_keeps_locks_witness :
  holder
    (snd (SendCoinsWithUtxos MoreExamples.libsNoParse MoreExamples.okNoParse
            Examples.cfg0 402 ["aa:0"] "bc1qdest" 1000 5 false []))
    (key_of (mkOutPoint [] "aa" 0))
  = Some internalLockId.
Proof.
  refine (proj2
            (SendCoinsWithUtxos_deserialize_failure_keeps_locks
               MoreExamples.libsNoParse MoreExamples.okNoParse Examples.cfg0
               402 ["aa:0"] "bc1qdest" 1000 5 [] [mkOutPoint [] "aa" 0] [x01]
               eq_refl eq_refl eq_refl [x02; x01]
               (libError "unreadable transaction") eq_refl eq_refl)
            "aa:0" (mkOutPoint [] "aa" 0) _ eq_refl).
  now left.
Defined.

Lemma SendCoinsWithUtxos_rejects_bad_index_witness :
  SendCoinsWithUtxos Examples.libs0 Examples.okBackend Examples.cfg0 402
    (["aa:0"] ++ "bb:x" :: ["cc:2"]) "bc1qdest" 1000 5 true []
  = (Fail (NumError "Atoi" "x" true), [mkEvent CallConnect true]).
Proof.
  apply (SendCoinsWithUtxos_rejects_bad_index Examples.libs0
           Examples.okBackend Examples.cfg0 402 ["aa:0"] ["cc:2"] "bb:x" "x").
  - reflexivity.
  - repeat constructor. discriminate.
  - reflexivity.
  - reflexivity.
  - right. reflexivity.
Defined.

Lemma fundPsbtSpendAll_inputs_witness :
  exists evs,
    snd (fundPsbtSpendAll Examples.libs0 Examples.walletBackend Examples.cfg0
           ["aa:0"; "zz:9"] "bc1qdest" 5 []) = evs ++ []
    /\ exists ev, In ev evs /\ isFund ev = true.
Proof.
  destruct (fundPsbtSpendAll Examples.libs0 Examples.walletBackend
              Examples.cfg0 ["aa:0"; "zz:9"] "bc1qdest" 5 [])
    as [r tr'] eqn:E.
  destruct (fundPsbtSpendAll_inputs Examples.libs0 Examples.walletBackend
              Examples.cfg0 ["aa:0"; "zz:9"] "bc1qdest" 5 [] tr' r E)
    as (evs & Hh & _).
  exists evs. split; [exact Hh|].
  vm_compute in E. injection E as _ E. subst tr'.
  rewrite app_nil_r in Hh. subst evs.
  eexists. split; [left; reflexivity|reflexivity].
Defined.

Lemma BumpPeginFee_gives_up_early_witness :
  BumpPeginFee Examples.libs0 Examples.okBackend Examples.cfg0 402 10 []
  = (Fail (errorsNew "txid not found"),
     [mkEvent CallGetTransactions true; mkEvent CallConnect true]).
Proof.
  refine (proj1
            (BumpPeginFee_gives_up_early Examples.libs0 Examples.okBackend
               Examples.cfg0 402 10 [] eq_refl)
            [] eq_refl _).
  intros t [].
Defined.

Lemma bumpfeeHandler_bumps_first_change_output_witness :
  Psweb.bumpRequests
    (Psweb.history
       (snd (Psweb.bumpfeeHandler (Examples.webEnv 0 true)
               (Psweb.mkRequest "POST" None "12") Examples.webState)))
  = [("pegin", 1, 12, true)].
Proof.
  destruct (bumpfeeHandler_bumps_first_change_output (Examples.webEnv 0 true)
              (Psweb.mkRequest "POST" None "12") Examples.webState)
    as [H | _].
  - intros h txid tx [= <-]. vm_compute. discriminate.
  - vm_compute in H. discriminate H.
  - vm_compute. reflexivity.
Defined.

Lemma GetForwardingStats_windows_nest_witness :
  let r := Forwarding.GetForwardingStats
             (MoreExamples.now - 7 * MoreExamples.day)
             (MoreExamples.now - 30 * MoreExamples.day)
             (MoreExamples.now - 182 * MoreExamples.day)
             7 MoreExamples.events7 in
  Forwarding.AmountOut7d r <= Forwarding.AmountOut30d r
  /\ Forwarding.AmountOut7d r = 500 /\ Forwarding.AmountOut30d r = 1500
  /\ Forwarding.AmountIn6m r = 2020 /\ Forwarding.FeeSat30d r = 15
  /\ Forwarding.AssistedFeeSat30d r = 20.
Proof.
  split.
  - apply (GetForwardingStats_windows_nest
             (MoreExamples.now - 7 * MoreExamples.day)
             (MoreExamples.now - 30 * MoreExamples.day)
             (MoreExamples.now - 182 * MoreExamples.day)
             7 MoreExamples.events7).
    + repeat constructor; vm_compute; discriminate.
    + vm_compute. reflexivity.
    + vm_compute. reflexivity.
    + vm_compute. reflexivity.
  - vm_compute. repeat split.
Defined.

Lemma logApiHandler_returns_tail_witness :
  exists skipped text,
    LogApi.logApiHandler (MoreExamples.logWorld MoreExamples.logBytes "5")
    = LogApi.ResponseData 12 text
    /\ MoreExamples.logBytes = skipped ++ text
    /\ Z.of_nat (List.length skipped) = 5.
Proof.
  destruct (logApiHandler_returns_tail
              (MoreExamples.logWorld MoreExamples.logBytes "5")
              MoreExamples.logBytes "5" 5)
    as (skipped & text & Hr & Hc & _ & Hlen & _).
  - intros name. reflexivity.
  - reflexivity.
  - reflexivity.
  - exists skipped, text. split; [exact Hr|]. split; [exact Hc|].
    apply Hlen. vm_compute. split; reflexivity.
Defined.

Lemma logApiHandler_follows_appends_witness :
  LogApi.logApiHandler
    (MoreExamples.logWorld
       (MoreExamples.logBytes ++ list_byte_of_string "!!") "12")
  = LogApi.ResponseData 14 (list_byte_of_string "!!").
Proof.
  exact (logApiHandler_follows_appends
           (MoreExamples.logWorld
              (MoreExamples.logBytes ++ list_byte_of_string "!!") "12")
           MoreExamples.logBytes (list_byte_of_string "!!") "12"
           (fun name => eq_refl) eq_refl eq_refl).
Defined.

Lemma peginHandler_falls_back_to_public_host_witness :
  let s' := snd (Pegin.peginHandler MoreExamples.peginEnv
                   MoreExamples.peginRequest MoreExamples.peginState) in
  Pegin.BitcoinHost (Pegin.config s') = "public:443"
  /\ Pegin.BitcoinUser (Pegin.config s') = ""
  /\ Pegin.BitcoinPass (Pegin.config s') = "".
Proof.
  exact (proj1
           (peginHandler_falls_back_to_public_host MoreExamples.peginEnv
              MoreExamples.peginRequest MoreExamples.peginState 250000 7
              (rpcError "connection refused")
              eq_refl eq_refl eq_refl eq_refl eq_refl)).
Defined.

(** The same request, spelled out: the send is refused, the pending id
    and its fee rate stay, but the claim script and the amount on record
    are already those of the refused peg-in. *)
Example peginHandler_refused_send_example :
  let s' := snd (Pegin.peginHandler MoreExamples.peginEnv
                   MoreExamples.peginRequest MoreExamples.peginState) in
  Pegin.sendAttempts (Pegin.history s')
  = [("bc1qmainchain", 250000, 7, false, "Liquid pegin", false)]
  /\ Pegin.web (Pegin.config s')
     = Psweb.mkConfig "pegin" 250000 10 "newscript" "" "" "wallet" 0 "/data".
Proof. vm_compute. split; reflexivity. Qed.

Lemma CanRBF_keeps_half_read_version_witness :
  let r1 := MoreExamples.toyCanRBF (Version.mkNode None (inr "1")) 0 in
  Version.outcome Z r1 = Version.Panicked
  /\ MoreExamples.toyCanRBF (Version.mkNode None (inr "0.17"))
       (Version.LndVerson Z r1)
     = Version.mkResult Z (Version.Returned true) 100 false.
Proof.
  destruct (CanRBF_keeps_half_read_version Z (Z.eqb 0)
              MoreExamples.toyParseFloat (fun a b => a + b / 100) (Z.leb 18)
              (Version.mkNode None (inr "1")) 0 "1" "1" [] 100
              eq_refl eq_refl eq_refl eq_refl eq_refl eq_refl
              (or_introl eq_refl))
    as (Hout & Hv & _ & Hnext).
  split; [exact Hout|].
  exact (Hnext (Version.mkNode None (inr "0.17"))).
Defined.

Lemma saveConfigHandler_rejected_number_keeps_changes_witness :
  let o := SaveConfig.saveConfigHandler MoreExamples.saveEnv
             MoreExamples.saveRequest MoreExamples.savedConfig in
  SaveConfig.wasSaved (SaveConfig.events o) = false
  /\ SaveConfig.ElementsPass (SaveConfig.config o) = "newpass"
  /\ SaveConfig.events o = [SaveConfig.EvTelegramStart].
Proof.
  destruct (saveConfigHandler_rejected_number_keeps_changes
              MoreExamples.saveEnv MoreExamples.saveRequest
              MoreExamples.savedConfig true
              (NumError "ParseUint" "many" true)
              eq_refl eq_refl eq_refl eq_refl)
    as (_ & Hs & _ & _ & (_ & _ & _ & _ & _ & _ & Hp & _) & _).
  split; [exact Hs|]. split; [exact Hp|]. reflexivity.
Defined.
